(** * wormhole/_dilation/subchannel.py: subchannels and their endpoints

    A shallow embedding of the subchannel layer of the dilation protocol:
    the [SubChannel] state machine, the addresses, and the three endpoints
    that bind application protocols to subchannels.

    Python objects live in a store ([World]); a method takes the reference
    of [self] and runs in a state-and-exception monad over that store.  A
    raised exception keeps every store update made before it, as in Python.
    Calls that leave the module (the manager, the application's protocol
    and factory objects) are recorded, in program order, in the world's
    [trace]. *)

From Stdlib Require Import ZArith String.
From stdpp Require Import base option list gmap.

Local Open Scope Z_scope.

(** ** Python values that reach the validators *)

Definition bytes := list Byte.byte.

(** [len(data)] *)
Definition len (data : bytes) : Z := Z.of_nat (length data).

Inductive pyval :=
| PyNone
| PyBool (b : bool)
| PyInt (n : Z)
| PyBytes (data : bytes)
| PyStr (s : string).

(** [isinstance(v, six.integer_types)]: [bool] is a subclass of [int]. *)
Definition is_integer (v : pyval) : bool :=
  match v with
  | PyInt _ | PyBool _ => true
  | _ => false
  end.

(** The integer an [int] instance stands for ([True] is 1, [False] is 0). *)
Definition int_value (v : pyval) : Z :=
  match v with
  | PyInt n => n
  | PyBool b => if b then 1 else 0
  | _ => 0
  end.

(** [isinstance(v, type(b""))] *)
Definition is_bytes (v : pyval) : bool :=
  match v with
  | PyBytes _ => true
  | _ => false
  end.

(** ** Exceptions and results *)

Inductive exn :=
| AssertionError
| TypeError
| AlreadyClosedError (msg : string)
| SingleUseEndpointError
| AttributeError
| NoTransition                 (* automat: no transition for this input *)
| Stuck                        (* this model only: a reference without an
                                  object, a loop out of turns *)
| Failure (f : nat).           (* the failure a readiness signal carries *)

Inductive result (A : Type) :=
| Ok (a : A)
| Raise (e : exn).
Arguments Ok {A} a.
Arguments Raise {A} e.

(** line 22 *)
Definition MAX_FRAME_LENGTH : Z := 2 ^ 32 - 1 - 9 - 16.

(** ** Addresses *)

Inductive _WormholeAddress : Set := WormholeAddress.

Record _SubchannelAddress := SubchannelAddress { addr_scid : Z }.

(** [_SubchannelAddress(scid)]: the attrs validator
    [instance_of(six.integer_types)] raises TypeError, and nothing else is
    checked. *)
Definition new_SubchannelAddress (scid : pyval) : result _SubchannelAddress :=
  if is_integer scid then Ok (SubchannelAddress (int_value scid))
  else Raise TypeError.

(** ** Objects outside the module *)

Definition ref := nat.          (* identity of a SubChannel object *)
Definition protocol := nat.     (* an application IProtocol object *)
Definition factory := nat.      (* an application protocol factory *)
Definition producer := nat.

Inductive reason : Set := ConnectionDone.

(** Calls made on the manager, on a factory and on a protocol.  Protocol
    and factory objects are plain objects, hence true in a boolean test. *)
Inductive Event :=
| M_send_data (scid : Z) (data : bytes)
| M_send_close (scid : Z)
| M_send_open (scid : Z)
| M_allocate_subchannel_id (returned : Z)
| M_subchannel_local_open (scid : Z) (sc : ref)
| M_subchannel_closed (scid : Z) (sc : ref)
| M_subchannel_stopProducing (sc : ref)
| M_subchannel_pauseProducing (sc : ref)
| M_subchannel_resumeProducing (sc : ref)
| M_subchannel_registerProducer (sc : ref) (p : producer) (streaming : bool)
| M_subchannel_unregisterProducer (sc : ref)
| F_buildProtocol (f : factory) (addr : _SubchannelAddress) (returned : protocol)
| P_dataReceived (p : protocol) (data : bytes)
| P_connectionLost (p : protocol) (what : option reason)
| P_makeConnection (p : protocol) (transport : ref).

(** ** The SubChannel object *)

Inductive state := open | closing | closed.

Record SubChannel := mkSubChannel {
  _scid : Z;
  _host_addr : _WormholeAddress;
  _peer_addr : _SubchannelAddress;
  _state : state;
  _protocol : option protocol;
  _pending_dataReceived : list bytes;
  _pending_connectionLost : bool * option reason
}.

Definition with_state (s : state) (sc : SubChannel) : SubChannel :=
  mkSubChannel (_scid sc) (_host_addr sc) (_peer_addr sc) s (_protocol sc)
    (_pending_dataReceived sc) (_pending_connectionLost sc).

Definition with_protocol (p : option protocol) (sc : SubChannel) : SubChannel :=
  mkSubChannel (_scid sc) (_host_addr sc) (_peer_addr sc) (_state sc) p
    (_pending_dataReceived sc) (_pending_connectionLost sc).

Definition with_pending_dataReceived (l : list bytes) (sc : SubChannel)
  : SubChannel :=
  mkSubChannel (_scid sc) (_host_addr sc) (_peer_addr sc) (_state sc)
    (_protocol sc) l (_pending_connectionLost sc).

Definition with_pending_connectionLost (c : bool * option reason)
  (sc : SubChannel) : SubChannel :=
  mkSubChannel (_scid sc) (_host_addr sc) (_peer_addr sc) (_state sc)
    (_protocol sc) (_pending_dataReceived sc) c.

(** ** The store *)

(** The outcome of a Deferred returned by an endpoint. *)
Inductive value :=
| V_protocol (p : protocol)
| V_listening_port (host_addr : _WormholeAddress).

Inductive outcome :=
| Waiting
| Fired (v : value)
| Failed (e : exn).

Record World := mkWorld {
  heap : gmap ref SubChannel;        (* the SubChannel objects *)
  trace : list Event;                (* outside calls, oldest first *)
  next_ref : ref;                    (* next object identity *)
  next_protocol : protocol;          (* next object a factory builds *)
  mgr_scids : nat -> Z;              (* ids the manager hands out, in turn *)
  mgr_allocated : nat;               (* how many it has handed out *)
  deferreds : list outcome           (* Deferreds returned so far, by index *)
}.

Definition with_heap (h : gmap ref SubChannel) (w : World) : World :=
  mkWorld h (trace w) (next_ref w) (next_protocol w) (mgr_scids w)
    (mgr_allocated w) (deferreds w).

Definition with_trace (t : list Event) (w : World) : World :=
  mkWorld (heap w) t (next_ref w) (next_protocol w) (mgr_scids w)
    (mgr_allocated w) (deferreds w).

Definition with_next_ref (r : ref) (w : World) : World :=
  mkWorld (heap w) (trace w) r (next_protocol w) (mgr_scids w)
    (mgr_allocated w) (deferreds w).

Definition with_next_protocol (p : protocol) (w : World) : World :=
  mkWorld (heap w) (trace w) (next_ref w) p (mgr_scids w)
    (mgr_allocated w) (deferreds w).

Definition with_mgr_allocated (n : nat) (w : World) : World :=
  mkWorld (heap w) (trace w) (next_ref w) (next_protocol w) (mgr_scids w)
    n (deferreds w).

Definition with_deferreds (d : list outcome) (w : World) : World :=
  mkWorld (heap w) (trace w) (next_ref w) (next_protocol w) (mgr_scids w)
    (mgr_allocated w) d.

(** ** The monad of methods *)

Definition St (S A : Type) : Type := S -> result A * S.

Definition ret {S A} (a : A) : St S A := fun s => (Ok a, s).

Definition raise {S A} (e : exn) : St S A := fun s => (Raise e, s).

Definition bind {S A B} (c : St S A) (k : A -> St S B) : St S B :=
  fun s =>
    match c s with
    | (Ok a, s') => k a s'
    | (Raise e, s') => (Raise e, s')
    end.

#[global] Instance M_ret {S} : MRet (St S) := @ret S.
#[global] Instance M_bind {S} : MBind (St S) := fun A B k c => bind c k.

(** Methods of a SubChannel run over the store alone. *)
Abbreviation M := (St World).

(** The truth value of an attribute that holds [None] or an object. *)
Definition truthy {A} (o : option A) : bool :=
  match o with
  | Some _ => true
  | None => false
  end.

(** [assert b] *)
Definition py_assert (b : bool) : M unit :=
  if b then ret tt else raise AssertionError.

(** An outside call: append it to the trace. *)
Definition emit (e : Event) : M unit :=
  fun w => (Ok tt, with_trace (trace w ++ [e]) w).

(** Attribute access on a SubChannel object.  A reference held by running
    code always designates an object: [Stuck] is what the model answers for
    a reference that the store does not hold. *)
Definition get_sc (self : ref) : M SubChannel :=
  fun w =>
    match heap w !! self with
    | Some sc => (Ok sc, w)
    | None => (Raise Stuck, w)
    end.

Definition update_sc (self : ref) (f : SubChannel -> SubChannel) : M unit :=
  fun w =>
    match heap w !! self with
    | Some sc => (Ok tt, with_heap (<[self := f sc]> (heap w)) w)
    | None => (Raise Stuck, w)
    end.

(** Run a list of actions in order (automat's output list, a [for] loop). *)
Fixpoint run_all {S} (cs : list (St S unit)) : St S unit :=
  match cs with
  | [] => ret tt
  | c :: cs' => c ;; run_all cs'
  end.

(** ** SubChannel: outputs (lines 121-152) *)

Definition send_data (self : ref) (data : bytes) : M unit :=
  sc ← get_sc self;
  emit (M_send_data (_scid sc) data).

Definition send_close (self : ref) : M unit :=
  sc ← get_sc self;
  emit (M_send_close (_scid sc)).

Definition signal_dataReceived (self : ref) (data : bytes) : M unit :=
  sc ← get_sc self;
  match _protocol sc with
  | Some p => emit (P_dataReceived p data)
  | None =>
      update_sc self (fun sc =>
        with_pending_dataReceived (_pending_dataReceived sc ++ [data]) sc)
  end.

Definition signal_connectionLost (self : ref) : M unit :=
  sc ← get_sc self;
  match _protocol sc with
  | Some p => emit (P_connectionLost p (Some ConnectionDone))
  | None =>
      update_sc self
        (with_pending_connectionLost (true, Some ConnectionDone))
  end ;;
  sc ← get_sc self;
  emit (M_subchannel_closed (_scid sc) self).

Definition error_closed_write (self : ref) (data : bytes) : M unit :=
  raise (AlreadyClosedError "write not allowed on closed subchannel").

Definition error_closed_close (self : ref) : M unit :=
  raise (AlreadyClosedError "loseConnection not allowed on closed subchannel").

(** ** SubChannel: inputs and transitions (lines 105-119, 154-166) *)

Inductive input :=
| I_remote_data (data : bytes)
| I_remote_close
| I_local_data (data : bytes)
| I_local_close.

(** [s.upon(input, enter=s', outputs=[...])]; each output receives the
    arguments of the input.  The closed state has no transition. *)
Definition upon (self : ref) (s : state) (i : input)
  : option (state * list (M unit)) :=
  match s, i with
  | open, I_remote_data data => Some (open, [signal_dataReceived self data])
  | open, I_local_data data => Some (open, [send_data self data])
  | open, I_remote_close =>
      Some (closed, [send_close self; signal_connectionLost self])
  | open, I_local_close => Some (closing, [send_close self])
  | closing, I_remote_data data =>
      Some (closing, [signal_dataReceived self data])
  | closing, I_remote_close => Some (closed, [signal_connectionLost self])
  | closing, I_local_data data =>
      Some (closing, [error_closed_write self data])
  | closing, I_local_close => Some (closing, [error_closed_close self])
  | closed, _ => None
  end.

(** Calling an input method of the MethodicalMachine: look the transition
    up, enter the new state, then run the outputs in order. *)
Definition feed (self : ref) (i : input) : M unit :=
  sc ← get_sc self;
  match upon self (_state sc) i with
  | None => raise NoTransition
  | Some (s', outputs) =>
      update_sc self (with_state s') ;;
      run_all outputs
  end.

Definition remote_data (self : ref) (data : bytes) : M unit :=
  feed self (I_remote_data data).
Definition remote_close (self : ref) : M unit := feed self I_remote_close.
Definition local_data (self : ref) (data : bytes) : M unit :=
  feed self (I_local_data data).
Definition local_close (self : ref) : M unit := feed self I_local_close.

(** ** SubChannel: methods (lines 170-216) *)

Definition _set_protocol (self : ref) (p : protocol) : M unit :=
  sc ← get_sc self;
  py_assert (negb (truthy (_protocol sc))) ;;
  update_sc self (with_protocol (Some p)) ;;
  sc ← get_sc self;
  match _pending_dataReceived sc with
  | [] => ret tt
  | pending =>
      run_all (map (fun data => emit (P_dataReceived p data)) pending) ;;
      update_sc self (with_pending_dataReceived [])
  end ;;
  sc ← get_sc self;
  let '(cl, what) := _pending_connectionLost sc in
  if cl then
    emit (P_connectionLost p what)
  else ret tt.

(** [b"".join(iovec)]: every item must be a bytes object. *)
Fixpoint bytes_join (sep : bytes) (iovec : list pyval) : result bytes :=
  match iovec with
  | [] => Ok []
  | PyBytes b :: rest =>
      match rest with
      | [] => Ok b
      | _ :: _ =>
          match bytes_join sep rest with
          | Ok r => Ok (b ++ sep ++ r)
          | Raise e => Raise e
          end
      end
  | _ :: _ => Raise TypeError
  end.

Definition write (self : ref) (data : pyval) : M unit :=
  py_assert (is_bytes data) ;;
  match data with
  | PyBytes b =>
      py_assert (len b <=? MAX_FRAME_LENGTH) ;;
      local_data self b
  | _ => raise AssertionError
  end.

Definition writeSequence (self : ref) (iovec : list pyval) : M unit :=
  match bytes_join [] iovec with
  | Ok b => write self (PyBytes b)
  | Raise e => raise e
  end.

Definition loseConnection (self : ref) : M unit := local_close self.

Definition getHost (self : ref) : M _WormholeAddress :=
  sc ← get_sc self; mret (_host_addr sc).

Definition getPeer (self : ref) : M _SubchannelAddress :=
  sc ← get_sc self; mret (_peer_addr sc).

Definition stopProducing (self : ref) : M unit :=
  emit (M_subchannel_stopProducing self).

Definition pauseProducing (self : ref) : M unit :=
  emit (M_subchannel_pauseProducing self).

Definition resumeProducing (self : ref) : M unit :=
  emit (M_subchannel_resumeProducing self).

Definition registerProducer (self : ref) (p : producer) (streaming : bool)
  : M unit :=
  emit (M_subchannel_registerProducer self p streaming).

Definition unregisterProducer (self : ref) : M unit :=
  emit (M_subchannel_unregisterProducer self).

(** [SubChannel(scid, manager, host_addr, peer_addr)] with
    [__attrs_post_init__]: a new object in the open state. *)
Definition new_SubChannel (scid : pyval) (host_addr : _WormholeAddress)
  (peer_addr : _SubchannelAddress) : M ref :=
  if is_integer scid then
    fun w =>
      let self := next_ref w in
      let sc := mkSubChannel (int_value scid) host_addr peer_addr open None []
                  (false, None) in
      (Ok self, with_next_ref (S self) (with_heap (<[self := sc]> (heap w)) w))
  else raise TypeError.


(** ** Once (lines 24-34) *)

Record Once := mkOnce {
  _errtype : exn;
  _called : bool
}.

Definition new_Once (errtype : exn) : Once := mkOnce errtype false.

(** [Once.__call__] *)
Definition Once_call (self : Once) : result unit * Once :=
  if _called self then (Raise (_errtype self), self)
  else (Ok tt, mkOnce (_errtype self) true).

(** ** The readiness signal *)

Inductive settled :=
| Ready                        (* fire(None) *)
| Errored (f : nat).           (* error(f) *)

(** Modelled from the spec: [OneShotObserver] of wormhole/observer.py is
    not among the sources.  It is the settle-once cell of the design notes:
    pending, resolved or failed; a waiter registered after the cell has
    settled resolves at once, one registered before is queued until the
    cell settles, and each is notified exactly once.  A waiter is the
    generator suspended at its [yield]: [K] holds what it needs to resume. *)
Record OneShotObserver (K : Type) := mkObserver {
  _result : option settled;
  _observers : list K
}.
Arguments mkObserver {K} _ _.
Arguments _result {K} _.
Arguments _observers {K} _.

Definition new_OneShotObserver {K} : OneShotObserver K := mkObserver None [].

(** [when_fired()] followed by [yield]: either the outcome to resume with
    now, or the waiter is queued. *)
Definition when_fired {K} (k : K) (o : OneShotObserver K)
  : option settled * OneShotObserver K :=
  match _result o with
  | Some r => (Some r, o)
  | None => (None, mkObserver None (_observers o ++ [k]))
  end.

(** [fire(None)] and [error(f)]: the waiters to resume, oldest first.  A
    cell that has settled keeps its outcome. *)
Definition settle {K} (r : settled) (o : OneShotObserver K)
  : list K * OneShotObserver K :=
  match _result o with
  | Some _ => ([], o)
  | None => (_observers o, mkObserver (Some r) [])
  end.

(** ** Calls on outside objects that return a value *)

(** [factory.buildProtocol(addr)] returns a new protocol object. *)
Definition buildProtocol (f : factory) (addr : _SubchannelAddress)
  : M protocol :=
  fun w =>
    let p := next_protocol w in
    (Ok p, with_trace (trace w ++ [F_buildProtocol f addr p])
             (with_next_protocol (S p) w)).

Definition makeConnection (p : protocol) (transport : ref) : M unit :=
  emit (P_makeConnection p transport).

(** [manager.allocate_subchannel_id()] *)
Definition allocate_subchannel_id : M Z :=
  fun w =>
    let scid := mgr_scids w (mgr_allocated w) in
    (Ok scid, with_trace (trace w ++ [M_allocate_subchannel_id scid])
                (with_mgr_allocated (S (mgr_allocated w)) w)).

Definition from_result {S A} (r : result A) : St S A :=
  match r with
  | Ok a => ret a
  | Raise e => raise e
  end.

(** ** Deferreds and endpoint objects *)

(** A method of an endpoint runs over the endpoint object and the store. *)
Definition in_world {E A} (c : M A) : St (E * World) A :=
  fun s =>
    match c (snd s) with
    | (r, w') => (r, (fst s, w'))
    end.

Definition get_self {E} : St (E * World) E := fun s => (Ok (fst s), s).

Definition update_self {E} (f : E -> E) : St (E * World) unit :=
  fun s => (Ok tt, (f (fst s), snd s)).

(** A new Deferred, not yet fired. *)
Definition new_Deferred : M nat :=
  fun w => (Ok (length (deferreds w)), with_deferreds (deferreds w ++ [Waiting]) w).

Definition set_outcome (d : nat) (o : outcome) (w : World) : World :=
  with_deferreds (<[d := o]> (deferreds w)) w.

(** [inlineCallbacks]: the rest of a generator runs to its end; what it
    returns or raises fires its Deferred [d]. *)
Definition finish {E} (d : nat) (c : St (E * World) value)
  : St (E * World) unit :=
  fun s =>
    match c s with
    | (Ok v, (e, w)) => (Ok tt, (e, set_outcome d (Fired v) w))
    | (Raise x, (e, w)) => (Ok tt, (e, set_outcome d (Failed x) w))
    end.

(** The generator resumes from its [yield] with the outcome of the
    readiness signal: a failure is raised at the [yield]. *)
Definition resume {E} (body : factory -> St (E * World) value)
  (r : settled) (k : nat * factory) : St (E * World) unit :=
  match r with
  | Ready => finish (fst k) (body (snd k))
  | Errored f => finish (fst k) (raise (Failure f))
  end.

(** ** ControlEndpoint (lines 219-247) *)

Module ControlEndpoint.

Record t := mk {
  _peer_addr : _SubchannelAddress;
  _subchannel_zero : ref;
  _once : Once;
  _wait_for_main_channel : OneShotObserver (nat * factory)
}.

(** [ControlEndpoint(peer_addr, subchannel_zero, eventual_queue)] *)
Definition new (peer_addr : _SubchannelAddress) (subchannel_zero : ref) : t :=
  mk peer_addr subchannel_zero (new_Once SingleUseEndpointError)
    new_OneShotObserver.

Definition with_once (o : Once) (self : t) : t :=
  mk (_peer_addr self) (_subchannel_zero self) o
    (_wait_for_main_channel self).

Definition with_wait (o : OneShotObserver (nat * factory)) (self : t) : t :=
  mk (_peer_addr self) (_subchannel_zero self) (_once self) o.

(** lines 243-247: [connect] after its [yield] *)
Definition connect_resumed (protocolFactory : factory)
  : St (t * World) value :=
  self ← get_self;
  p ← in_world (buildProtocol protocolFactory (_peer_addr self));
  in_world (_set_protocol (_subchannel_zero self) p) ;;
  in_world (makeConnection p (_subchannel_zero self)) ;;
  mret (V_protocol p).

(** [connect] returns its Deferred. *)
Definition connect (protocolFactory : factory) : St (t * World) nat :=
  d ← in_world new_Deferred;
  self ← get_self;
  match Once_call (_once self) with
  | (Raise e, once) =>
      update_self (with_once once) ;;
      finish d (raise e) ;;
      mret d
  | (Ok _, once) =>
      update_self (with_once once) ;;
      self ← get_self;
      match when_fired (d, protocolFactory)
              (_wait_for_main_channel self) with
      | (Some r, o) =>
          update_self (with_wait o) ;;
          resume connect_resumed r (d, protocolFactory) ;;
          mret d
      | (None, o) =>
          update_self (with_wait o) ;;
          mret d
      end
  end.

Definition main_channel_settled (r : settled) : St (t * World) unit :=
  self ← get_self;
  match settle r (_wait_for_main_channel self) with
  | (waiters, o) =>
      update_self (with_wait o) ;;
      run_all (map (resume connect_resumed r) waiters)
  end.

Definition _main_channel_ready : St (t * World) unit :=
  main_channel_settled Ready.

Definition _main_channel_failed (f : nat) : St (t * World) unit :=
  main_channel_settled (Errored f).

End ControlEndpoint.

(** ** SubchannelConnectorEndpoint (lines 250-280) *)

Module SubchannelConnectorEndpoint.

Record t := mk {
  _host_addr : _WormholeAddress;
  _wait_for_main_channel : OneShotObserver (nat * factory)
}.

Definition new (host_addr : _WormholeAddress) : t :=
  mk host_addr new_OneShotObserver.

Definition with_wait (o : OneShotObserver (nat * factory)) (self : t) : t :=
  mk (_host_addr self) o.

(** lines 270-280: [connect] after its [yield] *)
Definition connect_resumed (protocolFactory : factory)
  : St (t * World) value :=
  self ← get_self;
  scid ← in_world allocate_subchannel_id;
  in_world (emit (M_send_open scid)) ;;
  peer_addr ← from_result (new_SubchannelAddress (PyInt scid));
  sc ← in_world (new_SubChannel (PyInt scid) (_host_addr self) peer_addr);
  in_world (emit (M_subchannel_local_open scid sc)) ;;
  p ← in_world (buildProtocol protocolFactory peer_addr);
  in_world (_set_protocol sc p) ;;
  in_world (makeConnection p sc) ;;
  mret (V_protocol p).

Definition connect (protocolFactory : factory) : St (t * World) nat :=
  d ← in_world new_Deferred;
  self ← get_self;
  match when_fired (d, protocolFactory) (_wait_for_main_channel self) with
  | (Some r, o) =>
      update_self (with_wait o) ;;
      resume connect_resumed r (d, protocolFactory) ;;
      mret d
  | (None, o) =>
      update_self (with_wait o) ;;
      mret d
  end.

Definition main_channel_settled (r : settled) : St (t * World) unit :=
  self ← get_self;
  match settle r (_wait_for_main_channel self) with
  | (waiters, o) =>
      update_self (with_wait o) ;;
      run_all (map (resume connect_resumed r) waiters)
  end.

Definition _main_channel_ready : St (t * World) unit :=
  main_channel_settled Ready.

Definition _main_channel_failed (f : nat) : St (t * World) unit :=
  main_channel_settled (Errored f).

End SubchannelConnectorEndpoint.

(** ** SubchannelListenerEndpoint (lines 283-324) *)

Module SubchannelListenerEndpoint.

Record t := mk {
  _host_addr : _WormholeAddress;
  _once : Once;
  _factory : option factory;
  _pending_opens : list (ref * _SubchannelAddress);
  _wait_for_main_channel : OneShotObserver (nat * factory)
}.

Definition new (host_addr : _WormholeAddress) : t :=
  mk host_addr (new_Once SingleUseEndpointError) None [] new_OneShotObserver.

Definition with_once (o : Once) (self : t) : t :=
  mk (_host_addr self) o (_factory self) (_pending_opens self)
    (_wait_for_main_channel self).

Definition with_factory (f : option factory) (self : t) : t :=
  mk (_host_addr self) (_once self) f (_pending_opens self)
    (_wait_for_main_channel self).

Definition with_pending_opens (q : list (ref * _SubchannelAddress))
  (self : t) : t :=
  mk (_host_addr self) (_once self) (_factory self) q
    (_wait_for_main_channel self).

Definition with_wait (o : OneShotObserver (nat * factory)) (self : t) : t :=
  mk (_host_addr self) (_once self) (_factory self) (_pending_opens self) o.

(** lines 303-306; [None.buildProtocol] is an AttributeError *)
Definition _connect (t0 : ref) (peer_addr : _SubchannelAddress)
  : St (t * World) unit :=
  self ← get_self;
  match _factory self with
  | Some f =>
      p ← in_world (buildProtocol f peer_addr);
      in_world (_set_protocol t0 p) ;;
      in_world (makeConnection p t0)
  | None => raise AttributeError
  end.

(** lines 297-301 *)
Definition _got_open (t0 : ref) (peer_addr : _SubchannelAddress)
  : St (t * World) unit :=
  self ← get_self;
  if truthy (_factory self) then _connect t0 peer_addr
  else
    update_self (fun self =>
      with_pending_opens (_pending_opens self ++ [(t0, peer_addr)]) self).

(** lines 320-322: [while self._pending_opens: popleft; _connect].  The
    loop is cut after [fuel] turns, where the model answers [Stuck];
    [listen] gives it one turn per queued open. *)
Fixpoint drain (fuel : nat) : St (t * World) unit :=
  self ← get_self;
  match _pending_opens self with
  | [] => mret tt
  | (t0, peer_addr) :: rest =>
      match fuel with
      | O => raise Stuck
      | S fuel' =>
          update_self (with_pending_opens rest) ;;
          _connect t0 peer_addr ;;
          drain fuel'
      end
  end.

(** lines 319-324: [listen] after its [yield] *)
Definition listen_resumed (protocolFactory : factory)
  : St (t * World) value :=
  update_self (with_factory (Some protocolFactory)) ;;
  self ← get_self;
  drain (length (_pending_opens self)) ;;
  self ← get_self;
  mret (V_listening_port (_host_addr self)).

Definition listen (protocolFactory : factory) : St (t * World) nat :=
  d ← in_world new_Deferred;
  self ← get_self;
  match Once_call (_once self) with
  | (Raise e, once) =>
      update_self (with_once once) ;;
      finish d (raise e) ;;
      mret d
  | (Ok _, once) =>
      update_self (with_once once) ;;
      self ← get_self;
      match when_fired (d, protocolFactory)
              (_wait_for_main_channel self) with
      | (Some r, o) =>
          update_self (with_wait o) ;;
          resume listen_resumed r (d, protocolFactory) ;;
          mret d
      | (None, o) =>
          update_self (with_wait o) ;;
          mret d
      end
  end.

Definition main_channel_settled (r : settled) : St (t * World) unit :=
  self ← get_self;
  match settle r (_wait_for_main_channel self) with
  | (waiters, o) =>
      update_self (with_wait o) ;;
      run_all (map (resume listen_resumed r) waiters)
  end.

Definition _main_channel_ready : St (t * World) unit :=
  main_channel_settled Ready.

Definition _main_channel_failed (f : nat) : St (t * World) unit :=
  main_channel_settled (Errored f).

End SubchannelListenerEndpoint.

(** ** SubchannelListeningPort (lines 327-340) *)

Module SubchannelListeningPort.

Definition startListening (host_addr : _WormholeAddress) : M unit := mret tt.

Definition stopListening (host_addr : _WormholeAddress) : M unit := mret tt.

Definition getHost (host_addr : _WormholeAddress) : M _WormholeAddress :=
  mret host_addr.

End SubchannelListeningPort.

(** ** A caller of the SubChannel interface *)

Inductive call :=
| call_remote_data (data : bytes)
| call_remote_close
| call_local_data (data : bytes)
| call_local_close
| call__set_protocol (p : protocol)
| call_write (data : pyval)
| call_writeSequence (iovec : list pyval)
| call_loseConnection
| call_stopProducing
| call_pauseProducing
| call_resumeProducing
| call_registerProducer (p : producer) (streaming : bool)
| call_unregisterProducer.

Definition invoke (self : ref) (c : call) : M unit :=
  match c with
  | call_remote_data data => remote_data self data
  | call_remote_close => remote_close self
  | call_local_data data => local_data self data
  | call_local_close => local_close self
  | call__set_protocol p => _set_protocol self p
  | call_write data => write self data
  | call_writeSequence iovec => writeSequence self iovec
  | call_loseConnection => loseConnection self
  | call_stopProducing => stopProducing self
  | call_pauseProducing => pauseProducing self
  | call_resumeProducing => resumeProducing self
  | call_registerProducer p streaming => registerProducer self p streaming
  | call_unregisterProducer => unregisterProducer self
  end.

(** A caller that makes the calls one after the other and goes on after an
    exception. *)
Fixpoint invoke_all (self : ref) (cs : list call) (w : World) : World :=
  match cs with
  | [] => w
  | c :: cs' => invoke_all self cs' (snd (invoke self c w))
  end.

(** ** Reading a trace *)

Definition built (e : Event)
  : option (factory * _SubchannelAddress * protocol) :=
  match e with
  | F_buildProtocol f addr p => Some (f, addr, p)
  | _ => None
  end.

Definition made (e : Event) : option (protocol * ref) :=
  match e with
  | P_makeConnection p t0 => Some (p, t0)
  | _ => None
  end.

(** The [buildProtocol] calls of a trace, and its [makeConnection] calls. *)
Definition buildProtocol_calls (tr : list Event) := omap built tr.
Definition makeConnection_calls (tr : list Event) := omap made tr.

(** What one protocol object is told, in order. *)
Definition told (p : protocol) (e : Event) : option Event :=
  match e with
  | P_dataReceived p' _ | P_connectionLost p' _ | P_makeConnection p' _ =>
      if decide (p' = p) then Some e else None
  | _ => None
  end.

Definition observed_by (p : protocol) (tr : list Event) := omap (told p) tr.

(** The calls made on the manager. *)
Definition is_manager_call (e : Event) : bool :=
  match e with
  | F_buildProtocol _ _ _ | P_dataReceived _ _ | P_connectionLost _ _
  | P_makeConnection _ _ => false
  | _ => true
  end.

(** ** What the properties speak of *)

(** The store after [signal_connectionLost] on the subchannel [sc], which
    has just entered the closed state. *)
Definition after_remote_close (self : ref) (sc : SubChannel) (w : World)
  : World :=
  match _protocol sc with
  | Some p =>
      with_trace (trace w ++ [P_connectionLost p (Some ConnectionDone);
                              M_subchannel_closed (_scid sc) self])
        (with_heap (<[self := with_state closed sc]> (heap w)) w)
  | None =>
      with_trace (trace w ++ [M_subchannel_closed (_scid sc) self])
        (with_heap
           (<[self := with_pending_connectionLost (true, Some ConnectionDone)
                        (with_state closed sc)]> (heap w)) w)
  end.

(** [c] leaves the protocol [q] bound to the subchannel [self]. *)
Definition keeps {A} (self : ref) (q : protocol) (c : M A) : Prop :=
  forall w sc, heap w !! self = Some sc -> _protocol sc = Some q ->
    exists sc', heap (snd (c w)) !! self = Some sc' /\ _protocol sc' = Some q.

(** What [_connect] adds to the trace. *)
Definition connect_events (f : factory) (p : protocol) (t0 : ref)
  (addr : _SubchannelAddress) (sc : SubChannel) : list Event :=
  [F_buildProtocol f addr p] ++
  map (P_dataReceived p) (_pending_dataReceived sc) ++
  (if fst (_pending_connectionLost sc)
   then [P_connectionLost p (snd (_pending_connectionLost sc))]
   else []) ++
  [P_makeConnection p t0].

(** The store after [_connect] has bound a new protocol to [t0]. *)
Definition connected (f : factory) (t0 : ref) (addr : _SubchannelAddress)
  (sc : SubChannel) (w : World) : World :=
  let p := next_protocol w in
  with_trace (trace w ++ connect_events f p t0 addr sc)
    (with_next_protocol (S p)
       (with_heap (<[t0 := with_pending_dataReceived []
                             (with_protocol (Some p) sc)]> (heap w)) w)).

(** The store after the queued opens have been connected in turn. *)
Fixpoint connected_all (f : factory) (q : list (ref * _SubchannelAddress))
  (w : World) : World :=
  match q with
  | [] => w
  | (t0, addr) :: rest =>
      match heap w !! t0 with
      | Some sc => connected_all f rest (connected f t0 addr sc w)
      | None => w
      end
  end.

(** Every queued subchannel is a distinct object without a protocol. *)
Definition unbound_opens (q : list (ref * _SubchannelAddress)) (w : World)
  : Prop :=
  NoDup (q.*1) /\
  Forall (fun o => _protocol <$> heap w !! o.1 = Some None) q.

#[global] Instance unbound_opens_dec q w : Decision (unbound_opens q w).
Proof. unfold unbound_opens. apply _. Defined.

(** The queued opens [q] are connected in the order of the queue between
    the stores [w] and [w']: protocols are built and connected one queued
    open after the other, and each queued subchannel ends up bound to the
    protocol built for it. *)
Definition connected_in_order (f : factory)
  (q : list (ref * _SubchannelAddress)) (w w' : World) : Prop :=
  exists ext,
    trace w' = trace w ++ ext
    /\ buildProtocol_calls ext =
         imap (fun i o => (f, o.2, (next_protocol w + i)%nat)) q
    /\ makeConnection_calls ext =
         imap (fun i o => ((next_protocol w + i)%nat, o.1)) q
    /\ forall i o, q !! i = Some o ->
         exists sc, heap w' !! o.1 = Some sc
                    /\ _protocol sc = Some (next_protocol w + i)%nat.

(** What one resumed [connect] of the connector adds to the trace. *)
Definition open_events (f : factory) (scid : Z) (sc : ref) (p : protocol)
  : list Event :=
  [M_allocate_subchannel_id scid; M_send_open scid;
   M_subchannel_local_open scid sc;
   F_buildProtocol f (SubchannelAddress scid) p;
   P_makeConnection p sc].

(** The store after one resumed [connect] of the connector, whose Deferred
    is [d]. *)
Definition opened (host_addr : _WormholeAddress) (w : World)
  (k : nat * factory) : World :=
  let scid := mgr_scids w (mgr_allocated w) in
  let sc := next_ref w in
  let p := next_protocol w in
  mkWorld
    (<[sc := mkSubChannel scid host_addr (SubchannelAddress scid) open
               (Some p) [] (false, None)]> (heap w))
    (trace w ++ open_events k.2 scid sc p)
    (S sc) (S p) (mgr_scids w) (S (mgr_allocated w))
    (<[k.1 := Fired (V_protocol p)]> (deferreds w)).

(** The ids of the [allocate_subchannel_id] and of the [send_open] calls of
    a trace are read with [omap allocated] and [omap open_sent]. *)
Definition allocated (e : Event) : option Z :=
  match e with
  | M_allocate_subchannel_id scid => Some scid
  | _ => None
  end.

Definition open_sent (e : Event) : option Z :=
  match e with
  | M_send_open scid => Some scid
  | _ => None
  end.

(** The store with more Deferreds at the end of its list. *)
Definition more_deferreds (ex : list outcome) (w : World) : World :=
  with_deferreds (deferreds w ++ ex) w.

Definition more_deferreds_ep {E} (ex : list outcome) (s : E * World)
  : E * World :=
  (s.1, more_deferreds ex s.2).

(** [c], run from a store with at least [n] Deferreds, does not depend on
    the Deferreds [ex] created after them, and drops none. *)
Definition framed {S A} (more : list outcome -> S -> S) (len : S -> nat)
  (n : nat) (c : St S A) : Prop :=
  forall s ex, (n <= len s)%nat ->
    c (more ex s) = ((c s).1, more ex (c s).2)
    /\ (len s <= len (c s).2)%nat.

Abbreviation framedM := (framed more_deferreds (fun w => length (deferreds w))).
Abbreviation framedE :=
  (framed more_deferreds_ep (fun s => length (deferreds s.2))).

(** [c] leaves the endpoint related by [P] to what it was. *)
Definition ep_kept {E A} (P : E -> E -> Prop) (c : St (E * World) A) : Prop :=
  forall s, P s.1 (c s).2.1.

(** The single-use guard and the readiness cell of a listener. *)
Definition same_guard (e e' : SubchannelListenerEndpoint.t) : Prop :=
  SubchannelListenerEndpoint._once e' = SubchannelListenerEndpoint._once e
  /\ SubchannelListenerEndpoint._wait_for_main_channel e'
     = SubchannelListenerEndpoint._wait_for_main_channel e.

(** An endpoint whose [connect] or [listen] has not been called: nothing
    waits on its readiness signal, settled ([res]) or not. *)
Definition unused_ControlEndpoint (peer_addr : _SubchannelAddress)
  (subchannel_zero : ref) (res : option settled) : ControlEndpoint.t :=
  ControlEndpoint.mk peer_addr subchannel_zero
    (new_Once SingleUseEndpointError) (mkObserver res []).

Definition unused_ListenerEndpoint (host_addr : _WormholeAddress)
  (q : list (ref * _SubchannelAddress)) (res : option settled)
  : SubchannelListenerEndpoint.t :=
  SubchannelListenerEndpoint.mk host_addr (new_Once SingleUseEndpointError)
    None q (mkObserver res []).

(** ** The transition a call makes on its own object *)

(** What [signal_dataReceived] does to the object, and the calls it makes. *)
Definition deliver_data (sc : SubChannel) (data : bytes)
  : SubChannel * list Event :=
  match _protocol sc with
  | Some p => (sc, [P_dataReceived p data])
  | None =>
      (with_pending_dataReceived (_pending_dataReceived sc ++ [data]) sc, [])
  end.

(** What [signal_connectionLost] does to the object, and the calls it
    makes. *)
Definition deliver_close (self : ref) (sc : SubChannel)
  : SubChannel * list Event :=
  match _protocol sc with
  | Some p =>
      (sc, [P_connectionLost p (Some ConnectionDone);
            M_subchannel_closed (_scid sc) self])
  | None =>
      (with_pending_connectionLost (true, Some ConnectionDone) sc,
       [M_subchannel_closed (_scid sc) self])
  end.

(** An input of the state machine as a function of the object alone: the
    result, the object afterwards and the outside calls made, in order. *)
Definition step_input (self : ref) (sc : SubChannel) (i : input)
  : result unit * SubChannel * list Event :=
  match _state sc, i with
  | open, I_remote_data data | closing, I_remote_data data =>
      (Ok tt, (deliver_data sc data).1, (deliver_data sc data).2)
  | open, I_local_data data => (Ok tt, sc, [M_send_data (_scid sc) data])
  | open, I_remote_close =>
      (Ok tt, (deliver_close self (with_state closed sc)).1,
       M_send_close (_scid sc) :: (deliver_close self (with_state closed sc)).2)
  | open, I_local_close =>
      (Ok tt, with_state closing sc, [M_send_close (_scid sc)])
  | closing, I_remote_close =>
      (Ok tt, (deliver_close self (with_state closed sc)).1,
       (deliver_close self (with_state closed sc)).2)
  | closing, I_local_data _ =>
      (Raise (AlreadyClosedError "write not allowed on closed subchannel"),
       sc, [])
  | closing, I_local_close =>
      (Raise (AlreadyClosedError
                "loseConnection not allowed on closed subchannel"), sc, [])
  | closed, _ => (Raise NoTransition, sc, [])
  end.

(** A call of the SubChannel interface as a function of the object alone. *)
Definition step (self : ref) (sc : SubChannel) (c : call)
  : result unit * SubChannel * list Event :=
  match c with
  | call_remote_data data => step_input self sc (I_remote_data data)
  | call_remote_close => step_input self sc I_remote_close
  | call_local_data data => step_input self sc (I_local_data data)
  | call_local_close | call_loseConnection => step_input self sc I_local_close
  | call__set_protocol p =>
      match _protocol sc with
      | Some _ => (Raise AssertionError, sc, [])
      | None =>
          (Ok tt, with_pending_dataReceived [] (with_protocol (Some p) sc),
           map (P_dataReceived p) (_pending_dataReceived sc) ++
           (if (_pending_connectionLost sc).1
            then [P_connectionLost p (_pending_connectionLost sc).2]
            else []))
      end
  | call_write (PyBytes b) =>
      if len b <=? MAX_FRAME_LENGTH then step_input self sc (I_local_data b)
      else (Raise AssertionError, sc, [])
  | call_write _ => (Raise AssertionError, sc, [])
  | call_writeSequence iovec =>
      match bytes_join [] iovec with
      | Ok b =>
          if len b <=? MAX_FRAME_LENGTH
          then step_input self sc (I_local_data b)
          else (Raise AssertionError, sc, [])
      | Raise e => (Raise e, sc, [])
      end
  | call_stopProducing => (Ok tt, sc, [M_subchannel_stopProducing self])
  | call_pauseProducing => (Ok tt, sc, [M_subchannel_pauseProducing self])
  | call_resumeProducing => (Ok tt, sc, [M_subchannel_resumeProducing self])
  | call_registerProducer p streaming =>
      (Ok tt, sc, [M_subchannel_registerProducer self p streaming])
  | call_unregisterProducer =>
      (Ok tt, sc, [M_subchannel_unregisterProducer self])
  end.

(** The store after the object of [self] has become [sc'] and the calls
    [evs] have been made. *)
Definition acted (self : ref) (sc' : SubChannel) (evs : list Event)
  (w : World) : World :=
  with_trace (trace w ++ evs) (with_heap (<[self := sc']> (heap w)) w).

(** The objects and calls of a sequence of interface calls. *)
Fixpoint steps (self : ref) (sc : SubChannel) (cs : list call)
  : SubChannel * list Event :=
  match cs with
  | [] => (sc, [])
  | c :: cs' =>
      let r := step self sc c in
      let r' := steps self r.1.2 cs' in
      (r'.1, r.2 ++ r'.2)
  end.

(** The data of the [dataReceived] calls of a trace, and of the
    [remote_data] calls of a caller. *)
Definition delivered (e : Event) : option bytes :=
  match e with
  | P_dataReceived _ data => Some data
  | _ => None
  end.

Definition received (c : call) : option bytes :=
  match c with
  | call_remote_data data => Some data
  | _ => None
  end.

(** The manager calls that put a frame on the wire for a subchannel. *)
Definition is_send (e : Event) : bool :=
  match e with
  | M_send_data _ _ | M_send_close _ => true
  | _ => false
  end.

Definition is_send_close (e : Event) : bool :=
  match e with
  | M_send_close _ => true
  | _ => false
  end.

Definition is_subchannel_closed (e : Event) : bool :=
  match e with
  | M_subchannel_closed _ _ => true
  | _ => false
  end.

Definition is_connectionLost (e : Event) : bool :=
  match e with
  | P_connectionLost _ _ => true
  | _ => false
  end.

(** How many events of a trace satisfy [f]. *)
Definition count (f : Event -> bool) (tr : list Event) : nat :=
  length (List.filter f tr).

(** The closes made so far agree with the state of the object. *)
Definition closes_agree (sc : SubChannel) (evs : list Event) : Prop :=
  count is_send_close evs = (match _state sc with open => 0 | _ => 1 end)%nat
  /\ count is_subchannel_closed evs
     = (match _state sc with closed => 1 | _ => 0 end)%nat
  /\ count is_connectionLost evs
     = (match _state sc with
        | closed => if truthy (_protocol sc) then 1 else 0
        | _ => 0
        end)%nat.

(** [n] calls of a Once, one after the other: their results, and the Once
    afterwards. *)
Fixpoint Once_calls (n : nat) (self : Once) : list (result unit) * Once :=
  match n with
  | O => ([], self)
  | S n' =>
      let r := Once_call self in
      let rs := Once_calls n' r.2 in
      (r.1 :: rs.1, rs.2)
  end.

(** The store after the Deferreds of the waiters [ws] have failed with
    [x]. *)
Definition all_failed (x : exn) (ws : list (nat * factory)) (w : World)
  : World :=
  fold_left (fun w k => set_outcome k.1 (Failed x) w) ws w.

(** ** A store to run examples in *)

Definition empty_world : World :=
  mkWorld ∅ [] 0%nat 0%nat (fun n => 2 * Z.of_nat n + 1) 0%nat [].

(** b"AB" and b"CD" *)
Definition b_AB : bytes := [Byte.x41; Byte.x42].
Definition b_CD : bytes := [Byte.x43; Byte.x44].

(** A new subchannel of id [scid], as its constructor leaves it. *)
Definition fresh_SubChannel (scid : Z) : SubChannel :=
  mkSubChannel scid WormholeAddress (SubchannelAddress scid) open None []
    (false, None).

(** A store with one new subchannel, of id 5: it is object 0. *)
Definition one_subchannel : World :=
  (new_SubChannel (PyInt 5) WormholeAddress (SubchannelAddress 5)
     empty_world).2.

(** The same subchannel after a local close, and with protocol 7 bound. *)
Definition one_closing_subchannel : World :=
  (loseConnection 0%nat one_subchannel).2.

Definition one_bound_subchannel : World :=
  (_set_protocol 0%nat 7%nat one_subchannel).2.

(** A store with three new subchannels, of ids 2, 4 and 6: objects 0, 1
    and 2. *)
Definition three_subchannels : World :=
  (new_SubChannel (PyInt 6) WormholeAddress (SubchannelAddress 6)
     (new_SubChannel (PyInt 4) WormholeAddress (SubchannelAddress 4)
        (new_SubChannel (PyInt 2) WormholeAddress (SubchannelAddress 2)
           empty_world).2).2).2.

(** The third scenario: a listener gets two opens, then the main channel
    becomes ready and [listen] is called with factory 9. *)
Definition listener_start : SubchannelListenerEndpoint.t * World :=
  (SubchannelListenerEndpoint.new WormholeAddress, three_subchannels).

Definition listener_two_opens : SubchannelListenerEndpoint.t * World :=
  ((SubchannelListenerEndpoint._got_open 0%nat (SubchannelAddress 2) ;;
    SubchannelListenerEndpoint._got_open 1%nat (SubchannelAddress 4))
     listener_start).2.

Definition listener_ready : SubchannelListenerEndpoint.t * World :=
  (SubchannelListenerEndpoint._main_channel_ready listener_two_opens).2.

Definition listener_listening : SubchannelListenerEndpoint.t * World :=
  (SubchannelListenerEndpoint.listen 9%nat listener_ready).2.

(** The same with [listen] called before the main channel is ready. *)
Definition listener_suspended : SubchannelListenerEndpoint.t * World :=
  (SubchannelListenerEndpoint.listen 9%nat listener_two_opens).2.

(** A connector endpoint with two suspended [connect] calls, of factories
    8 and 9, and one whose main channel is ready. *)
Definition connector_start : SubchannelConnectorEndpoint.t * World :=
  (SubchannelConnectorEndpoint.new WormholeAddress, empty_world).

Definition connector_suspended : SubchannelConnectorEndpoint.t * World :=
  ((SubchannelConnectorEndpoint.connect 8%nat ;;
    SubchannelConnectorEndpoint.connect 9%nat) connector_start).2.

Definition connector_ready : SubchannelConnectorEndpoint.t * World :=
  (SubchannelConnectorEndpoint._main_channel_ready connector_start).2.

(** The subchannel of [one_subchannel] after a remote close: closed, with
    the close pending. *)
Definition one_closed_subchannel : World :=
  (remote_close 0%nat one_subchannel).2.

(** The subchannel of [one_subchannel] with b"AB" buffered and a remote
    close pending. *)
Definition one_buffered_subchannel : World :=
  (remote_close 0%nat (remote_data 0%nat b_AB one_subchannel).2).2.

(** A control endpoint on object 0 whose main channel is ready, and one
    whose [connect] is suspended. *)
Definition control_ready : ControlEndpoint.t :=
  unused_ControlEndpoint (SubchannelAddress 0) 0%nat (Some Ready).

Definition control_suspended : ControlEndpoint.t * World :=
  (ControlEndpoint.connect 8%nat
     (unused_ControlEndpoint (SubchannelAddress 0) 0%nat None,
      one_buffered_subchannel)).2.

(** The listener of the third scenario once it listens, with b"AB" already
    received on the third subchannel. *)
Definition listener_with_data : World :=
  (remote_data 2%nat b_AB listener_listening.2).2.

(** A listener whose main channel is ready and whose queue holds the bound
    subchannel of [one_bound_subchannel] and then another open. *)
Definition listener_bound_queue : SubchannelListenerEndpoint.t :=
  unused_ListenerEndpoint WormholeAddress
    [(0%nat, SubchannelAddress 5); (1%nat, SubchannelAddress 7)] (Some Ready).

(** * Properties *)

Lemma MAX_FRAME_LENGTH_value : MAX_FRAME_LENGTH = 4294967270.
Proof. reflexivity. Qed.

(** ** Running a method on a store *)

Lemma get_sc_ok self sc w :
  heap w !! self = Some sc -> get_sc self w = (Ok sc, w).
Proof. unfold get_sc. intros ->. reflexivity. Qed.

Lemma update_sc_ok self f sc w :
  heap w !! self = Some sc ->
  update_sc self f w = (Ok tt, with_heap (<[self := f sc]> (heap w)) w).
Proof. unfold update_sc. intros ->. reflexivity. Qed.

(** Unfold the monad. *)
Ltac py_unfold :=
  unfold py_assert; unfold mbind, M_bind, bind, mret, M_ret, ret, raise.

Lemma with_state_id sc : with_state (_state sc) sc = sc.
Proof. destruct sc; reflexivity. Qed.

Lemma with_heap_id w : with_heap (heap w) w = w.
Proof. destruct w; reflexivity. Qed.

Lemma update_sc_same_state self sc w :
  heap w !! self = Some sc ->
  update_sc self (with_state (_state sc)) w = (Ok tt, w).
Proof.
  intros Hsc. rewrite (update_sc_ok _ _ _ _ Hsc), with_state_id.
  rewrite insert_id by exact Hsc. rewrite with_heap_id. reflexivity.
Qed.

(** The object of [self] in the current store. *)
Ltac solve_lookup :=
  cbn [heap with_heap with_trace trace];
  first [ eassumption | apply lookup_insert_eq ].

(** Read the fields of an updated store or object. *)
Ltac py_norm :=
  cbn [heap trace next_ref next_protocol mgr_scids mgr_allocated deferreds
       with_heap with_trace with_next_ref with_next_protocol
       with_mgr_allocated with_deferreds
       _scid _host_addr _peer_addr _state _protocol _pending_dataReceived
       _pending_connectionLost with_state with_protocol
       with_pending_dataReceived with_pending_connectionLost].

(** Bring a store to its fields, one field at a time: the setters copy the
    store they update, so they are reduced on stores given by their
    constructor. *)
Ltac py_world :=
  repeat match goal with
    | w : World |- _ => destruct w
    | sc : SubChannel |- _ => destruct sc
    end;
  cbn [heap trace next_ref next_protocol mgr_scids mgr_allocated deferreds
       _scid _host_addr _peer_addr _state _protocol _pending_dataReceived
       _pending_connectionLost] in *;
  subst;
  cbv [with_heap with_trace with_next_ref with_next_protocol
       with_mgr_allocated with_deferreds
       heap trace next_ref next_protocol mgr_scids mgr_allocated deferreds
       with_state with_protocol with_pending_dataReceived
       with_pending_connectionLost
       _scid _host_addr _peer_addr _state _protocol _pending_dataReceived
       _pending_connectionLost];
  rewrite ?insert_insert_eq, <- ?app_assoc; cbn [app].

(** One attribute access of the running method. *)
Ltac py_step :=
  first
    [ erewrite get_sc_ok by solve_lookup
    | erewrite update_sc_ok by solve_lookup ];
  cbn beta iota.

Lemma remote_close_from_open self sc w :
  heap w !! self = Some sc -> _state sc = open ->
  remote_close self w =
    (Ok tt,
     after_remote_close self sc
       (with_trace (trace w ++ [M_send_close (_scid sc)]) w)).
Proof.
  intros Hsc Hst. unfold remote_close, feed, after_remote_close. py_unfold.
  py_step. rewrite Hst. cbn [upon]. py_step. cbn [run_all].
  unfold send_close, signal_connectionLost, emit. py_unfold.
  repeat py_step. py_norm.
  destruct (_protocol sc) as [p|]; cbn beta iota; repeat py_step; py_norm;
    py_world; reflexivity.
Qed.

Lemma remote_close_from_closing self sc w :
  heap w !! self = Some sc -> _state sc = closing ->
  remote_close self w = (Ok tt, after_remote_close self sc w).
Proof.
  intros Hsc Hst. unfold remote_close, feed, after_remote_close. py_unfold.
  py_step. rewrite Hst. cbn [upon]. py_step. cbn [run_all].
  unfold signal_connectionLost, emit. py_unfold.
  repeat py_step. py_norm.
  destruct (_protocol sc) as [p|]; cbn beta iota; repeat py_step; py_norm;
    py_world; reflexivity.
Qed.

Lemma with_trace_id w : with_trace (trace w) w = w.
Proof. destruct w; reflexivity. Qed.

Lemma run_all_emit (e : bytes -> Event) (l : list bytes) w :
  run_all (map (fun d => emit (e d)) l) w =
    (Ok tt, with_trace (trace w ++ map e l) w).
Proof.
  revert w. induction l as [|d l IH]; intros w; cbn [map run_all].
  - unfold ret. rewrite app_nil_r, with_trace_id. reflexivity.
  - py_unfold. unfold emit at 1. rewrite IH. py_world. reflexivity.
Qed.

Lemma remote_data_unbound self sc w d :
  heap w !! self = Some sc -> _state sc <> closed -> _protocol sc = None ->
  remote_data self d w =
    (Ok tt,
     with_heap (<[self := with_pending_dataReceived
                            (_pending_dataReceived sc ++ [d]) sc]> (heap w)) w).
Proof.
  intros Hsc Hst Hp. unfold remote_data, feed. py_unfold. py_step.
  destruct (_state sc) eqn:E; [| |congruence]; cbn [upon];
    rewrite <- E, (update_sc_same_state _ _ _ Hsc); cbn [run_all];
    unfold signal_dataReceived; py_unfold; py_step; rewrite Hp;
    cbn beta iota; py_step; reflexivity.
Qed.

Lemma remote_data_bound self sc w d p :
  heap w !! self = Some sc -> _state sc <> closed -> _protocol sc = Some p ->
  remote_data self d w = (Ok tt, with_trace (trace w ++ [P_dataReceived p d]) w).
Proof.
  intros Hsc Hst Hp. unfold remote_data, feed. py_unfold. py_step.
  destruct (_state sc) eqn:E; [| |congruence]; cbn [upon];
    rewrite <- E, (update_sc_same_state _ _ _ Hsc); cbn [run_all];
    unfold signal_dataReceived, emit; py_unfold; py_step; rewrite Hp;
    reflexivity.
Qed.

Lemma remote_data_all_unbound self ds : forall sc w,
  heap w !! self = Some sc -> _state sc <> closed -> _protocol sc = None ->
  run_all (map (remote_data self) ds) w =
    (Ok tt,
     with_heap (<[self := with_pending_dataReceived
                            (_pending_dataReceived sc ++ ds) sc]> (heap w)) w).
Proof.
  induction ds as [|d ds IH]; intros sc w Hsc Hst Hp; cbn [map run_all].
  - unfold ret. rewrite app_nil_r.
    replace (with_pending_dataReceived (_pending_dataReceived sc) sc) with sc
      by (destruct sc; reflexivity).
    rewrite insert_id by exact Hsc. rewrite with_heap_id. reflexivity.
  - py_unfold. rewrite (remote_data_unbound _ _ _ _ Hsc Hst Hp).
    erewrite IH; [|solve_lookup|exact Hst|exact Hp].
    py_world. reflexivity.
Qed.

Lemma _set_protocol_unbound self sc w p :
  heap w !! self = Some sc -> _protocol sc = None ->
  _set_protocol self p w =
    (Ok tt,
     with_trace
       (trace w ++ map (P_dataReceived p) (_pending_dataReceived sc) ++
        (if fst (_pending_connectionLost sc)
         then [P_connectionLost p (snd (_pending_connectionLost sc))]
         else []))
       (with_heap (<[self := with_pending_dataReceived []
                               (with_protocol (Some p) sc)]> (heap w)) w)).
Proof.
  intros Hsc Hp. unfold _set_protocol. py_unfold. py_step. rewrite Hp.
  cbn [truthy negb]. cbn beta iota. repeat py_step.
  cbn [_pending_dataReceived with_protocol].
  destruct sc as [scid ha pa st pr pend [cl what]]; cbn in Hp; subst pr.
  cbn [_pending_dataReceived _pending_connectionLost fst snd].
  destruct pend as [|d pend].
  - repeat py_step. cbn [_pending_connectionLost with_protocol map app].
    destruct cl; unfold emit; py_world; rewrite ?app_nil_r; reflexivity.
  - rewrite run_all_emit. repeat py_step.
    cbn [_pending_connectionLost with_protocol with_pending_dataReceived].
    destruct cl; unfold emit; py_world; rewrite ?app_nil_r; reflexivity.
Qed.
(** C4.  A remote close received in the open state makes, in this order,
    the manager call [send_close], the delivery of the close to the bound
    protocol ([connectionLost], or the pending-close record when no
    protocol is bound) and the manager call [subchannel_closed], and the
    state becomes closed.  Received in the closing state it makes only the
    delivery (or the record) and [subchannel_closed], with no [send_close],
    and the state becomes closed as well. *)
Theorem remote_close_outputs self1 sc1 w1 self2 sc2 w2 :
  heap w1 !! self1 = Some sc1 -> _state sc1 = open ->
  heap w2 !! self2 = Some sc2 -> _state sc2 = closing ->
  remote_close self1 w1 =
    (Ok tt,
     match _protocol sc1 with
     | Some p =>
         with_trace (trace w1 ++ [M_send_close (_scid sc1);
                                  P_connectionLost p (Some ConnectionDone);
                                  M_subchannel_closed (_scid sc1) self1])
           (with_heap (<[self1 := with_state closed sc1]> (heap w1)) w1)
     | None =>
         with_trace (trace w1 ++ [M_send_close (_scid sc1);
                                  M_subchannel_closed (_scid sc1) self1])
           (with_heap
              (<[self1 := with_pending_connectionLost
                            (true, Some ConnectionDone)
                            (with_state closed sc1)]> (heap w1)) w1)
     end)
  /\
  remote_close self2 w2 =
    (Ok tt,
     match _protocol sc2 with
     | Some p =>
         with_trace (trace w2 ++ [P_connectionLost p (Some ConnectionDone);
                                  M_subchannel_closed (_scid sc2) self2])
           (with_heap (<[self2 := with_state closed sc2]> (heap w2)) w2)
     | None =>
         with_trace (trace w2 ++ [M_subchannel_closed (_scid sc2) self2])
           (with_heap
              (<[self2 := with_pending_connectionLost
                            (true, Some ConnectionDone)
                            (with_state closed sc2)]> (heap w2)) w2)
     end).
Proof.
  intros Hsc1 Hst1 Hsc2 Hst2. split.
  - rewrite (remote_close_from_open _ _ _ Hsc1 Hst1).
    unfold after_remote_close. destruct (_protocol sc1); py_world; reflexivity.
  - rewrite (remote_close_from_closing _ _ _ Hsc2 Hst2).
    unfold after_remote_close. destruct (_protocol sc2); py_world; reflexivity.
Qed.

(** C1.  A subchannel in the open state without a protocol receives the
    remote data [ds], one after the other, then possibly a remote close,
    and then a protocol [p] is attached.  The attach delivers to [p] the
    data buffered so far and [ds], in the order received, then the close if
    there was one, and nothing else; the buffer of pending data is empty
    afterwards, and after a close the state is closed.  With id 5, data
    b"AB" then b"CD" and a close, this is the first end-to-end scenario. *)
Theorem buffered_delivery_on_attach self sc w (ds : list bytes)
    (with_close : bool) (p : protocol) :
  heap w !! self = Some sc -> _state sc = open -> _protocol sc = None ->
  _pending_connectionLost sc = (false, None) ->
  (run_all (map (remote_data self) ds) ;;
   (if with_close then remote_close self else mret tt) ;;
   _set_protocol self p) w =
    (Ok tt,
     with_trace
       (trace w ++
        (if with_close
         then [M_send_close (_scid sc); M_subchannel_closed (_scid sc) self]
         else []) ++
        map (P_dataReceived p) (_pending_dataReceived sc ++ ds) ++
        (if with_close then [P_connectionLost p (Some ConnectionDone)]
         else []))
       (with_heap
          (<[self := mkSubChannel (_scid sc) (_host_addr sc) (_peer_addr sc)
                       (if with_close then closed else open) (Some p) []
                       (if with_close then (true, Some ConnectionDone)
                        else (false, None))]> (heap w)) w)).
Proof.
  intros Hsc Hst Hp Hcl.
  assert (Hne : _state sc <> closed) by (rewrite Hst; discriminate).
  py_unfold. rewrite (remote_data_all_unbound _ _ _ _ Hsc Hne Hp).
  set (sc1 := with_pending_dataReceived (_pending_dataReceived sc ++ ds) sc).
  set (w1 := with_heap (<[self:=sc1]> (heap w)) w).
  assert (Hsc1 : heap w1 !! self = Some sc1) by apply lookup_insert_eq.
  destruct with_close.
  - rewrite (remote_close_from_open self sc1 w1 Hsc1 Hst).
    unfold after_remote_close. subst sc1. cbn [_protocol with_pending_dataReceived].
    rewrite Hp.
    erewrite _set_protocol_unbound; [|solve_lookup|exact Hp].
    cbn [_pending_dataReceived _pending_connectionLost fst snd
         with_pending_connectionLost with_state with_pending_dataReceived].
    subst w1. py_world. reflexivity.
  - py_unfold. erewrite _set_protocol_unbound; [|exact Hsc1|exact Hp].
    subst sc1 w1. cbn [_pending_dataReceived _pending_connectionLost
                       with_pending_dataReceived]. rewrite Hcl. cbn [fst snd].
    py_world. rewrite app_nil_r. reflexivity.
Qed.

(** C2.  In the open state a write of a bytes payload of at most
    MAX_FRAME_LENGTH = 2^32 - 1 - 9 - 16 bytes, and so one of exactly that
    length, succeeds and reaches the manager as one [send_data]; a write of
    a longer payload, and so one of MAX_FRAME_LENGTH + 1 bytes, fails its
    assertion before the state machine gets an input: the store, and with
    it the trace of manager calls, is unchanged. *)
Theorem write_frame_length_limit self sc w (payload oversized : bytes) :
  heap w !! self = Some sc -> _state sc = open ->
  len payload <= MAX_FRAME_LENGTH -> MAX_FRAME_LENGTH < len oversized ->
  write self (PyBytes payload) w =
    (Ok tt, with_trace (trace w ++ [M_send_data (_scid sc) payload]) w)
  /\ write self (PyBytes oversized) w = (Raise AssertionError, w).
Proof.
  intros Hsc Hst Hle Hgt. unfold write. split.
  - cbn [is_bytes]. py_unfold.
    destruct (Z.leb_spec (len payload) MAX_FRAME_LENGTH); [|lia].
    unfold local_data, feed. py_unfold. py_step. rewrite Hst. cbn [upon].
    rewrite <- Hst, (update_sc_same_state _ _ _ Hsc). cbn [run_all].
    unfold send_data, emit. py_unfold. py_step. reflexivity.
  - cbn [is_bytes]. py_unfold.
    destruct (Z.leb_spec (len oversized) MAX_FRAME_LENGTH); [lia|].
    reflexivity.
Qed.

Lemma local_data_closing self sc w data :
  heap w !! self = Some sc -> _state sc = closing ->
  local_data self data w =
    (Raise (AlreadyClosedError "write not allowed on closed subchannel"), w).
Proof.
  intros Hsc Hst. unfold local_data, feed. py_unfold. py_step.
  rewrite Hst. cbn [upon].
  rewrite <- Hst, (update_sc_same_state _ _ _ Hsc). reflexivity.
Qed.

Lemma local_close_closing self sc w :
  heap w !! self = Some sc -> _state sc = closing ->
  local_close self w =
    (Raise (AlreadyClosedError
              "loseConnection not allowed on closed subchannel"), w).
Proof.
  intros Hsc Hst. unfold local_close, feed. py_unfold. py_step.
  rewrite Hst. cbn [upon].
  rewrite <- Hst, (update_sc_same_state _ _ _ Hsc). reflexivity.
Qed.

(** C3.  In the closing state the inputs local write ([local_data]) and
    local close ([local_close]) raise AlreadyClosedError, and so do
    [loseConnection] and a [write] of a payload that passes the length
    check; none of them succeeds, none calls the manager and the store,
    with the state closing, is unchanged. *)
Theorem closing_rejects_local_inputs self sc w (data payload : bytes) :
  heap w !! self = Some sc -> _state sc = closing ->
  len payload <= MAX_FRAME_LENGTH ->
  local_data self data w =
    (Raise (AlreadyClosedError "write not allowed on closed subchannel"), w)
  /\ local_close self w =
    (Raise (AlreadyClosedError
              "loseConnection not allowed on closed subchannel"), w)
  /\ write self (PyBytes payload) w =
    (Raise (AlreadyClosedError "write not allowed on closed subchannel"), w)
  /\ loseConnection self w =
    (Raise (AlreadyClosedError
              "loseConnection not allowed on closed subchannel"), w).
Proof.
  intros Hsc Hst Hle. repeat split.
  - exact (local_data_closing _ _ _ _ Hsc Hst).
  - exact (local_close_closing _ _ _ Hsc Hst).
  - unfold write. cbn [is_bytes]. py_unfold.
    destruct (Z.leb_spec (len payload) MAX_FRAME_LENGTH); [|lia].
    exact (local_data_closing _ _ _ _ Hsc Hst).
  - exact (local_close_closing _ _ _ Hsc Hst).
Qed.

Lemma bytes_join_empty_sep (bufs : list bytes) :
  bytes_join [] (map PyBytes bufs) = Ok (concat bufs).
Proof.
  induction bufs as [|b bufs IH]; [reflexivity|].
  cbn [map bytes_join]. destruct bufs as [|b' bufs].
  - cbn. rewrite app_nil_r. reflexivity.
  - cbn [map] in *. rewrite IH. reflexivity.
Qed.

Lemma len_concat (bufs : list bytes) :
  len (concat bufs) = foldr Z.add 0 (map len bufs).
Proof.
  unfold len. induction bufs as [|b bufs IH]; [reflexivity|].
  cbn [concat map foldr]. rewrite length_app. lia.
Qed.

(** C10.  [writeSequence] of a sequence of bytes buffers is [write] of
    their concatenation, whose length is the sum of the lengths of the
    buffers; so a sequence whose lengths add up to more than
    MAX_FRAME_LENGTH fails the assertion of [write], with the store
    unchanged, even when each buffer is within the limit. *)
Theorem writeSequence_is_write_of_concat self w (iovec big : list bytes) :
  Forall (fun b => len b <= MAX_FRAME_LENGTH) big ->
  MAX_FRAME_LENGTH < foldr Z.add 0 (map len big) ->
  writeSequence self (map PyBytes iovec) w =
    write self (PyBytes (concat iovec)) w
  /\ len (concat iovec) = foldr Z.add 0 (map len iovec)
  /\ writeSequence self (map PyBytes big) w = (Raise AssertionError, w).
Proof.
  intros _ Hgt. unfold writeSequence. rewrite !bytes_join_empty_sep.
  repeat split; [apply len_concat|].
  unfold write. cbn [is_bytes]. py_unfold. rewrite <- len_concat in Hgt.
  destruct (Z.leb_spec (len (concat big)) MAX_FRAME_LENGTH); [lia|].
  reflexivity.
Qed.

(** The claim C9 fails on a negative integer: the constructor accepts
    it. *)
Lemma SubchannelAddress_accepts_negative_id :
  ~ (forall v : pyval,
       (exists a, new_SubchannelAddress v = Ok a) <->
       (exists n, v = PyInt n /\ 0 <= n)).
Proof.
  intros H. destruct (proj1 (H (PyInt (-1)))) as (n & Hn & Hpos).
  - eexists. reflexivity.
  - inversion Hn. lia.
Qed.

(** C9, amended.  The constructor of [_SubchannelAddress] succeeds exactly
    when the id is an instance of an integer type: it accepts every
    integer, negative ones too, and a bool, and raises TypeError for every
    other value. *)
Theorem SubchannelAddress_validates_type_only :
  (forall v : pyval,
     (exists a, new_SubchannelAddress v = Ok a) <-> is_integer v = true)
  /\ (forall n : Z, new_SubchannelAddress (PyInt n) = Ok (SubchannelAddress n))
  /\ (forall b : bool,
        new_SubchannelAddress (PyBool b)
        = Ok (SubchannelAddress (if b then 1 else 0)))
  /\ new_SubchannelAddress PyNone = Raise TypeError
  /\ (forall data, new_SubchannelAddress (PyBytes data) = Raise TypeError)
  /\ (forall s, new_SubchannelAddress (PyStr s) = Raise TypeError).
Proof.
  repeat split; try reflexivity.
  - intros [a Ha]. unfold new_SubchannelAddress in Ha.
    destruct (is_integer v); [reflexivity|discriminate].
  - unfold new_SubchannelAddress. intros ->. eexists. reflexivity.
Qed.

(** ** The bound protocol is kept *)

Create HintDb keeps.

Lemma keeps_ret {A} self q (a : A) : keeps self q (ret a).
Proof. intros w sc Hsc Hp. exists sc. auto. Qed.

Lemma keeps_raise {A} self q e : keeps self q (@raise World A e).
Proof. intros w sc Hsc Hp. exists sc. auto. Qed.

Lemma keeps_emit self q e : keeps self q (emit e).
Proof. intros w sc Hsc Hp. exists sc. auto. Qed.

Lemma keeps_get_sc self q r : keeps self q (get_sc r).
Proof.
  intros w sc Hsc Hp. unfold get_sc.
  destruct (heap w !! r); exists sc; auto.
Qed.

Lemma keeps_update_sc self q r f :
  (forall sc, _protocol (f sc) = _protocol sc) ->
  keeps self q (update_sc r f).
Proof.
  intros Hf w sc Hsc Hp. unfold update_sc.
  destruct (heap w !! r) as [sc0|] eqn:E; [|exists sc; auto].
  cbn [snd heap with_heap]. destruct (decide (r = self)) as [->|Hne].
  - exists (f sc0). rewrite lookup_insert_eq. split; [reflexivity|].
    rewrite Hf. congruence.
  - exists sc. rewrite lookup_insert_ne by exact Hne. auto.
Qed.

Lemma keeps_bind {A B} self q (c : M A) (k : A -> M B) :
  keeps self q c -> (forall a, keeps self q (k a)) ->
  keeps self q (bind c k).
Proof.
  intros Hc Hk w sc Hsc Hp. unfold bind.
  destruct (Hc w sc Hsc Hp) as (sc' & Hsc' & Hp').
  destruct (c w) as [[a|e] w']; cbn [snd] in *.
  - exact (Hk a w' sc' Hsc' Hp').
  - exists sc'. auto.
Qed.

Lemma keeps_run_all self q (cs : list (M unit)) :
  Forall (keeps self q) cs -> keeps self q (run_all cs).
Proof.
  induction 1 as [|c cs Hc _ IH]; cbn [run_all].
  - apply keeps_ret.
  - apply keeps_bind; auto.
Qed.

#[local] Hint Resolve keeps_ret keeps_raise keeps_emit keeps_get_sc
  keeps_run_all : keeps.

Ltac keeps_tac :=
  repeat first
    [ progress intros
    | apply keeps_bind
    | apply keeps_update_sc; intros []; reflexivity
    | apply keeps_run_all; repeat constructor
    | solve [auto with keeps]
    | match goal with
      | |- keeps _ _ (match ?x with _ => _ end) => destruct x
      | |- keeps _ _ (if ?x then _ else _) => destruct x
      | |- keeps _ _ (let '(_, _) := ?x in _) => destruct x
      end ].

Lemma keeps_feed self q r i : keeps self q (feed r i).
Proof.
  unfold feed. apply keeps_bind; [auto with keeps|]. intros sc.
  destruct (_state sc), i; cbn [upon];
    unfold signal_dataReceived, send_data, send_close, signal_connectionLost,
      error_closed_write, error_closed_close;
    unfold mbind, M_bind, mret, M_ret; keeps_tac.
Qed.

Lemma keeps_write self q r data : keeps self q (write r data).
Proof.
  assert (Ha : forall b, keeps self q (py_assert b)).
  { intros []; [apply keeps_ret|apply keeps_raise]. }
  unfold write. unfold mbind, M_bind.
  apply keeps_bind; [apply Ha|]. intros _.
  destruct data; try apply keeps_raise.
  apply keeps_bind; [apply Ha|]. intros _. apply keeps_feed.
Qed.

Lemma _set_protocol_bound self sc w q p :
  heap w !! self = Some sc -> _protocol sc = Some q ->
  _set_protocol self p w = (Raise AssertionError, w).
Proof.
  intros Hsc Hp. unfold _set_protocol. py_unfold. py_step. rewrite Hp.
  reflexivity.
Qed.

Lemma keeps_invoke self q c : keeps self q (invoke self c).
Proof.
  destruct c; cbn [invoke];
    unfold remote_data, remote_close, local_data, local_close, loseConnection,
      local_close, stopProducing, pauseProducing, resumeProducing,
      registerProducer, unregisterProducer;
    try apply keeps_feed; try apply keeps_write; try apply keeps_emit.
  - intros w sc Hsc Hp. rewrite (_set_protocol_bound _ _ _ _ _ Hsc Hp).
    exists sc. auto.
  - unfold writeSequence. destruct (bytes_join [] iovec);
      [apply keeps_write|apply keeps_raise].
Qed.

(** C8.  On a subchannel that has a protocol bound, [_set_protocol] raises
    AssertionError, an assertion failure and neither AlreadyClosedError nor
    a result handed back, and changes nothing; whatever calls are then made
    on the subchannel, failed ones included, the bound protocol stays the
    one bound first. *)
Theorem at_most_one_consumer self sc w (q : protocol) :
  heap w !! self = Some sc -> _protocol sc = Some q ->
  (forall p, _set_protocol self p w = (Raise AssertionError, w))
  /\ (forall cs, exists sc',
        heap (invoke_all self cs w) !! self = Some sc'
        /\ _protocol sc' = Some q).
Proof.
  intros Hsc Hp. split.
  - intros p. exact (_set_protocol_bound _ _ _ _ _ Hsc Hp).
  - intros cs. revert sc w Hsc Hp.
    induction cs as [|c cs IH]; intros sc w Hsc Hp; cbn [invoke_all].
    + exists sc. auto.
    + destruct (keeps_invoke self q c w sc Hsc Hp) as (sc' & Hsc' & Hp').
      exact (IH sc' _ Hsc' Hp').
Qed.

(** ** Endpoints *)

(** Unfold the monad of endpoint methods. *)
Ltac ep_unfold :=
  unfold in_world, get_self, update_self, from_result;
  unfold mbind, M_bind, bind, mret, M_ret, ret, raise;
  cbn [fst snd].

(** Close an equation between two stores. *)
Ltac py_done :=
  py_world; cbn [fst snd]; py_world;
  repeat first [ rewrite <- app_assoc | progress cbn [app] ];
  reflexivity.

Lemma listener_connect_unbound (ep : SubchannelListenerEndpoint.t) f t0 addr
    sc w :
  SubchannelListenerEndpoint._factory ep = Some f ->
  heap w !! t0 = Some sc -> _protocol sc = None ->
  SubchannelListenerEndpoint._connect t0 addr (ep, w) =
    (Ok tt, (ep, connected f t0 addr sc w)).
Proof.
  intros Hf Hsc Hp.
  unfold SubchannelListenerEndpoint._connect, buildProtocol, makeConnection.
  ep_unfold. rewrite Hf. cbn [fst snd].
  erewrite _set_protocol_unbound; [|solve_lookup|exact Hp].
  unfold emit, connected, connect_events. py_done.
Qed.

Lemma unbound_opens_cons t0 addr rest w :
  unbound_opens ((t0, addr) :: rest) w ->
  exists sc, heap w !! t0 = Some sc /\ _protocol sc = None /\
    forall f, unbound_opens rest (connected f t0 addr sc w).
Proof.
  intros [Hnd Hall]. cbn [fmap list_fmap fst] in Hnd.
  apply NoDup_cons in Hnd as [Hnotin Hnd].
  apply Forall_cons in Hall as [Hhd Hall]. cbn [fst] in Hhd.
  apply fmap_Some in Hhd as (sc & Hsc & Hp).
  exists sc. repeat split; auto.
  rewrite Forall_forall in *. intros [t1 a1] Hin.
  specialize (Hall _ Hin).
  cbn [fst] in *. unfold connected. cbn [heap with_trace with_next_protocol with_heap].
  rewrite lookup_insert_ne; [exact Hall|].
  intros ->. apply Hnotin. apply list_elem_of_fmap. exists (t1, a1). auto.
Qed.

Lemma drain_connects f : forall q (ep : SubchannelListenerEndpoint.t) w n,
  SubchannelListenerEndpoint._factory ep = Some f ->
  SubchannelListenerEndpoint._pending_opens ep = q ->
  unbound_opens q w -> (length q <= n)%nat ->
  SubchannelListenerEndpoint.drain n (ep, w) =
    (Ok tt, (SubchannelListenerEndpoint.with_pending_opens [] ep,
             connected_all f q w)).
Proof.
  induction q as [|[t0 addr] rest IH]; intros ep w n Hf Hq Hub Hn.
  - destruct n; cbn [SubchannelListenerEndpoint.drain]; ep_unfold;
      rewrite Hq; cbn [connected_all];
      destruct ep; cbn in Hq; subst; reflexivity.
  - destruct n as [|n]; [cbn in Hn; lia|].
    cbn [SubchannelListenerEndpoint.drain]. ep_unfold. rewrite Hq.
    destruct (unbound_opens_cons _ _ _ _ Hub) as (sc & Hsc & Hp & Hrest).
    erewrite listener_connect_unbound; [|exact Hf|exact Hsc|exact Hp].
    erewrite IH; [|exact Hf|reflexivity|apply Hrest|cbn in Hn; lia].
    cbn [connected_all]. rewrite Hsc. reflexivity.
Qed.

Lemma buildProtocol_calls_connect f p t0 addr sc :
  buildProtocol_calls (connect_events f p t0 addr sc) = [(f, addr, p)].
Proof.
  unfold buildProtocol_calls, connect_events. rewrite !omap_app.
  destruct (_pending_connectionLost sc) as [[] what]; cbn [fst snd];
    induction (_pending_dataReceived sc); cbn in *; auto.
Qed.

Lemma makeConnection_calls_connect f p t0 addr sc :
  makeConnection_calls (connect_events f p t0 addr sc) = [(p, t0)].
Proof.
  unfold makeConnection_calls, connect_events. rewrite !omap_app.
  destruct (_pending_connectionLost sc) as [[] what]; cbn [fst snd];
    induction (_pending_dataReceived sc); cbn in *; auto.
Qed.

Lemma connected_all_other f q : forall w r,
  r ∉ q.*1 -> heap (connected_all f q w) !! r = heap w !! r.
Proof.
  induction q as [|[t0 addr] rest IH]; intros w r Hr; [reflexivity|].
  cbn [connected_all]. cbn [fmap list_fmap fst] in Hr.
  apply not_elem_of_cons in Hr as [Hne Hr].
  destruct (heap w !! t0) as [sc|] eqn:E; [|reflexivity].
  rewrite IH by exact Hr. unfold connected.
  cbn [heap with_trace with_next_protocol with_heap].
  apply lookup_insert_ne. congruence.
Qed.

Lemma connected_all_spec f q : forall w,
  unbound_opens q w ->
  exists ext,
    trace (connected_all f q w) = trace w ++ ext
    /\ buildProtocol_calls ext =
         imap (fun i o => (f, o.2, (next_protocol w + i)%nat)) q
    /\ makeConnection_calls ext =
         imap (fun i o => ((next_protocol w + i)%nat, o.1)) q
    /\ next_protocol (connected_all f q w) = (next_protocol w + length q)%nat
    /\ deferreds (connected_all f q w) = deferreds w
    /\ forall i o, q !! i = Some o ->
         exists sc, heap (connected_all f q w) !! o.1 = Some sc
                    /\ _protocol sc = Some (next_protocol w + i)%nat.
Proof.
  induction q as [|[t0 addr] rest IH]; intros w Hub.
  - exists []. cbn [connected_all length imap].
    rewrite app_nil_r, Nat.add_0_r. repeat split. intros i o Hi.
    rewrite lookup_nil in Hi. discriminate.
  - destruct (unbound_opens_cons _ _ _ _ Hub) as (sc & Hsc & Hp & Hrest).
    destruct (IH _ (Hrest f)) as (ext & Htr & Hb & Hm & Hn & Hd & Hh).
    cbn [connected_all]. rewrite Hsc.
    set (w1 := connected f t0 addr sc w) in *.
    assert (Hnp : next_protocol w1 = S (next_protocol w)) by reflexivity.
    rewrite Hnp in Hb, Hm, Hn. setoid_rewrite Hnp in Hh.
    exists (connect_events f (next_protocol w) t0 addr sc ++ ext).
    split; [|split; [|split; [|split; [|split]]]].
    + rewrite Htr. unfold w1 at 1, connected, connect_events.
      cbn [trace with_trace]. rewrite <- app_assoc. reflexivity.
    + unfold buildProtocol_calls in *. rewrite omap_app.
      fold (buildProtocol_calls (connect_events f (next_protocol w) t0 addr sc)).
      rewrite buildProtocol_calls_connect, Hb. cbn [app imap snd].
      rewrite Nat.add_0_r. f_equal. apply imap_ext. intros i [t1 a1] _.
      cbn. repeat f_equal; lia.
    + unfold makeConnection_calls in *. rewrite omap_app.
      fold (makeConnection_calls (connect_events f (next_protocol w) t0 addr sc)).
      rewrite makeConnection_calls_connect, Hm. cbn [app imap fst].
      rewrite Nat.add_0_r. f_equal. apply imap_ext. intros i [t1 a1] _.
      cbn. repeat f_equal; lia.
    + rewrite Hn. cbn [length]. lia.
    + rewrite Hd. reflexivity.
    + intros [|i] o Hi; cbn in Hi.
      * inversion Hi; subst o; cbn [fst].
        destruct Hub as [Hnd _]. cbn [fmap list_fmap fst] in Hnd.
        apply NoDup_cons in Hnd as [Hnotin _].
        rewrite connected_all_other by exact Hnotin.
        unfold w1, connected. cbn [heap with_trace with_next_protocol with_heap].
        rewrite lookup_insert_eq. eexists. split; [reflexivity|].
        cbn. rewrite Nat.add_0_r. reflexivity.
      * destruct (Hh i o Hi) as (sc' & Hsc' & Hp'). exists sc'.
        split; [exact Hsc'|]. rewrite Hp'. f_equal. lia.
Qed.

Lemma listen_resumed_connects f q (ep : SubchannelListenerEndpoint.t) w :
  SubchannelListenerEndpoint._pending_opens ep = q ->
  unbound_opens q w ->
  SubchannelListenerEndpoint.listen_resumed f (ep, w) =
    (Ok (V_listening_port (SubchannelListenerEndpoint._host_addr ep)),
     (SubchannelListenerEndpoint.with_pending_opens []
        (SubchannelListenerEndpoint.with_factory (Some f) ep),
      connected_all f q w)).
Proof.
  intros Hq Hub. unfold SubchannelListenerEndpoint.listen_resumed. ep_unfold.
  erewrite (drain_connects f q); [reflexivity|reflexivity| |exact Hub|].
  - destruct ep; exact Hq.
  - destruct ep; cbn in *; subst; reflexivity.
Qed.

Lemma connected_all_in_order f q w d o :
  unbound_opens q w ->
  connected_in_order f q w (set_outcome d o (connected_all f q w)).
Proof.
  intros Hub.
  destruct (connected_all_spec f q w Hub) as (ext & Htr & Hb & Hm & _ & _ & Hh).
  exists ext. repeat split; assumption.
Qed.

Lemma listen_when_ready f q (ep : SubchannelListenerEndpoint.t) w :
  _called (SubchannelListenerEndpoint._once ep) = false ->
  _result (SubchannelListenerEndpoint._wait_for_main_channel ep) = Some Ready ->
  SubchannelListenerEndpoint._pending_opens ep = q ->
  unbound_opens q w ->
  SubchannelListenerEndpoint.listen f (ep, w) =
    (Ok (length (deferreds w)),
     (SubchannelListenerEndpoint.mk
        (SubchannelListenerEndpoint._host_addr ep)
        (mkOnce (_errtype (SubchannelListenerEndpoint._once ep)) true)
        (Some f) []
        (SubchannelListenerEndpoint._wait_for_main_channel ep),
      set_outcome (length (deferreds w))
        (Fired (V_listening_port (SubchannelListenerEndpoint._host_addr ep)))
        (connected_all f q
           (with_deferreds (deferreds w ++ [Waiting]) w)))).
Proof.
  intros Hc Hr Hq Hub. unfold SubchannelListenerEndpoint.listen, new_Deferred.
  ep_unfold. unfold Once_call. rewrite Hc. ep_unfold.
  unfold when_fired. cbn [SubchannelListenerEndpoint._wait_for_main_channel
                          SubchannelListenerEndpoint.with_once].
  rewrite Hr. ep_unfold. unfold resume, finish. cbn [fst snd].
  erewrite (listen_resumed_connects f q); [reflexivity| |exact Hub].
  destruct ep; exact Hq.
Qed.

Lemma listen_before_ready f (ep : SubchannelListenerEndpoint.t) w :
  _called (SubchannelListenerEndpoint._once ep) = false ->
  _result (SubchannelListenerEndpoint._wait_for_main_channel ep) = None ->
  SubchannelListenerEndpoint.listen f (ep, w) =
    (Ok (length (deferreds w)),
     (SubchannelListenerEndpoint.mk
        (SubchannelListenerEndpoint._host_addr ep)
        (mkOnce (_errtype (SubchannelListenerEndpoint._once ep)) true)
        (SubchannelListenerEndpoint._factory ep)
        (SubchannelListenerEndpoint._pending_opens ep)
        (mkObserver None
           (_observers (SubchannelListenerEndpoint._wait_for_main_channel ep)
            ++ [(length (deferreds w), f)])),
      with_deferreds (deferreds w ++ [Waiting]) w)).
Proof.
  intros Hc Hr. unfold SubchannelListenerEndpoint.listen, new_Deferred.
  ep_unfold. unfold Once_call. rewrite Hc. ep_unfold.
  unfold when_fired. cbn [SubchannelListenerEndpoint._wait_for_main_channel
                          SubchannelListenerEndpoint.with_once].
  rewrite Hr. ep_unfold. reflexivity.
Qed.

Lemma listener_ready_resumes f d q (ep : SubchannelListenerEndpoint.t) w :
  SubchannelListenerEndpoint._wait_for_main_channel ep
    = mkObserver None [(d, f)] ->
  SubchannelListenerEndpoint._pending_opens ep = q ->
  unbound_opens q w ->
  SubchannelListenerEndpoint._main_channel_ready (ep, w) =
    (Ok tt,
     (SubchannelListenerEndpoint.mk
        (SubchannelListenerEndpoint._host_addr ep)
        (SubchannelListenerEndpoint._once ep)
        (Some f) [] (mkObserver (Some Ready) []),
      set_outcome d
        (Fired (V_listening_port (SubchannelListenerEndpoint._host_addr ep)))
        (connected_all f q w))).
Proof.
  intros Hw Hq Hub.
  unfold SubchannelListenerEndpoint._main_channel_ready,
    SubchannelListenerEndpoint.main_channel_settled.
  ep_unfold. rewrite Hw. unfold settle. cbn [_result _observers].
  ep_unfold. cbn [map run_all]. ep_unfold. unfold resume, finish.
  cbn [fst snd].
  erewrite (listen_resumed_connects f q); [reflexivity| |exact Hub].
  destruct ep; exact Hq.
Qed.

Lemma got_open_queues t0 addr (ep : SubchannelListenerEndpoint.t) w :
  SubchannelListenerEndpoint._factory ep = None ->
  SubchannelListenerEndpoint._got_open t0 addr (ep, w) =
    (Ok tt,
     (SubchannelListenerEndpoint.with_pending_opens
        (SubchannelListenerEndpoint._pending_opens ep ++ [(t0, addr)]) ep,
      w)).
Proof.
  intros Hf. unfold SubchannelListenerEndpoint._got_open. ep_unfold.
  rewrite Hf. reflexivity.
Qed.

Lemma got_open_connects f t0 addr sc (ep : SubchannelListenerEndpoint.t) w :
  SubchannelListenerEndpoint._factory ep = Some f ->
  heap w !! t0 = Some sc -> _protocol sc = None ->
  SubchannelListenerEndpoint._got_open t0 addr (ep, w) =
    (Ok tt, (ep, connected f t0 addr sc w)).
Proof.
  intros Hf Hsc Hp. unfold SubchannelListenerEndpoint._got_open. ep_unfold.
  rewrite Hf. cbn [truthy].
  exact (listener_connect_unbound ep f t0 addr sc w Hf Hsc Hp).
Qed.

(** C7.  A listener endpoint without a factory appends an incoming open to
    the end of its queue and does nothing else.  When [listen] runs with
    the main channel ready, at once or resumed from its wait, the factory
    is recorded, the queue is emptied and the queued opens, each a distinct
    subchannel without a protocol, are connected in the order of the queue.
    An incoming open that arrives once the factory is recorded is connected
    at once and the queue is left as it is. *)
Theorem listener_queues_then_connects_in_order
    (ep0 ep1 ep2 ep3 : SubchannelListenerEndpoint.t) (w0 w1 w2 w3 : World)
    (f1 f2 f3 : factory) (d2 : nat) (t0 t3 : ref)
    (addr0 addr3 : _SubchannelAddress) (sc3 : SubChannel) :
  (* an open that arrives before a factory is recorded *)
  SubchannelListenerEndpoint._factory ep0 = None ->
  (* [listen] called once the main channel is ready *)
  _called (SubchannelListenerEndpoint._once ep1) = false ->
  _result (SubchannelListenerEndpoint._wait_for_main_channel ep1)
    = Some Ready ->
  unbound_opens (SubchannelListenerEndpoint._pending_opens ep1) w1 ->
  (* [listen] suspended, the main channel becomes ready *)
  SubchannelListenerEndpoint._wait_for_main_channel ep2
    = mkObserver None [(d2, f2)] ->
  unbound_opens (SubchannelListenerEndpoint._pending_opens ep2) w2 ->
  (* an open that arrives after the factory is recorded *)
  SubchannelListenerEndpoint._factory ep3 = Some f3 ->
  heap w3 !! t3 = Some sc3 -> _protocol sc3 = None ->
  SubchannelListenerEndpoint._got_open t0 addr0 (ep0, w0) =
    (Ok tt,
     (SubchannelListenerEndpoint.with_pending_opens
        (SubchannelListenerEndpoint._pending_opens ep0 ++ [(t0, addr0)]) ep0,
      w0))
  /\ (exists ep1' w1',
        SubchannelListenerEndpoint.listen f1 (ep1, w1) =
          (Ok (length (deferreds w1)), (ep1', w1'))
        /\ SubchannelListenerEndpoint._factory ep1' = Some f1
        /\ SubchannelListenerEndpoint._pending_opens ep1' = []
        /\ connected_in_order f1
             (SubchannelListenerEndpoint._pending_opens ep1) w1 w1'
        /\ deferreds w1' !! length (deferreds w1) =
             Some (Fired (V_listening_port
                            (SubchannelListenerEndpoint._host_addr ep1))))
  /\ (exists ep2' w2',
        SubchannelListenerEndpoint._main_channel_ready (ep2, w2) =
          (Ok tt, (ep2', w2'))
        /\ SubchannelListenerEndpoint._factory ep2' = Some f2
        /\ SubchannelListenerEndpoint._pending_opens ep2' = []
        /\ connected_in_order f2
             (SubchannelListenerEndpoint._pending_opens ep2) w2 w2')
  /\ SubchannelListenerEndpoint._got_open t3 addr3 (ep3, w3) =
       (Ok tt, (ep3, connected f3 t3 addr3 sc3 w3)).
Proof.
  intros Hf0 Hc1 Hr1 Hub1 Hw2 Hub2 Hf3 Hsc3 Hp3.
  split; [exact (got_open_queues t0 addr0 ep0 w0 Hf0)|].
  split; [|split].
  - eexists _, _. split.
    + exact (listen_when_ready f1 _ ep1 w1 Hc1 Hr1 eq_refl Hub1).
    + repeat split.
      * exact (connected_all_in_order f1 _
                 (with_deferreds (deferreds w1 ++ [Waiting]) w1) _ _ Hub1).
      * destruct (connected_all_spec f1 _
                    (with_deferreds (deferreds w1 ++ [Waiting]) w1) Hub1)
          as (_ & _ & _ & _ & _ & Hd & _).
        unfold set_outcome. cbn [deferreds with_deferreds].
        cbn [deferreds with_deferreds] in Hd. rewrite Hd.
        apply list_lookup_insert_eq. rewrite length_app. cbn. lia.
  - eexists _, _. split.
    + exact (listener_ready_resumes f2 d2 _ ep2 w2 Hw2 eq_refl Hub2).
    + repeat split. exact (connected_all_in_order f2 _ _ _ _ Hub2).
  - exact (got_open_connects f3 t3 addr3 sc3 ep3 w3 Hf3 Hsc3 Hp3).
Qed.

Lemma connector_resume_ready (ep : SubchannelConnectorEndpoint.t) w k :
  resume SubchannelConnectorEndpoint.connect_resumed Ready k (ep, w) =
    (Ok tt, (ep, opened (SubchannelConnectorEndpoint._host_addr ep) w k)).
Proof.
  unfold resume, finish, SubchannelConnectorEndpoint.connect_resumed.
  unfold allocate_subchannel_id, new_SubchannelAddress, new_SubChannel,
    buildProtocol, makeConnection.
  cbn [is_integer int_value]. ep_unfold. unfold emit at 1 2. cbn [fst snd].
  erewrite _set_protocol_unbound; [|solve_lookup|reflexivity].
  unfold emit, opened, open_events, set_outcome. py_done.
Qed.

Lemma connector_resume_all (ep : SubchannelConnectorEndpoint.t) ws : forall w,
  run_all (map (resume SubchannelConnectorEndpoint.connect_resumed Ready) ws)
    (ep, w) =
    (Ok tt,
     (ep, fold_left (opened (SubchannelConnectorEndpoint._host_addr ep)) ws w)).
Proof.
  induction ws as [|k ws IH]; intros w; cbn [map run_all fold_left].
  - reflexivity.
  - ep_unfold. rewrite connector_resume_ready. apply IH.
Qed.

Lemma opened_all_spec host ws : forall w,
  let w' := fold_left (opened host) ws w in
  omap allocated (trace w') =
    omap allocated (trace w) ++
    imap (fun i _ => mgr_scids w (mgr_allocated w + i)%nat) ws
  /\ omap open_sent (trace w') =
    omap open_sent (trace w) ++
    imap (fun i _ => mgr_scids w (mgr_allocated w + i)%nat) ws.
Proof.
  induction ws as [|k ws IH]; intros w; cbn [fold_left imap].
  - rewrite !app_nil_r. auto.
  - destruct (IH (opened host w k)) as [Ha Hs]. cbv zeta in *.
    rewrite Ha, Hs.
    change (trace (opened host w k)) with
      (trace w ++ open_events k.2 (mgr_scids w (mgr_allocated w))
                    (next_ref w) (next_protocol w)).
    change (mgr_scids (opened host w k)) with (mgr_scids w).
    change (mgr_allocated (opened host w k)) with (S (mgr_allocated w)).
    rewrite !omap_app. cbn [open_events omap list_omap allocated open_sent].
    rewrite <- !app_assoc. cbn [app]. rewrite Nat.add_0_r.
    split; do 2 f_equal; apply imap_ext; intros i x _; cbn; f_equal; lia.
Qed.

(** C6.  A [connect] of the connector endpoint called before the readiness
    signal has settled only registers as a waiter: the trace is unchanged,
    so [allocate_subchannel_id] is not called.  Called once the signal has
    settled with success, it makes, in this order, the calls
    [allocate_subchannel_id], [send_open], [subchannel_local_open] with the
    new SubChannel object, [buildProtocol] and [makeConnection], the new
    subchannel has the protocol bound, and the Deferred fires with that
    protocol.  When the signal settles with success, every suspended
    invocation does the same, one after the other: one allocation and one
    [send_open] for each. *)
Theorem connector_opens_after_ready
    (ep0 ep1 ep2 : SubchannelConnectorEndpoint.t) (w0 w1 w2 : World)
    (f0 f1 : factory) :
  (* [connect] before the readiness signal settles *)
  _result (SubchannelConnectorEndpoint._wait_for_main_channel ep0) = None ->
  (* [connect] after it has settled with success *)
  _result (SubchannelConnectorEndpoint._wait_for_main_channel ep1)
    = Some Ready ->
  (* the signal settles with success while invocations are suspended *)
  _result (SubchannelConnectorEndpoint._wait_for_main_channel ep2) = None ->
  SubchannelConnectorEndpoint.connect f0 (ep0, w0) =
    (Ok (length (deferreds w0)),
     (SubchannelConnectorEndpoint.with_wait
        (mkObserver None
           (_observers (SubchannelConnectorEndpoint._wait_for_main_channel ep0)
            ++ [(length (deferreds w0), f0)])) ep0,
      with_deferreds (deferreds w0 ++ [Waiting]) w0))
  /\ (let d1 := length (deferreds w1) in
      let w1' := opened (SubchannelConnectorEndpoint._host_addr ep1)
                   (with_deferreds (deferreds w1 ++ [Waiting]) w1) (d1, f1) in
      SubchannelConnectorEndpoint.connect f1 (ep1, w1) = (Ok d1, (ep1, w1'))
      /\ trace w1' =
           trace w1 ++
           open_events f1 (mgr_scids w1 (mgr_allocated w1)) (next_ref w1)
             (next_protocol w1)
      /\ deferreds w1' !! d1 = Some (Fired (V_protocol (next_protocol w1))))
  /\ (let ws := _observers
                  (SubchannelConnectorEndpoint._wait_for_main_channel ep2) in
      let w2' := fold_left
                   (opened (SubchannelConnectorEndpoint._host_addr ep2))
                   ws w2 in
      SubchannelConnectorEndpoint._main_channel_ready (ep2, w2) =
        (Ok tt,
         (SubchannelConnectorEndpoint.with_wait (mkObserver (Some Ready) [])
            ep2, w2'))
      /\ omap allocated (trace w2') =
           omap allocated (trace w2) ++
           imap (fun i _ => mgr_scids w2 (mgr_allocated w2 + i)%nat) ws
      /\ omap open_sent (trace w2') =
           omap open_sent (trace w2) ++
           imap (fun i _ => mgr_scids w2 (mgr_allocated w2 + i)%nat) ws).
Proof.
  intros Hr0 Hr1 Hr2. split; [|split].
  - unfold SubchannelConnectorEndpoint.connect, new_Deferred. ep_unfold.
    unfold when_fired. rewrite Hr0. ep_unfold. reflexivity.
  - cbv zeta. split; [|split].
    + unfold SubchannelConnectorEndpoint.connect, new_Deferred. ep_unfold.
      unfold when_fired. rewrite Hr1. ep_unfold.
      replace (SubchannelConnectorEndpoint.with_wait
                 (SubchannelConnectorEndpoint._wait_for_main_channel ep1) ep1)
        with ep1 by (destruct ep1; reflexivity).
      rewrite connector_resume_ready. reflexivity.
    + reflexivity.
    + unfold opened. cbn [deferreds with_deferreds fst].
      apply list_lookup_insert_eq. rewrite length_app. cbn. lia.
  - cbv zeta. split.
    + unfold SubchannelConnectorEndpoint._main_channel_ready,
        SubchannelConnectorEndpoint.main_channel_settled.
      ep_unfold. unfold settle. rewrite Hr2. ep_unfold.
      rewrite connector_resume_all. reflexivity.
    + apply opened_all_spec.
Qed.

(** ** Deferreds created later do not change a computation *)

Section Frame.
Context {S : Type} (more : list outcome -> S -> S) (len : S -> nat).

Lemma framed_ret {A} n (a : A) : framed more len n (ret a).
Proof. intros s ex _. cbn. auto. Qed.

Lemma framed_raise {A} n e : framed more len n (@raise S A e).
Proof. intros s ex _. cbn. auto. Qed.

Lemma framed_bind {A B} n (c : St S A) (k : A -> St S B) :
  framed more len n c -> (forall a, framed more len n (k a)) -> framed more len n (bind c k).
Proof.
  intros Hc Hk s ex Hn. unfold bind.
  destruct (Hc s ex Hn) as [-> Hlen].
  destruct (c s) as [[a|e] s']; cbn [fst snd] in *.
  - destruct (Hk a s' ex ltac:(lia)) as [-> Hlen']. split; [reflexivity|lia].
  - auto.
Qed.

Lemma framed_run_all n (cs : list (St S unit)) :
  Forall (framed more len n) cs -> framed more len n (run_all cs).
Proof.
  induction 1 as [|c cs Hc _ IH]; cbn [run_all].
  - apply framed_ret.
  - apply framed_bind; auto.
Qed.
End Frame.

Lemma framedM_get_sc n r : framedM n (get_sc r).
Proof.
  intros w ex _. unfold get_sc. cbn [heap more_deferreds with_deferreds].
  destruct (heap w !! r); cbn; auto.
Qed.

Lemma framedM_update_sc n r f : framedM n (update_sc r f).
Proof.
  intros w ex _. unfold update_sc. cbn [heap more_deferreds with_deferreds].
  destruct (heap w !! r); cbn; auto.
Qed.

Lemma framedM_emit n e : framedM n (emit e).
Proof. intros w ex _. cbn. auto. Qed.

Lemma framedM_buildProtocol n f addr : framedM n (buildProtocol f addr).
Proof. intros w ex _. cbn. auto. Qed.

Lemma framedM_py_assert n b : framedM n (py_assert b).
Proof. destruct b; [apply framed_ret|apply framed_raise]. Qed.

Lemma framedM__set_protocol n r p : framedM n (_set_protocol r p).
Proof.
  unfold _set_protocol. unfold mbind, M_bind, mret, M_ret.
  repeat first
    [ apply framed_bind; [|intros ?]
    | apply framedM_get_sc | apply framedM_update_sc | apply framedM_emit
    | apply framedM_py_assert | apply framed_ret
    | apply framed_run_all; apply Forall_map, Forall_true; intros ?
    | match goal with
      | |- framed _ _ _ (match ?x with _ => _ end) => destruct x
      end ].
Qed.

Lemma framedE_in_world {E A} n (c : M A) :
  framedM n c -> framedE n (in_world (E:=E) c).
Proof.
  intros Hc [e w] ex Hn. unfold in_world, more_deferreds_ep. cbn [fst snd] in *.
  destruct (Hc w ex Hn) as [-> Hlen]. destruct (c w) as [r w']. cbn in *. auto.
Qed.

Lemma framedE_get_self {E} n : framedE n (get_self (E:=E)).
Proof. intros [e w] ex _. cbn. auto. Qed.

Lemma framedE_update_self {E} n (f : E -> E) : framedE n (update_self f).
Proof. intros [e w] ex _. cbn. auto. Qed.

Lemma framedE_finish {E} n d (c : St (E * World) value) :
  (d < n)%nat -> framedE n c -> framedE n (finish d c).
Proof.
  intros Hd Hc [e w] ex Hn. unfold finish. cbn [fst snd] in *.
  destruct (Hc (e, w) ex Hn) as [Heq Hlen]. rewrite Heq.
  destruct (c (e, w)) as [[v|x] [e' w']]; cbn [fst snd] in *;
    unfold more_deferreds_ep, more_deferreds, set_outcome; cbn;
    rewrite insert_app_l by lia; rewrite length_insert; auto.
Qed.

Lemma framedE_resume {E} n (body : factory -> St (E * World) value) r k :
  (k.1 < n)%nat -> (forall f, framedE n (body f)) ->
  framedE n (resume body r k).
Proof.
  intros Hk Hbody. destruct r; cbn [resume].
  - apply framedE_finish; auto.
  - apply framedE_finish; [exact Hk|apply framed_raise].
Qed.

Ltac framed_tac :=
  unfold mbind, M_bind, mret, M_ret;
  repeat first
    [ apply framedE_in_world
    | apply framedM__set_protocol | apply framedM_buildProtocol
    | apply framedM_emit | apply framedE_get_self | apply framedE_update_self
    | apply framed_ret | apply framed_raise
    | apply framed_bind; [|intros ?]
    | match goal with
      | |- framed _ _ _ (match ?x with _ => _ end) => destruct x
      | |- framed _ _ _ (if ?x then _ else _) => destruct x
      end ].

Lemma framedE_control_connect_resumed n f :
  framedE n (ControlEndpoint.connect_resumed f).
Proof.
  unfold ControlEndpoint.connect_resumed, makeConnection. framed_tac.
Qed.

Lemma framedE_listener_connect n t0 addr :
  framedE n (SubchannelListenerEndpoint._connect t0 addr).
Proof.
  unfold SubchannelListenerEndpoint._connect, makeConnection. framed_tac.
Qed.

Lemma framedE_drain n fuel : framedE n (SubchannelListenerEndpoint.drain fuel).
Proof.
  induction fuel as [|fuel IH]; cbn [SubchannelListenerEndpoint.drain];
    framed_tac; try apply framedE_listener_connect; exact IH.
Qed.

Lemma framedE_listen_resumed n f :
  framedE n (SubchannelListenerEndpoint.listen_resumed f).
Proof.
  unfold SubchannelListenerEndpoint.listen_resumed. framed_tac.
  apply framedE_drain.
Qed.

(** ** What a resumed generator leaves of its endpoint *)

Section Kept.
Context {E : Type} (P : E -> E -> Prop).
Hypothesis P_refl : forall e, P e e.
Hypothesis P_trans : forall e1 e2 e3, P e1 e2 -> P e2 e3 -> P e1 e3.

Lemma ep_kept_ret {A} (a : A) : ep_kept P (ret a).
Proof. intros s. apply P_refl. Qed.

Lemma ep_kept_raise {A} e : ep_kept P (@raise _ A e).
Proof. intros s. apply P_refl. Qed.

Lemma ep_kept_get_self : ep_kept P get_self.
Proof. intros s. apply P_refl. Qed.

Lemma ep_kept_in_world {A} (c : M A) : ep_kept P (in_world c).
Proof. intros s. unfold in_world. destruct (c s.2). apply P_refl. Qed.

Lemma ep_kept_update_self f : (forall e, P e (f e)) -> ep_kept P (update_self f).
Proof. intros Hf s. apply Hf. Qed.

Lemma ep_kept_bind {A B} (c : St (E * World) A) (k : A -> St (E * World) B) :
  ep_kept P c -> (forall a, ep_kept P (k a)) -> ep_kept P (bind c k).
Proof.
  intros Hc Hk s. unfold bind. specialize (Hc s).
  destruct (c s) as [[a|e] s']; cbn [fst snd] in *; [|exact Hc].
  exact (P_trans _ _ _ Hc (Hk a s')).
Qed.

Lemma ep_kept_finish d (c : St (E * World) value) :
  ep_kept P c -> ep_kept P (finish d c).
Proof.
  intros Hc s. unfold finish. specialize (Hc s).
  destruct (c s) as [[v|x] [e w]]; exact Hc.
Qed.

Lemma ep_kept_resume (body : factory -> St (E * World) value) r k :
  (forall f, ep_kept P (body f)) -> ep_kept P (resume body r k).
Proof.
  intros Hb. destruct r; cbn [resume]; apply ep_kept_finish;
    [apply Hb|apply ep_kept_raise].
Qed.
End Kept.

Ltac kept_tac :=
  unfold mbind, M_bind, mret, M_ret;
  repeat first
    [ apply ep_kept_bind; [assumption| |intros ?]
    | apply ep_kept_in_world; assumption
    | apply ep_kept_get_self; assumption
    | apply ep_kept_ret; assumption
    | apply ep_kept_raise; assumption
    | match goal with
      | |- ep_kept _ (match ?x with _ => _ end) => destruct x
      | |- ep_kept _ (if ?x then _ else _) => destruct x
      end ].

Lemma control_resumed_keeps_ep f :
  ep_kept eq (ControlEndpoint.connect_resumed f).
Proof.
  assert (Hr : forall e : ControlEndpoint.t, e = e) by reflexivity.
  assert (Ht : forall e1 e2 e3 : ControlEndpoint.t,
             e1 = e2 -> e2 = e3 -> e1 = e3) by (intros; congruence).
  unfold ControlEndpoint.connect_resumed. kept_tac.
Qed.

Lemma same_guard_refl e : same_guard e e.
Proof. split; reflexivity. Qed.

Lemma same_guard_trans e1 e2 e3 :
  same_guard e1 e2 -> same_guard e2 e3 -> same_guard e1 e3.
Proof. intros [] []. split; congruence. Qed.

Lemma listener_connect_keeps_guard t0 addr :
  ep_kept same_guard (SubchannelListenerEndpoint._connect t0 addr).
Proof.
  pose proof same_guard_refl. pose proof same_guard_trans.
  unfold SubchannelListenerEndpoint._connect. kept_tac.
Qed.

Lemma drain_keeps_guard fuel :
  ep_kept same_guard (SubchannelListenerEndpoint.drain fuel).
Proof.
  pose proof same_guard_refl. pose proof same_guard_trans.
  induction fuel as [|fuel IH]; cbn [SubchannelListenerEndpoint.drain];
    kept_tac;
    try (apply ep_kept_update_self; intros []; split; reflexivity);
    try apply listener_connect_keeps_guard; exact IH.
Qed.

Lemma listen_resumed_keeps_guard f :
  ep_kept same_guard (SubchannelListenerEndpoint.listen_resumed f).
Proof.
  pose proof same_guard_refl. pose proof same_guard_trans.
  unfold SubchannelListenerEndpoint.listen_resumed. kept_tac;
    try (apply ep_kept_update_self; intros []; split; reflexivity).
  apply drain_keeps_guard.
Qed.

Lemma insert_last (l : list outcome) x o :
  <[length l := o]> (l ++ [x]) = l ++ [o].
Proof.
  rewrite insert_app_r_alt by lia. rewrite Nat.sub_diag. reflexivity.
Qed.

Lemma control_connect_again (s : ControlEndpoint.t * World) f :
  _called (ControlEndpoint._once s.1) = true ->
  _errtype (ControlEndpoint._once s.1) = SingleUseEndpointError ->
  ControlEndpoint.connect f s =
    (Ok (length (deferreds s.2)),
     more_deferreds_ep [Failed SingleUseEndpointError] s).
Proof.
  destruct s as [ep w]. cbn [fst snd]. intros Hc He.
  unfold ControlEndpoint.connect, new_Deferred. ep_unfold.
  unfold Once_call. rewrite Hc, He. ep_unfold. unfold finish. cbn [fst snd].
  unfold more_deferreds_ep, more_deferreds, set_outcome.
  cbn [fst snd deferreds with_deferreds]. rewrite insert_last.
  destruct ep as [pa sz [et ca] wt]. cbn in *. subst. reflexivity.
Qed.

Lemma listen_again (s : SubchannelListenerEndpoint.t * World) f :
  _called (SubchannelListenerEndpoint._once s.1) = true ->
  _errtype (SubchannelListenerEndpoint._once s.1) = SingleUseEndpointError ->
  SubchannelListenerEndpoint.listen f s =
    (Ok (length (deferreds s.2)),
     more_deferreds_ep [Failed SingleUseEndpointError] s).
Proof.
  destruct s as [ep w]. cbn [fst snd]. intros Hc He.
  unfold SubchannelListenerEndpoint.listen, new_Deferred. ep_unfold.
  unfold Once_call. rewrite Hc, He. ep_unfold. unfold finish. cbn [fst snd].
  unfold more_deferreds_ep, more_deferreds, set_outcome.
  cbn [fst snd deferreds with_deferreds]. rewrite insert_last.
  destruct ep as [ha [et ca] fa po wt]. cbn in *. subst. reflexivity.
Qed.

Lemma control_first_connect peer zero res w f1 :
  let s1 := (ControlEndpoint.connect f1
               (unused_ControlEndpoint peer zero res, w)).2 in
  (ControlEndpoint.connect f1 (unused_ControlEndpoint peer zero res, w)).1
    = Ok (length (deferreds w))
  /\ ControlEndpoint._once s1.1 = mkOnce SingleUseEndpointError true
  /\ (length (deferreds w) < length (deferreds s1.2))%nat
  /\ match res with
     | Some r => ControlEndpoint._wait_for_main_channel s1.1
                 = mkObserver (Some r) []
     | None => ControlEndpoint._wait_for_main_channel s1.1
               = mkObserver None [(length (deferreds w), f1)]
     end.
Proof.
  cbv zeta. unfold ControlEndpoint.connect, new_Deferred, unused_ControlEndpoint.
  ep_unfold. cbn [Once_call new_Once _called ControlEndpoint._once]. ep_unfold.
  cbn [when_fired ControlEndpoint._wait_for_main_channel
       ControlEndpoint.with_once _result].
  destruct res as [r|]; unfold when_fired; cbn [_result _observers];
    ep_unfold.
  - set (ep1 := ControlEndpoint.with_wait _ _).
    set (w1 := with_deferreds _ w).
    set (k := (length (deferreds w), f1)).
    pose proof (ep_kept_resume eq (fun e => eq_refl)
                  ControlEndpoint.connect_resumed r k
                  (fun f => control_resumed_keeps_ep f) (ep1, w1)) as Hk.
    pose proof (framedE_resume (S (length (deferreds w)))
                  ControlEndpoint.connect_resumed r k ltac:(cbn; lia)
                  (framedE_control_connect_resumed _) (ep1, w1) []
                  ltac:(cbn; rewrite length_app; cbn; lia)) as [_ Hlen].
    assert (Hok : (resume ControlEndpoint.connect_resumed r k (ep1, w1)).1
                  = Ok tt).
    { unfold resume, finish. destruct r;
        [destruct (ControlEndpoint.connect_resumed _ _) as [[] []]
        |]; reflexivity. }
    destruct (resume ControlEndpoint.connect_resumed r k (ep1, w1))
      as [res' [ep1' w1']].
    cbn [fst snd] in *. subst res' ep1'. cbn [fst snd].
    repeat split. cbn in Hlen. rewrite length_app in Hlen. cbn in Hlen. lia.
  - repeat split. cbn. rewrite length_app. cbn. lia.
Qed.

Lemma listener_first_listen host q res w f1 :
  let s1 := (SubchannelListenerEndpoint.listen f1
               (unused_ListenerEndpoint host q res, w)).2 in
  (SubchannelListenerEndpoint.listen f1
     (unused_ListenerEndpoint host q res, w)).1
    = Ok (length (deferreds w))
  /\ SubchannelListenerEndpoint._once s1.1
     = mkOnce SingleUseEndpointError true
  /\ (length (deferreds w) < length (deferreds s1.2))%nat
  /\ match res with
     | Some r => SubchannelListenerEndpoint._wait_for_main_channel s1.1
                 = mkObserver (Some r) []
     | None => SubchannelListenerEndpoint._wait_for_main_channel s1.1
               = mkObserver None [(length (deferreds w), f1)]
     end.
Proof.
  cbv zeta.
  unfold SubchannelListenerEndpoint.listen, new_Deferred,
    unused_ListenerEndpoint.
  ep_unfold.
  cbn [Once_call new_Once _called SubchannelListenerEndpoint._once].
  ep_unfold.
  cbn [when_fired SubchannelListenerEndpoint._wait_for_main_channel
       SubchannelListenerEndpoint.with_once _result].
  destruct res as [r|]; unfold when_fired; cbn [_result _observers];
    ep_unfold.
  - set (ep1 := SubchannelListenerEndpoint.with_wait _ _).
    set (w1 := with_deferreds _ w).
    set (k := (length (deferreds w), f1)).
    pose proof (ep_kept_resume same_guard same_guard_refl
                  SubchannelListenerEndpoint.listen_resumed r k
                  (fun f => listen_resumed_keeps_guard f) (ep1, w1))
      as [Hk1 Hk2].
    pose proof (framedE_resume (S (length (deferreds w)))
                  SubchannelListenerEndpoint.listen_resumed r k
                  ltac:(cbn; lia)
                  (framedE_listen_resumed _) (ep1, w1) []
                  ltac:(cbn; rewrite length_app; cbn; lia)) as [_ Hlen].
    assert (Hok : (resume SubchannelListenerEndpoint.listen_resumed r k
                     (ep1, w1)).1 = Ok tt).
    { unfold resume, finish. destruct r;
        [destruct (SubchannelListenerEndpoint.listen_resumed _ _) as [[] []]
        |]; reflexivity. }
    destruct (resume SubchannelListenerEndpoint.listen_resumed r k (ep1, w1))
      as [res' [ep1' w1']].
    cbn [fst snd] in *. subst res'. cbn [fst snd].
    rewrite Hk1, Hk2.
    repeat split. cbn in Hlen. rewrite length_app in Hlen. cbn in Hlen. lia.
  - repeat split. cbn. rewrite length_app. cbn. lia.
Qed.

Lemma control_settled_frame r ex (s : ControlEndpoint.t * World) :
  Forall (fun k => (k.1 < length (deferreds s.2))%nat)
    (_observers (ControlEndpoint._wait_for_main_channel s.1)) ->
  ControlEndpoint.main_channel_settled r (more_deferreds_ep ex s) =
    ((ControlEndpoint.main_channel_settled r s).1,
     more_deferreds_ep ex (ControlEndpoint.main_channel_settled r s).2)
  /\ (length (deferreds s.2)
      <= length (deferreds (ControlEndpoint.main_channel_settled r s).2.2))%nat.
Proof.
  destruct s as [ep w]. cbn [fst snd]. intros Hws.
  unfold ControlEndpoint.main_channel_settled, more_deferreds_ep.
  ep_unfold.
  destruct (settle r (ControlEndpoint._wait_for_main_channel ep))
    as [waiters o] eqn:Es.
  assert (Hw : Forall (fun k => (k.1 < length (deferreds w))%nat) waiters).
  { unfold settle in Es.
    destruct (_result (ControlEndpoint._wait_for_main_channel ep));
      inversion Es; subst; auto. }
  assert (Hf : framedE (length (deferreds w))
                 (run_all (map (resume ControlEndpoint.connect_resumed r) waiters))).
  { apply framed_run_all, Forall_map.
    eapply Forall_impl; [exact Hw|]. intros k Hk.
    apply framedE_resume; [exact Hk|]. intros f. apply framedE_control_connect_resumed. }
  exact (Hf (ControlEndpoint.with_wait o ep, w) ex (Nat.le_refl _)).
Qed.

Lemma listener_settled_frame r ex (s : SubchannelListenerEndpoint.t * World) :
  Forall (fun k => (k.1 < length (deferreds s.2))%nat)
    (_observers (SubchannelListenerEndpoint._wait_for_main_channel s.1)) ->
  SubchannelListenerEndpoint.main_channel_settled r (more_deferreds_ep ex s) =
    ((SubchannelListenerEndpoint.main_channel_settled r s).1,
     more_deferreds_ep ex (SubchannelListenerEndpoint.main_channel_settled r s).2)
  /\ (length (deferreds s.2)
      <= length (deferreds
                   (SubchannelListenerEndpoint.main_channel_settled r s).2.2))%nat.
Proof.
  destruct s as [ep w]. cbn [fst snd]. intros Hws.
  unfold SubchannelListenerEndpoint.main_channel_settled, more_deferreds_ep.
  ep_unfold.
  destruct (settle r (SubchannelListenerEndpoint._wait_for_main_channel ep))
    as [waiters o] eqn:Es.
  assert (Hw : Forall (fun k => (k.1 < length (deferreds w))%nat) waiters).
  { unfold settle in Es.
    destruct (_result (SubchannelListenerEndpoint._wait_for_main_channel ep));
      inversion Es; subst; auto. }
  assert (Hf : framedE (length (deferreds w))
                 (run_all (map (resume SubchannelListenerEndpoint.listen_resumed r) waiters))).
  { apply framed_run_all, Forall_map.
    eapply Forall_impl; [exact Hw|]. intros k Hk.
    apply framedE_resume; [exact Hk|]. intros f. apply framedE_listen_resumed. }
  exact (Hf (SubchannelListenerEndpoint.with_wait o ep, w) ex (Nat.le_refl _)).
Qed.

(** C5.  On a control endpoint ([connect]) and on a listener endpoint
    ([listen]) that were not used before, whether the readiness signal has
    settled or not, a second invocation yields a Deferred that has failed
    with SingleUseEndpointError and changes nothing else: the outcome of
    the first invocation is the same right after the second one, and the
    same again once the readiness signal settles, as without the second
    invocation. *)
Theorem single_use_endpoints (peer_addr : _SubchannelAddress)
    (subchannel_zero : ref) (host_addr : _WormholeAddress)
    (q : list (ref * _SubchannelAddress)) (res : option settled) (w : World)
    (f1 f2 : factory) :
  let d1 := length (deferreds w) in
  let again := [Failed SingleUseEndpointError] in
  (let first := ControlEndpoint.connect f1
                  (unused_ControlEndpoint peer_addr subchannel_zero res, w) in
   first.1 = Ok d1
   /\ ControlEndpoint.connect f2 first.2 =
        (Ok (length (deferreds first.2.2)), more_deferreds_ep again first.2)
   /\ deferreds (more_deferreds_ep again first.2).2
        !! length (deferreds first.2.2)
      = Some (Failed SingleUseEndpointError)
   /\ deferreds (more_deferreds_ep again first.2).2 !! d1
      = deferreds first.2.2 !! d1
   /\ forall r,
        let later := ControlEndpoint.main_channel_settled r first.2 in
        ControlEndpoint.main_channel_settled r
          (more_deferreds_ep again first.2)
        = (later.1, more_deferreds_ep again later.2)
        /\ deferreds (more_deferreds_ep again later.2).2 !! d1
           = deferreds later.2.2 !! d1)
  /\
  (let first := SubchannelListenerEndpoint.listen f1
                  (unused_ListenerEndpoint host_addr q res, w) in
   first.1 = Ok d1
   /\ SubchannelListenerEndpoint.listen f2 first.2 =
        (Ok (length (deferreds first.2.2)), more_deferreds_ep again first.2)
   /\ deferreds (more_deferreds_ep again first.2).2
        !! length (deferreds first.2.2)
      = Some (Failed SingleUseEndpointError)
   /\ deferreds (more_deferreds_ep again first.2).2 !! d1
      = deferreds first.2.2 !! d1
   /\ forall r,
        let later := SubchannelListenerEndpoint.main_channel_settled r
                       first.2 in
        SubchannelListenerEndpoint.main_channel_settled r
          (more_deferreds_ep again first.2)
        = (later.1, more_deferreds_ep again later.2)
        /\ deferreds (more_deferreds_ep again later.2).2 !! d1
           = deferreds later.2.2 !! d1).
Proof.
  cbv zeta. split.
  - destruct (control_first_connect peer_addr subchannel_zero res w f1)
      as (H1 & Ho & Hlen & Hw).
    set (s1 := (ControlEndpoint.connect f1 _).2) in *.
    assert (Hws : Forall (fun k => (k.1 < length (deferreds s1.2))%nat)
                    (_observers (ControlEndpoint._wait_for_main_channel s1.1))).
    { destruct res; rewrite Hw; cbn [_observers]; repeat constructor.
      exact Hlen. }
    split; [exact H1|]. split; [|split; [|split]].
    + apply control_connect_again; rewrite Ho; reflexivity.
    + cbn. apply list_lookup_middle. reflexivity.
    + cbn. apply lookup_app_l. exact Hlen.
    + intros r. destruct (control_settled_frame r
                            [Failed SingleUseEndpointError] s1 Hws) as [-> Hl].
      split; [reflexivity|]. cbn. apply lookup_app_l. lia.
  - destruct (listener_first_listen host_addr q res w f1)
      as (H1 & Ho & Hlen & Hw).
    set (s1 := (SubchannelListenerEndpoint.listen f1 _).2) in *.
    assert (Hws : Forall (fun k => (k.1 < length (deferreds s1.2))%nat)
                    (_observers
                       (SubchannelListenerEndpoint._wait_for_main_channel
                          s1.1))).
    { destruct res; rewrite Hw; cbn [_observers]; repeat constructor.
      exact Hlen. }
    split; [exact H1|]. split; [|split; [|split]].
    + apply listen_again; rewrite Ho; reflexivity.
    + cbn. apply list_lookup_middle. reflexivity.
    + cbn. apply lookup_app_l. exact Hlen.
    + intros r. destruct (listener_settled_frame r
                            [Failed SingleUseEndpointError] s1 Hws) as [-> Hl].
      split; [reflexivity|]. cbn. apply lookup_app_l. lia.
Qed.

(** * The properties at work *)

(** The first scenario, from C1. *)
Lemma scenario_1 :
  let w := one_subchannel in
  let sc := fresh_SubChannel 5 in
  (heap w !! 0%nat = Some sc /\ _state sc = open /\ _protocol sc = None
   /\ _pending_connectionLost sc = (false, None))
  /\ (remote_data 0%nat b_AB ;; remote_data 0%nat b_CD ;;
      remote_close 0%nat ;; _set_protocol 0%nat 7%nat) w =
       (Ok tt,
        mkWorld
          {[ 0%nat := mkSubChannel 5 WormholeAddress (SubchannelAddress 5)
                        closed (Some 7%nat) [] (true, Some ConnectionDone) ]}
          [M_send_close 5; M_subchannel_closed 5 0%nat;
           P_dataReceived 7%nat b_AB; P_dataReceived 7%nat b_CD;
           P_connectionLost 7%nat (Some ConnectionDone)]
          1%nat 0%nat (mgr_scids empty_world) 0%nat []).
Proof.
  cbv zeta.
  pose proof (buffered_delivery_on_attach 0%nat (fresh_SubChannel 5)
                one_subchannel [b_AB; b_CD] true 7%nat
                eq_refl eq_refl eq_refl eq_refl) as H.
  split; [repeat split|].
  etransitivity; [|etransitivity; [exact H|]]; vm_compute; reflexivity.
Defined.

(** What the protocol of the first scenario is told, and the state. *)
Example scenario_1_observed :
  let w' := ((remote_data 0%nat b_AB ;; remote_data 0%nat b_CD ;;
              remote_close 0%nat ;; _set_protocol 0%nat 7%nat)
               one_subchannel).2 in
  observed_by 7%nat (trace w') =
    [P_dataReceived 7%nat b_AB; P_dataReceived 7%nat b_CD;
     P_connectionLost 7%nat (Some ConnectionDone)]
  /\ _state <$> heap w' !! 0%nat = Some closed.
Proof. vm_compute. split; reflexivity. Qed.

(** C2 at the limit: payloads of exactly MAX_FRAME_LENGTH bytes and of one
    byte more. *)
Lemma write_at_the_limit :
  let w := one_subchannel in
  let sc := fresh_SubChannel 5 in
  let payload := replicate (Z.to_nat MAX_FRAME_LENGTH) Byte.x00 in
  let oversized := replicate (Z.to_nat (MAX_FRAME_LENGTH + 1)) Byte.x00 in
  (heap w !! 0%nat = Some sc /\ _state sc = open
   /\ len payload = MAX_FRAME_LENGTH /\ len oversized = MAX_FRAME_LENGTH + 1)
  /\ write 0%nat (PyBytes payload) w =
       (Ok tt, with_trace (trace w ++ [M_send_data 5 payload]) w)
  /\ write 0%nat (PyBytes oversized) w = (Raise AssertionError, w).
Proof.
  cbv zeta.
  assert (H0 : 0 <= MAX_FRAME_LENGTH) by (intros H; discriminate H).
  assert (H1 : len (replicate (Z.to_nat MAX_FRAME_LENGTH) Byte.x00)
               = MAX_FRAME_LENGTH).
  { unfold len. rewrite length_replicate. apply Z2Nat.id. exact H0. }
  assert (H2 : len (replicate (Z.to_nat (MAX_FRAME_LENGTH + 1)) Byte.x00)
               = MAX_FRAME_LENGTH + 1).
  { unfold len. rewrite length_replicate. apply Z2Nat.id. lia. }
  split; [exact (conj eq_refl (conj eq_refl (conj H1 H2)))|].
  apply (write_frame_length_limit 0%nat (fresh_SubChannel 5) one_subchannel).
  - reflexivity.
  - reflexivity.
  - rewrite H1. apply Z.le_refl.
  - rewrite H2. lia.
Defined.

(** C3 on a subchannel that was closed locally. *)
Lemma closing_subchannel_rejects :
  let w := one_closing_subchannel in
  let sc := with_state closing (fresh_SubChannel 5) in
  (heap w !! 0%nat = Some sc /\ _state sc = closing
   /\ len b_AB <= MAX_FRAME_LENGTH)
  /\ local_data 0%nat b_CD w =
       (Raise (AlreadyClosedError "write not allowed on closed subchannel"), w)
  /\ local_close 0%nat w =
       (Raise (AlreadyClosedError
                 "loseConnection not allowed on closed subchannel"), w)
  /\ write 0%nat (PyBytes b_AB) w =
       (Raise (AlreadyClosedError "write not allowed on closed subchannel"), w)
  /\ loseConnection 0%nat w =
       (Raise (AlreadyClosedError
                 "loseConnection not allowed on closed subchannel"), w).
Proof.
  cbv zeta.
  assert (Hle : len b_AB <= MAX_FRAME_LENGTH) by (intros H; discriminate H).
  split; [repeat split; exact Hle|].
  exact (closing_rejects_local_inputs 0%nat
           (with_state closing (fresh_SubChannel 5)) one_closing_subchannel
           b_CD b_AB eq_refl eq_refl Hle).
Defined.

(** C4 on a subchannel with protocol 7 bound, and on one that was closed
    locally and has no protocol. *)
Lemma remote_close_on_both :
  let w1 := one_bound_subchannel in
  let sc1 := with_protocol (Some 7%nat) (fresh_SubChannel 5) in
  let w2 := one_closing_subchannel in
  let sc2 := with_state closing (fresh_SubChannel 5) in
  (heap w1 !! 0%nat = Some sc1 /\ _state sc1 = open
   /\ heap w2 !! 0%nat = Some sc2 /\ _state sc2 = closing)
  /\ trace (remote_close 0%nat w1).2 =
       [M_send_close 5; P_connectionLost 7%nat (Some ConnectionDone);
        M_subchannel_closed 5 0%nat]
  /\ _state <$> heap (remote_close 0%nat w1).2 !! 0%nat = Some closed
  /\ trace (remote_close 0%nat w2).2 =
       [M_send_close 5; M_subchannel_closed 5 0%nat]
  /\ heap (remote_close 0%nat w2).2 !! 0%nat =
       Some (mkSubChannel 5 WormholeAddress (SubchannelAddress 5) closed None
               [] (true, Some ConnectionDone)).
Proof.
  cbv zeta.
  destruct (remote_close_outputs
              0%nat (with_protocol (Some 7%nat) (fresh_SubChannel 5))
              one_bound_subchannel
              0%nat (with_state closing (fresh_SubChannel 5))
              one_closing_subchannel
              eq_refl eq_refl eq_refl eq_refl) as [-> ->].
  split; [repeat split|]. vm_compute. repeat split.
Defined.

(** C8 on a subchannel with protocol 7 bound: a second attach, then more
    calls. *)
Lemma second_attach_fails :
  let w := one_bound_subchannel in
  let sc := with_protocol (Some 7%nat) (fresh_SubChannel 5) in
  (heap w !! 0%nat = Some sc /\ _protocol sc = Some 7%nat)
  /\ _set_protocol 0%nat 8%nat w = (Raise AssertionError, w)
  /\ exists sc',
       heap (invoke_all 0%nat
               [call__set_protocol 8%nat; call_remote_data b_AB;
                call_loseConnection; call__set_protocol 9%nat;
                call_remote_close] w) !! 0%nat = Some sc'
       /\ _protocol sc' = Some 7%nat.
Proof.
  cbv zeta.
  destruct (at_most_one_consumer 0%nat
              (with_protocol (Some 7%nat) (fresh_SubChannel 5))
              one_bound_subchannel 7%nat eq_refl eq_refl) as [H1 H2].
  split; [repeat split|]. split; [apply H1|apply H2].
Defined.

(** C10 on two small buffers, and on a buffer at the limit followed by a
    buffer of one byte. *)
Lemma writeSequence_over_the_limit :
  let w := one_subchannel in
  let big := [replicate (Z.to_nat MAX_FRAME_LENGTH) Byte.x00; [Byte.x00]] in
  (Forall (fun b => len b <= MAX_FRAME_LENGTH) big
   /\ MAX_FRAME_LENGTH < foldr Z.add 0 (map len big))
  /\ writeSequence 0%nat [PyBytes b_AB; PyBytes b_CD] w =
       write 0%nat (PyBytes (b_AB ++ b_CD)) w
  /\ writeSequence 0%nat (map PyBytes big) w = (Raise AssertionError, w).
Proof.
  cbv zeta.
  assert (H0 : 0 <= MAX_FRAME_LENGTH) by (intros H; discriminate H).
  assert (H1 : len (replicate (Z.to_nat MAX_FRAME_LENGTH) Byte.x00)
               = MAX_FRAME_LENGTH).
  { unfold len. rewrite length_replicate. apply Z2Nat.id. exact H0. }
  assert (Hall : Forall (fun b => len b <= MAX_FRAME_LENGTH)
                   [replicate (Z.to_nat MAX_FRAME_LENGTH) Byte.x00;
                    [Byte.x00]]).
  { constructor; [rewrite H1; apply Z.le_refl|].
    constructor; [intros H; discriminate H|constructor]. }
  assert (Hsum : MAX_FRAME_LENGTH <
                 foldr Z.add 0
                   (map len [replicate (Z.to_nat MAX_FRAME_LENGTH) Byte.x00;
                             [Byte.x00]])).
  { cbn [map foldr]. rewrite H1. change (len [Byte.x00]) with 1. lia. }
  split; [split; assumption|].
  destruct (writeSequence_is_write_of_concat 0%nat one_subchannel
              [b_AB; b_CD] _ Hall Hsum) as (Heq & _ & Hbig).
  split; [|exact Hbig].
  etransitivity; [exact Heq|]. reflexivity.
Defined.

(** The second scenario, from C6: a [connect] before the main channel is
    ready, one after, and two suspended ones resumed together. *)
Lemma scenario_2 :
  let ep0 := connector_start.1 in
  let ep1 := connector_ready.1 in
  let ep2 := connector_suspended.1 in
  (_result (SubchannelConnectorEndpoint._wait_for_main_channel ep0) = None
   /\ _result (SubchannelConnectorEndpoint._wait_for_main_channel ep1)
      = Some Ready
   /\ _result (SubchannelConnectorEndpoint._wait_for_main_channel ep2) = None)
  /\ trace (SubchannelConnectorEndpoint.connect 8%nat connector_start).2.2 = []
  /\ (trace (SubchannelConnectorEndpoint.connect 9%nat connector_ready).2.2 =
        [M_allocate_subchannel_id 1; M_send_open 1;
         M_subchannel_local_open 1 0%nat;
         F_buildProtocol 9%nat (SubchannelAddress 1) 0%nat;
         P_makeConnection 0%nat 0%nat]
      /\ deferreds
           (SubchannelConnectorEndpoint.connect 9%nat connector_ready).2.2
           !! 0%nat = Some (Fired (V_protocol 0%nat)))
  /\ (omap allocated
        (trace (SubchannelConnectorEndpoint._main_channel_ready
                  connector_suspended).2.2) = [1; 3]
      /\ omap open_sent
           (trace (SubchannelConnectorEndpoint._main_channel_ready
                     connector_suspended).2.2) = [1; 3]).
Proof.
  cbv zeta.
  destruct (connector_opens_after_ready
              connector_start.1 connector_ready.1 connector_suspended.1
              connector_start.2 connector_ready.2 connector_suspended.2
              8%nat 9%nat eq_refl eq_refl eq_refl)
    as (H0 & (H1 & H1t & H1d) & (H2 & H2a & H2s)).
  split; [repeat split|].
  rewrite <- surjective_pairing in H0, H1, H2.
  rewrite H0, H1, H2. cbn [fst snd].
  split; [reflexivity|]. split; [split|split].
  - exact H1t.
  - exact H1d.
  - exact H2a.
  - exact H2s.
Defined.

(** The third scenario, from C7: two opens are queued, [listen] connects
    them in the order received, a third open is connected at once. *)
Lemma scenario_3 :
  let queue := [(0%nat, SubchannelAddress 2); (1%nat, SubchannelAddress 4)] in
  (SubchannelListenerEndpoint._factory listener_start.1 = None
   /\ _called (SubchannelListenerEndpoint._once listener_ready.1) = false
   /\ _result (SubchannelListenerEndpoint._wait_for_main_channel
                 listener_ready.1) = Some Ready
   /\ unbound_opens queue listener_ready.2
   /\ SubchannelListenerEndpoint._wait_for_main_channel listener_suspended.1
      = mkObserver None [(0%nat, 9%nat)]
   /\ unbound_opens queue listener_suspended.2
   /\ SubchannelListenerEndpoint._factory listener_listening.1 = Some 9%nat
   /\ heap listener_listening.2 !! 2%nat = Some (fresh_SubChannel 6)
   /\ _protocol (fresh_SubChannel 6) = None)
  /\ SubchannelListenerEndpoint._pending_opens
       (SubchannelListenerEndpoint._got_open 0%nat (SubchannelAddress 2)
          listener_start).2.1 = [(0%nat, SubchannelAddress 2)]
  /\ (exists ep' w',
        SubchannelListenerEndpoint.listen 9%nat listener_ready
        = (Ok 0%nat, (ep', w'))
        /\ SubchannelListenerEndpoint._factory ep' = Some 9%nat
        /\ SubchannelListenerEndpoint._pending_opens ep' = []
        /\ connected_in_order 9%nat queue listener_ready.2 w')
  /\ (exists ep' w',
        SubchannelListenerEndpoint._main_channel_ready listener_suspended
        = (Ok tt, (ep', w'))
        /\ SubchannelListenerEndpoint._factory ep' = Some 9%nat
        /\ SubchannelListenerEndpoint._pending_opens ep' = []
        /\ connected_in_order 9%nat queue listener_suspended.2 w')
  /\ SubchannelListenerEndpoint._got_open 2%nat (SubchannelAddress 6)
       listener_listening
     = (Ok tt,
        (listener_listening.1,
         connected 9%nat 2%nat (SubchannelAddress 6) (fresh_SubChannel 6)
           listener_listening.2)).
Proof.
  cbv zeta.
  assert (Hub1 : unbound_opens
                   [(0%nat, SubchannelAddress 2); (1%nat, SubchannelAddress 4)]
                   listener_ready.2)
    by (refine (bool_decide_unpack _ _); vm_compute; exact I).
  assert (Hub2 : unbound_opens
                   [(0%nat, SubchannelAddress 2); (1%nat, SubchannelAddress 4)]
                   listener_suspended.2)
    by (refine (bool_decide_unpack _ _); vm_compute; exact I).
  destruct (listener_queues_then_connects_in_order
              listener_start.1 listener_ready.1 listener_suspended.1
              listener_listening.1
              listener_start.2 listener_ready.2 listener_suspended.2
              listener_listening.2
              9%nat 9%nat 9%nat 0%nat 0%nat 2%nat
              (SubchannelAddress 2) (SubchannelAddress 6) (fresh_SubChannel 6)
              eq_refl eq_refl eq_refl Hub1 eq_refl Hub2
              eq_refl eq_refl eq_refl)
    as (H0 & (ep1 & w1 & H1 & H1f & H1q & H1c & _)
        & (ep2 & w2 & H2 & H2f & H2q & H2c) & H3).
  split.
  { exact (conj eq_refl (conj eq_refl (conj eq_refl (conj Hub1
            (conj eq_refl (conj Hub2 (conj eq_refl (conj eq_refl eq_refl)))))))). }
  split.
  { rewrite <- surjective_pairing in H0. rewrite H0. reflexivity. }
  split.
  { exists ep1, w1. repeat split; assumption. }
  split.
  { exists ep2, w2. repeat split; assumption. }
  rewrite <- surjective_pairing in H3. exact H3.
Defined.

(** What the third scenario leaves in the trace. *)
Example scenario_3_observed :
  let w := listener_listening.2 in
  let w' := (SubchannelListenerEndpoint._got_open 2%nat (SubchannelAddress 6)
               listener_listening).2.2 in
  buildProtocol_calls (trace w) =
    [(9%nat, SubchannelAddress 2, 0%nat); (9%nat, SubchannelAddress 4, 1%nat)]
  /\ makeConnection_calls (trace w) = [(0%nat, 0%nat); (1%nat, 1%nat)]
  /\ makeConnection_calls (trace w') =
       [(0%nat, 0%nat); (1%nat, 1%nat); (2%nat, 2%nat)]
  /\ SubchannelListenerEndpoint._pending_opens
       (SubchannelListenerEndpoint._got_open 2%nat (SubchannelAddress 6)
          listener_listening).2.1 = [].
Proof. vm_compute. repeat split. Qed.

(** A second [connect] on a control endpoint whose first one is still
    suspended, from C5. *)
Example second_connect_fails :
  let ep := unused_ControlEndpoint (SubchannelAddress 0) 0%nat None in
  let first := ControlEndpoint.connect 8%nat (ep, one_subchannel) in
  let second := ControlEndpoint.connect 9%nat first.2 in
  let later := ControlEndpoint._main_channel_ready second.2 in
  deferreds first.2.2 = [Waiting]
  /\ deferreds second.2.2 = [Waiting; Failed SingleUseEndpointError]
  /\ deferreds later.2.2 =
       [Fired (V_protocol 0%nat); Failed SingleUseEndpointError]
  /\ trace later.2.2 =
       [F_buildProtocol 8%nat (SubchannelAddress 0) 0%nat;
        P_makeConnection 0%nat 0%nat].
Proof. vm_compute. repeat split. Qed.

(** * Further properties *)

Lemma acted_same self sc w :
  heap w !! self = Some sc -> acted self sc [] w = w.
Proof.
  intros Hsc. unfold acted. rewrite app_nil_r.
  rewrite insert_id by exact Hsc. rewrite with_heap_id. apply with_trace_id.
Qed.

Lemma acted_acted self sc1 evs1 sc2 evs2 w :
  acted self sc2 evs2 (acted self sc1 evs1 w) = acted self sc2 (evs1 ++ evs2) w.
Proof. unfold acted. py_world. reflexivity. Qed.

Lemma feed_step self sc w i :
  heap w !! self = Some sc ->
  feed self i w =
    ((step_input self sc i).1.1,
     acted self (step_input self sc i).1.2 (step_input self sc i).2 w).
Proof.
  intros Hsc. unfold feed, step_input. py_unfold. py_step.
  destruct (_state sc) eqn:Hst, i; cbn [upon fst snd];
    try (rewrite (acted_same _ _ _ Hsc); reflexivity);
    py_step; cbn [run_all];
    unfold send_close, send_data, signal_dataReceived, signal_connectionLost,
      error_closed_write, error_closed_close, emit, deliver_data,
      deliver_close;
    py_unfold; repeat py_step; py_norm;
    destruct (_protocol sc) eqn:Hp; cbn [fst snd]; repeat py_step;
    unfold acted; py_world; rewrite ?app_nil_r; reflexivity.
Qed.

Lemma invoke_step self sc w c :
  heap w !! self = Some sc ->
  invoke self c w =
    ((step self sc c).1.1,
     acted self (step self sc c).1.2 (step self sc c).2 w).
Proof.
  intros Hsc.
  assert (Hsame : forall (r : result unit),
            (r, w) = (r, acted self sc [] w))
    by (intros r; rewrite (acted_same _ _ _ Hsc); reflexivity).
  destruct c; cbn [invoke step];
    unfold remote_data, remote_close, local_data, local_close, loseConnection,
      local_close;
    try apply (feed_step _ _ _ _ Hsc).
  - destruct (_protocol sc) as [q|] eqn:Hp; cbn [fst snd].
    + rewrite (_set_protocol_bound _ _ _ _ _ Hsc Hp). apply Hsame.
    + rewrite (_set_protocol_unbound _ _ _ _ Hsc Hp). reflexivity.
  - unfold write. destruct data; cbn [is_bytes]; py_unfold; try apply Hsame.
    destruct (len data <=? MAX_FRAME_LENGTH); [|apply Hsame].
    apply (feed_step _ _ _ _ Hsc).
  - unfold writeSequence. destruct (bytes_join [] iovec) as [b|e];
      [|apply Hsame].
    unfold write. cbn [is_bytes]. py_unfold.
    destruct (len b <=? MAX_FRAME_LENGTH); [|apply Hsame].
    apply (feed_step _ _ _ _ Hsc).
  - unfold stopProducing, emit, acted. cbn [fst snd].
    rewrite insert_id by exact Hsc. rewrite with_heap_id. reflexivity.
  - unfold pauseProducing, emit, acted. cbn [fst snd].
    rewrite insert_id by exact Hsc. rewrite with_heap_id. reflexivity.
  - unfold resumeProducing, emit, acted. cbn [fst snd].
    rewrite insert_id by exact Hsc. rewrite with_heap_id. reflexivity.
  - unfold registerProducer, emit, acted. cbn [fst snd].
    rewrite insert_id by exact Hsc. rewrite with_heap_id. reflexivity.
  - unfold unregisterProducer, emit, acted. cbn [fst snd].
    rewrite insert_id by exact Hsc. rewrite with_heap_id. reflexivity.
Qed.

Lemma invoke_all_steps self cs : forall sc w,
  heap w !! self = Some sc ->
  invoke_all self cs w =
    acted self (steps self sc cs).1 (steps self sc cs).2 w.
Proof.
  induction cs as [|c cs IH]; intros sc w Hsc; cbn [invoke_all steps].
  - cbn [fst snd]. symmetry. apply acted_same. exact Hsc.
  - rewrite (invoke_step _ _ _ _ Hsc). cbn [fst snd].
    erewrite IH by apply lookup_insert_eq. apply acted_acted.
Qed.

Lemma count_app f tr1 tr2 : count f (tr1 ++ tr2) = (count f tr1 + count f tr2)%nat.
Proof. unfold count. rewrite List.filter_app, length_app. reflexivity. Qed.

Lemma acted_lookup self sc' evs w : heap (acted self sc' evs w) !! self = Some sc'.
Proof. apply lookup_insert_eq. Qed.

(** X1.  Whatever calls are made on a subchannel, failed ones included,
    only its own object and the trace change: the trace grows at its end,
    every other object of the store is as before, and so are the counters
    of the manager and of the factories and the Deferreds. *)
Theorem calls_touch_only_their_subchannel self sc w (cs : list call) :
  heap w !! self = Some sc ->
  let w' := invoke_all self cs w in
  (exists evs, trace w' = trace w ++ evs)
  /\ is_Some (heap w' !! self)
  /\ (forall r, r <> self -> heap w' !! r = heap w !! r)
  /\ next_ref w' = next_ref w /\ next_protocol w' = next_protocol w
  /\ mgr_allocated w' = mgr_allocated w /\ deferreds w' = deferreds w.
Proof.
  intros Hsc. cbv zeta. rewrite (invoke_all_steps _ _ _ _ Hsc).
  split; [eexists; reflexivity|]. split; [rewrite acted_lookup; eauto|].
  split; [|repeat split].
  intros r Hr. unfold acted. cbn [heap with_trace with_heap].
  apply lookup_insert_ne. congruence.
Qed.

(** X2.  No transition leaves the closed state: there every input,
    remote or local, and with them [loseConnection] and a [write] that
    passes its assertions, raises NoTransition (not AlreadyClosedError) and
    changes nothing. *)
Theorem closed_refuses_every_input self sc w (data payload : bytes) :
  heap w !! self = Some sc -> _state sc = closed ->
  len payload <= MAX_FRAME_LENGTH ->
  remote_data self data w = (Raise NoTransition, w)
  /\ remote_close self w = (Raise NoTransition, w)
  /\ local_data self data w = (Raise NoTransition, w)
  /\ local_close self w = (Raise NoTransition, w)
  /\ write self (PyBytes payload) w = (Raise NoTransition, w)
  /\ loseConnection self w = (Raise NoTransition, w).
Proof.
  intros Hsc Hst Hle.
  assert (H : forall i, feed self i w = (Raise NoTransition, w)).
  { intros i. rewrite (feed_step _ _ _ _ Hsc). unfold step_input.
    rewrite Hst. cbn [fst snd]. rewrite (acted_same _ _ _ Hsc). reflexivity. }
  repeat split; try apply H.
  unfold write. cbn [is_bytes]. py_unfold.
  destruct (Z.leb_spec (len payload) MAX_FRAME_LENGTH); [apply H|lia].
Qed.

Lemma remote_data_all_bound self p ds : forall sc w,
  heap w !! self = Some sc -> _state sc <> closed -> _protocol sc = Some p ->
  run_all (map (remote_data self) ds) w =
    (Ok tt, with_trace (trace w ++ map (P_dataReceived p) ds) w).
Proof.
  induction ds as [|d ds IH]; intros sc w Hsc Hst Hp; cbn [map run_all].
  - unfold ret. rewrite app_nil_r, with_trace_id. reflexivity.
  - py_unfold. rewrite (remote_data_bound _ _ _ _ _ Hsc Hst Hp).
    erewrite IH; [|exact Hsc|exact Hst|exact Hp].
    py_world. reflexivity.
Qed.

(** X3.  A local close, then remote data, then the remote close, on an
    open subchannel with protocol [p]: one [send_close] is sent, the data
    that arrives in the closing state still reaches [p] in order, then [p]
    is told [connectionLost] and the manager [subchannel_closed], and no
    second [send_close] is sent. *)
Theorem local_close_then_remote_close self sc w (p : protocol)
    (ds : list bytes) :
  heap w !! self = Some sc -> _state sc = open -> _protocol sc = Some p ->
  (loseConnection self ;; run_all (map (remote_data self) ds) ;;
   remote_close self) w =
    (Ok tt,
     acted self (with_state closed sc)
       ([M_send_close (_scid sc)] ++ map (P_dataReceived p) ds ++
        [P_connectionLost p (Some ConnectionDone);
         M_subchannel_closed (_scid sc) self]) w).
Proof.
  intros Hsc Hst Hp. py_unfold. unfold loseConnection, local_close.
  rewrite (feed_step _ _ _ _ Hsc). unfold step_input at 1 2 3. rewrite Hst.
  cbn [fst snd].
  set (w1 := acted self (with_state closing sc) [M_send_close (_scid sc)] w).
  assert (Hsc1 : heap w1 !! self = Some (with_state closing sc))
    by apply acted_lookup.
  erewrite remote_data_all_bound;
    [|exact Hsc1|cbn; discriminate|exact Hp].
  unfold remote_close. erewrite feed_step by exact Hsc1.
  unfold step_input, deliver_close. cbn [_state with_state _protocol].
  rewrite Hp. cbn [fst snd]. subst w1. unfold acted. py_world. reflexivity.
Qed.

Lemma omap_delivered_data p (l : list bytes) :
  omap delivered (map (P_dataReceived p) l) = l.
Proof. induction l as [|d l IH]; cbn; [|rewrite IH]; reflexivity. Qed.

Lemma step_keeps_data self sc c :
  _state sc <> closed ->
  (_pending_dataReceived sc = [] \/ _protocol sc = None) ->
  c <> call_remote_close ->
  let r := step self sc c in
  _state r.1.2 <> closed
  /\ (_pending_dataReceived r.1.2 = [] \/ _protocol r.1.2 = None)
  /\ omap delivered r.2 ++ _pending_dataReceived r.1.2
     = _pending_dataReceived sc ++ omap received [c].
Proof.
  intros Hst Hinv Hc. cbv zeta.
  assert (Hin : forall i, i <> I_remote_close ->
            (forall d, i <> I_remote_data d) ->
            _state (step_input self sc i).1.2 <> closed
            /\ (_pending_dataReceived (step_input self sc i).1.2 = []
                \/ _protocol (step_input self sc i).1.2 = None)
            /\ omap delivered (step_input self sc i).2
               ++ _pending_dataReceived (step_input self sc i).1.2
               = _pending_dataReceived sc).
  { intros i Hi Hd. destruct sc as [scid ha pa st pr pend cl].
    cbn in Hst, Hinv |- *. unfold step_input. cbn [_state].
    destruct st, i; try congruence; try (exfalso; eapply Hd; reflexivity);
      cbn; rewrite ?app_nil_r; repeat split; auto; discriminate. }
  destruct c; try congruence; cbn [step omap list_omap received];
    rewrite ?app_nil_r;
    try (apply Hin; [discriminate|intros; discriminate]);
    try (cbn [fst snd omap list_omap delivered];
         repeat split; assumption).
  - (* remote_data *)
    destruct sc as [scid ha pa st pr pend cl]. cbn in Hst, Hinv |- *.
    unfold step_input, deliver_data. cbn [_state _protocol].
    destruct st; try congruence; destruct pr as [q|]; cbn;
      destruct Hinv as [->|Hn]; try discriminate; cbn;
      repeat split; auto; discriminate.
  - (* _set_protocol *)
    destruct sc as [scid ha pa st pr pend [cl what]]. cbn in Hst, Hinv |- *.
    destruct pr as [q|]; cbn [fst snd omap list_omap].
    + cbn. repeat split; auto.
    + cbn [_state _pending_dataReceived with_pending_dataReceived
           with_protocol _protocol].
      rewrite omap_app, omap_delivered_data.
      destruct cl; cbn; rewrite ?app_nil_r; repeat split; auto.
  - (* write *)
    destruct data; cbn [fst snd omap list_omap];
      try (repeat split; assumption).
    destruct (len data <=? MAX_FRAME_LENGTH);
      [apply Hin; [discriminate|intros; discriminate]|].
    cbn [fst snd omap list_omap]. repeat split; assumption.
  - (* writeSequence *)
    destruct (bytes_join [] iovec) as [b|e];
      [destruct (len b <=? MAX_FRAME_LENGTH);
       [apply Hin; [discriminate|intros; discriminate]|]|];
      cbn [fst snd omap list_omap]; repeat split; assumption.
Qed.

Lemma steps_keep_data self cs : forall sc,
  _state sc <> closed ->
  (_pending_dataReceived sc = [] \/ _protocol sc = None) ->
  call_remote_close ∉ cs ->
  omap delivered (steps self sc cs).2
    ++ _pending_dataReceived (steps self sc cs).1
  = _pending_dataReceived sc ++ omap received cs.
Proof.
  induction cs as [|c cs IH]; intros sc Hst Hinv Hcs; cbn [steps].
  - cbn. rewrite app_nil_r. reflexivity.
  - apply not_elem_of_cons in Hcs as [Hc Hcs].
    destruct (step_keeps_data self sc c Hst Hinv ltac:(congruence))
      as (Hst' & Hinv' & Heq).
    cbn [fst snd]. rewrite omap_app, <- app_assoc.
    rewrite (IH _ Hst' Hinv' Hcs), app_assoc, Heq, <- app_assoc.
    f_equal. cbn [omap list_omap].
    destruct (received c); reflexivity.
Qed.

(** X4.  On a subchannel that is not closed and whose buffer is empty if a
    protocol is bound, as long as no remote close is among the calls, the
    data of the [remote_data] calls is never lost, repeated or reordered,
    whatever other calls, failed ones and an attach included, come in
    between: what was delivered followed by what is still buffered is what
    was buffered at first followed by the data received, in the order
    received. *)
Theorem remote_data_delivered_or_buffered_in_order self sc w
    (cs : list call) :
  heap w !! self = Some sc -> _state sc <> closed ->
  (_pending_dataReceived sc = [] \/ _protocol sc = None) ->
  call_remote_close ∉ cs ->
  let w' := invoke_all self cs w in
  exists sc' evs,
    heap w' !! self = Some sc' /\ trace w' = trace w ++ evs
    /\ omap delivered evs ++ _pending_dataReceived sc'
       = _pending_dataReceived sc ++ omap received cs.
Proof.
  intros Hsc Hst Hinv Hcs. cbv zeta.
  rewrite (invoke_all_steps _ _ _ _ Hsc).
  eexists _, _. split; [apply acted_lookup|]. split; [reflexivity|].
  apply steps_keep_data; assumption.
Qed.

Lemma step_after_open self sc c :
  _state sc <> open ->
  let r := step self sc c in
  _state r.1.2 <> open
  /\ (_state sc = closed -> _state r.1.2 = closed)
  /\ Forall (fun e => is_send e = false) r.2.
Proof.
  intros Hst. cbv zeta.
  assert (Hin : forall i,
            _state (step_input self sc i).1.2 <> open
            /\ (_state sc = closed -> _state (step_input self sc i).1.2 = closed)
            /\ Forall (fun e => is_send e = false) (step_input self sc i).2).
  { intros i. destruct sc as [scid ha pa st pr pend cl]. cbn in Hst |- *.
    unfold step_input, deliver_data, deliver_close. cbn [_state _protocol with_state].
    destruct st, i, pr; try congruence; cbn;
      repeat split; try discriminate; auto; repeat constructor. }
  assert (Hsame : _state sc <> open
                  /\ (_state sc = closed -> _state sc = closed)
                  /\ Forall (fun e => is_send e = false) []) by auto.
  destruct c; cbn [step]; try apply Hin; try exact Hsame;
    try solve [cbn [fst snd]; repeat split; auto; repeat constructor].
  - destruct (_protocol sc); cbn [fst snd]; [exact Hsame|].
    destruct sc as [scid ha pa st pr pend [[] what]]; cbn in Hst |- *;
      repeat split; auto; rewrite ?app_nil_r;
      try (apply Forall_app; split; [|repeat constructor]);
      apply Forall_map, Forall_true; reflexivity.
  - destruct data; try exact Hsame.
    destruct (len data <=? MAX_FRAME_LENGTH); [apply Hin|exact Hsame].
  - destruct (bytes_join [] iovec) as [b|e]; [|exact Hsame].
    destruct (len b <=? MAX_FRAME_LENGTH); [apply Hin|exact Hsame].
Qed.

Lemma steps_after_open self cs : forall sc,
  _state sc <> open ->
  _state (steps self sc cs).1 <> open
  /\ (_state sc = closed -> _state (steps self sc cs).1 = closed)
  /\ Forall (fun e => is_send e = false) (steps self sc cs).2.
Proof.
  induction cs as [|c cs IH]; intros sc Hst; cbn [steps fst snd].
  - auto.
  - destruct (step_after_open self sc c Hst) as (Hst' & Hcl & Hev).
    destruct (IH _ Hst') as (Hst'' & Hcl' & Hev').
    split; [exact Hst''|]. split; [auto|]. apply Forall_app. auto.
Qed.

(** X5.  Once a subchannel has left the open state it never returns to
    it, a closed one stays closed, and no call ever makes it send again:
    neither [send_data] nor [send_close] reaches the manager. *)
Theorem nothing_sent_once_closing self sc w (cs : list call) :
  heap w !! self = Some sc -> _state sc <> open ->
  let w' := invoke_all self cs w in
  exists sc' evs,
    heap w' !! self = Some sc' /\ trace w' = trace w ++ evs
    /\ _state sc' <> open
    /\ (_state sc = closed -> _state sc' = closed)
    /\ Forall (fun e => is_send e = false) evs.
Proof.
  intros Hsc Hst. cbv zeta. rewrite (invoke_all_steps _ _ _ _ Hsc).
  eexists _, _. split; [apply acted_lookup|]. split; [reflexivity|].
  apply steps_after_open. exact Hst.
Qed.

Lemma count_dataReceived f p (l : list bytes) :
  f (P_dataReceived p []) = false ->
  (forall d d', f (P_dataReceived p d) = f (P_dataReceived p d')) ->
  count f (map (P_dataReceived p) l) = 0%nat.
Proof.
  intros H0 Hf. unfold count. induction l as [|d l IH]; [reflexivity|].
  cbn [map List.filter]. rewrite (Hf d []), H0. exact IH.
Qed.

Lemma step_closes_agree self sc c evs :
  closes_agree sc evs ->
  (_state sc = closed -> _protocol sc = None ->
   (_pending_connectionLost sc).1 = true) ->
  (_state sc <> closed -> (_pending_connectionLost sc).1 = false) ->
  let r := step self sc c in
  closes_agree r.1.2 (evs ++ r.2)
  /\ (_state r.1.2 = closed -> _protocol r.1.2 = None ->
      (_pending_connectionLost r.1.2).1 = true)
  /\ (_state r.1.2 <> closed -> (_pending_connectionLost r.1.2).1 = false).
Proof.
  intros (H1 & H2 & H3) Hfl Hnf. cbv zeta. unfold closes_agree.
  rewrite !count_app, H1, H2, H3. clear H1 H2 H3.
  assert (Hin : forall i,
    let r := step_input self sc i in
    ((match _state sc with open => 0 | _ => 1 end) + count is_send_close r.2
     = match _state r.1.2 with open => 0 | _ => 1 end)%nat
    /\ ((match _state sc with closed => 1 | _ => 0 end)
        + count is_subchannel_closed r.2
        = match _state r.1.2 with closed => 1 | _ => 0 end)%nat
    /\ ((match _state sc with
         | closed => if truthy (_protocol sc) then 1 else 0
         | _ => 0
         end)
        + count is_connectionLost r.2
        = match _state r.1.2 with
          | closed => if truthy (_protocol r.1.2) then 1 else 0
          | _ => 0
          end)%nat
    /\ (_state r.1.2 = closed -> _protocol r.1.2 = None ->
        (_pending_connectionLost r.1.2).1 = true)
    /\ (_state r.1.2 <> closed -> (_pending_connectionLost r.1.2).1 = false)).
  { intros i. destruct sc as [scid ha pa st pr pend [cl what]].
    cbn in Hfl, Hnf |- *. unfold step_input, deliver_data, deliver_close.
    cbn [_state _protocol with_state].
    destruct st, i, pr; cbn; repeat split; auto; try congruence;
      try discriminate. }
  assert (Hsame :
    ((match _state sc with open => 0 | _ => 1 end) + count is_send_close []
     = match _state sc with open => 0 | _ => 1 end)%nat
    /\ ((match _state sc with closed => 1 | _ => 0 end)
        + count is_subchannel_closed []
        = match _state sc with closed => 1 | _ => 0 end)%nat
    /\ ((match _state sc with
         | closed => if truthy (_protocol sc) then 1 else 0
         | _ => 0
         end)
        + count is_connectionLost []
        = match _state sc with
          | closed => if truthy (_protocol sc) then 1 else 0
          | _ => 0
          end)%nat
    /\ (_state sc = closed -> _protocol sc = None ->
        (_pending_connectionLost sc).1 = true)
    /\ (_state sc <> closed -> (_pending_connectionLost sc).1 = false)).
  { unfold count. cbn. rewrite !Nat.add_0_r. auto. }
  assert (Hflow : forall e,
    is_send_close e = false -> is_subchannel_closed e = false ->
    is_connectionLost e = false ->
    ((match _state sc with open => 0 | _ => 1 end) + count is_send_close [e]
     = match _state sc with open => 0 | _ => 1 end)%nat
    /\ ((match _state sc with closed => 1 | _ => 0 end)
        + count is_subchannel_closed [e]
        = match _state sc with closed => 1 | _ => 0 end)%nat
    /\ ((match _state sc with
         | closed => if truthy (_protocol sc) then 1 else 0
         | _ => 0
         end)
        + count is_connectionLost [e]
        = match _state sc with
          | closed => if truthy (_protocol sc) then 1 else 0
          | _ => 0
          end)%nat
    /\ (_state sc = closed -> _protocol sc = None ->
        (_pending_connectionLost sc).1 = true)
    /\ (_state sc <> closed -> (_pending_connectionLost sc).1 = false)).
  { intros e Ha Hb Hc. unfold count. cbn. rewrite Ha, Hb, Hc. cbn.
    rewrite !Nat.add_0_r. auto. }
  enough (G : let r := step self sc c in
    ((match _state sc with open => 0 | _ => 1 end) + count is_send_close r.2
     = match _state r.1.2 with open => 0 | _ => 1 end)%nat
    /\ ((match _state sc with closed => 1 | _ => 0 end)
        + count is_subchannel_closed r.2
        = match _state r.1.2 with closed => 1 | _ => 0 end)%nat
    /\ ((match _state sc with
         | closed => if truthy (_protocol sc) then 1 else 0
         | _ => 0
         end)
        + count is_connectionLost r.2
        = match _state r.1.2 with
          | closed => if truthy (_protocol r.1.2) then 1 else 0
          | _ => 0
          end)%nat
    /\ (_state r.1.2 = closed -> _protocol r.1.2 = None ->
        (_pending_connectionLost r.1.2).1 = true)
    /\ (_state r.1.2 <> closed -> (_pending_connectionLost r.1.2).1 = false))
    by (cbv zeta in G; tauto).
  destruct c; cbn [step]; try apply Hin; try exact Hsame;
    try (apply Hflow; reflexivity).
  - (* _set_protocol *)
    destruct sc as [scid ha pa st pr pend [cl what]].
    cbn in Hfl, Hnf, Hsame |- *. destruct pr as [q|]; [exact Hsame|].
    cbn [fst snd _state with_pending_dataReceived with_protocol _protocol
         _pending_connectionLost truthy].
    rewrite !count_app, !count_dataReceived by reflexivity.
    destruct st, cl; cbn; repeat split; auto; try congruence;
      try discriminate;
      try (specialize (Hfl eq_refl eq_refl); discriminate);
      try (specialize (Hnf ltac:(discriminate)); discriminate).
  - destruct data; try exact Hsame.
    destruct (len data <=? MAX_FRAME_LENGTH); [apply Hin|exact Hsame].
  - destruct (bytes_join [] iovec) as [b|e]; [|exact Hsame].
    destruct (len b <=? MAX_FRAME_LENGTH); [apply Hin|exact Hsame].
Qed.

Lemma steps_closes_agree self cs : forall sc evs,
  closes_agree sc evs ->
  (_state sc = closed -> _protocol sc = None ->
   (_pending_connectionLost sc).1 = true) ->
  (_state sc <> closed -> (_pending_connectionLost sc).1 = false) ->
  closes_agree (steps self sc cs).1 (evs ++ (steps self sc cs).2).
Proof.
  induction cs as [|c cs IH]; intros sc evs Hag Hfl Hnf; cbn [steps fst snd].
  - rewrite app_nil_r. exact Hag.
  - destruct (step_closes_agree self sc c evs Hag Hfl Hnf) as (Hag' & Hfl' & Hnf').
    rewrite app_assoc. apply IH; assumption.
Qed.

(** X6.  From an open subchannel with no close pending, after any calls:
    [send_close] was sent once if the state is no longer open and not at
    all otherwise; [subchannel_closed] was called once if the state is
    closed and not at all otherwise; [connectionLost] was delivered once if
    the state is closed and a protocol is bound, and not at all
    otherwise. *)
Theorem close_is_signalled_exactly_once self sc w (cs : list call) :
  heap w !! self = Some sc -> _state sc = open ->
  (_pending_connectionLost sc).1 = false ->
  let w' := invoke_all self cs w in
  exists sc' evs,
    heap w' !! self = Some sc' /\ trace w' = trace w ++ evs
    /\ count is_send_close evs
       = match _state sc' with open => 0 | _ => 1 end%nat
    /\ count is_subchannel_closed evs
       = match _state sc' with closed => 1 | _ => 0 end%nat
    /\ count is_connectionLost evs
       = match _state sc' with
         | closed => if truthy (_protocol sc') then 1 else 0
         | _ => 0
         end%nat.
Proof.
  intros Hsc Hst Hfl. cbv zeta. rewrite (invoke_all_steps _ _ _ _ Hsc).
  eexists _, _. split; [apply acted_lookup|]. split; [reflexivity|].
  apply (steps_closes_agree self cs sc []).
  - unfold closes_agree, count. rewrite Hst. cbn. auto.
  - rewrite Hst. discriminate.
  - intros _. exact Hfl.
Qed.



Lemma Once_calls_called n errtype :
  Once_calls n (mkOnce errtype true) =
    (replicate n (Raise errtype), mkOnce errtype true).
Proof.
  induction n as [|n IH]; [reflexivity|].
  cbn [Once_calls Once_call _called _errtype fst snd replicate].
  rewrite IH. reflexivity.
Qed.

(** X8.  Of any number of calls of a new Once, the first succeeds and
    every later one raises the error type the Once was made with. *)
Theorem Once_succeeds_once (errtype : exn) (n : nat) :
  Once_calls (S n) (new_Once errtype) =
    (Ok tt :: replicate n (Raise errtype), mkOnce errtype true).
Proof.
  cbn [Once_calls new_Once Once_call _called _errtype fst snd].
  rewrite Once_calls_called. reflexivity.
Qed.

Lemma control_connect_resumed_unbound (ep : ControlEndpoint.t) f sc w :
  heap w !! ControlEndpoint._subchannel_zero ep = Some sc ->
  _protocol sc = None ->
  ControlEndpoint.connect_resumed f (ep, w) =
    (Ok (V_protocol (next_protocol w)),
     (ep, connected f (ControlEndpoint._subchannel_zero ep)
            (ControlEndpoint._peer_addr ep) sc w)).
Proof.
  intros Hsc Hp.
  unfold ControlEndpoint.connect_resumed, buildProtocol, makeConnection.
  ep_unfold.
  erewrite _set_protocol_unbound; [|solve_lookup|exact Hp].
  unfold emit, connected, connect_events. py_done.
Qed.

(** X9.  [connect] of a control endpoint that was not used, with the main
    channel ready, at once or resumed from its wait, on a subchannel zero
    without a protocol: one protocol is built for the peer address of the
    endpoint and bound to subchannel zero, the data and the close buffered
    there are delivered, then [makeConnection] is called, and the Deferred
    fires with the protocol. *)
Theorem control_connect_binds_subchannel_zero
    (ep1 ep2 : ControlEndpoint.t) (w1 w2 : World) (f1 f2 : factory)
    (d2 : nat) (sc1 sc2 : SubChannel) :
  _called (ControlEndpoint._once ep1) = false ->
  _result (ControlEndpoint._wait_for_main_channel ep1) = Some Ready ->
  heap w1 !! ControlEndpoint._subchannel_zero ep1 = Some sc1 ->
  _protocol sc1 = None ->
  ControlEndpoint._wait_for_main_channel ep2 = mkObserver None [(d2, f2)] ->
  heap w2 !! ControlEndpoint._subchannel_zero ep2 = Some sc2 ->
  _protocol sc2 = None ->
  ControlEndpoint.connect f1 (ep1, w1) =
    (Ok (length (deferreds w1)),
     (ControlEndpoint.with_once
        (mkOnce (_errtype (ControlEndpoint._once ep1)) true) ep1,
      set_outcome (length (deferreds w1))
        (Fired (V_protocol (next_protocol w1)))
        (connected f1 (ControlEndpoint._subchannel_zero ep1)
           (ControlEndpoint._peer_addr ep1) sc1
           (with_deferreds (deferreds w1 ++ [Waiting]) w1))))
  /\ ControlEndpoint._main_channel_ready (ep2, w2) =
       (Ok tt,
        (ControlEndpoint.with_wait (mkObserver (Some Ready) []) ep2,
         set_outcome d2 (Fired (V_protocol (next_protocol w2)))
           (connected f2 (ControlEndpoint._subchannel_zero ep2)
              (ControlEndpoint._peer_addr ep2) sc2 w2))).
Proof.
  intros Hc1 Hr1 Hsc1 Hp1 Hw2 Hsc2 Hp2. split.
  - unfold ControlEndpoint.connect, new_Deferred. ep_unfold.
    unfold Once_call. rewrite Hc1. ep_unfold.
    unfold when_fired.
    cbn [ControlEndpoint._wait_for_main_channel ControlEndpoint.with_once].
    rewrite Hr1. ep_unfold. unfold resume, finish. cbn [fst snd].
    erewrite control_connect_resumed_unbound; [|exact Hsc1|exact Hp1].
    destruct ep1; reflexivity.
  - unfold ControlEndpoint._main_channel_ready,
      ControlEndpoint.main_channel_settled.
    ep_unfold. rewrite Hw2. unfold settle. cbn [_result _observers].
    ep_unfold. cbn [map run_all]. ep_unfold. unfold resume, finish.
    cbn [fst snd].
    erewrite control_connect_resumed_unbound; [|exact Hsc2|exact Hp2].
    reflexivity.
Qed.

Lemma observed_by_connect_events f p t0 addr sc :
  observed_by p (connect_events f p t0 addr sc) =
    map (P_dataReceived p) (_pending_dataReceived sc) ++
    (if (_pending_connectionLost sc).1
     then [P_connectionLost p (_pending_connectionLost sc).2]
     else []) ++
    [P_makeConnection p t0].
Proof.
  unfold observed_by, connect_events. cbn [app omap list_omap told].
  rewrite !omap_app. f_equal; [|f_equal].
  - induction (_pending_dataReceived sc) as [|d l IH]; [reflexivity|].
    cbn [map omap list_omap told]. rewrite decide_True by reflexivity.
    cbn. f_equal. exact IH.
  - destruct (_pending_connectionLost sc) as [[] what]; cbn;
      rewrite ?decide_True by reflexivity; reflexivity.
  - cbn. rewrite decide_True by reflexivity. reflexivity.
Qed.

(** X10.  When the listener connects a subchannel that has already
    received data or a close, the new protocol is told the buffered data,
    then the close, and only then [makeConnection]: [_set_protocol] comes
    before [makeConnection] in [_connect]. *)
Theorem buffered_data_precedes_makeConnection
    (ep : SubchannelListenerEndpoint.t) (w : World) (f : factory) (t0 : ref)
    (addr : _SubchannelAddress) (sc : SubChannel) :
  SubchannelListenerEndpoint._factory ep = Some f ->
  heap w !! t0 = Some sc -> _protocol sc = None ->
  let w' := (SubchannelListenerEndpoint._got_open t0 addr (ep, w)).2.2 in
  let p := next_protocol w in
  exists evs,
    trace w' = trace w ++ evs
    /\ observed_by p evs =
         map (P_dataReceived p) (_pending_dataReceived sc) ++
         (if (_pending_connectionLost sc).1
          then [P_connectionLost p (_pending_connectionLost sc).2]
          else []) ++
         [P_makeConnection p t0]
    /\ heap w' !! t0
       = Some (with_pending_dataReceived [] (with_protocol (Some p) sc)).
Proof.
  intros Hf Hsc Hp. cbv zeta.
  rewrite (got_open_connects f t0 addr sc ep w Hf Hsc Hp). cbn [fst snd].
  exists (connect_events f (next_protocol w) t0 addr sc).
  split; [reflexivity|]. split; [apply observed_by_connect_events|].
  unfold connected. cbn [heap with_trace with_next_protocol with_heap].
  apply lookup_insert_eq.
Qed.

Lemma resume_errored_all {E} (body : factory -> St (E * World) value) x ws :
  forall (ep : E) w,
    run_all (map (resume body (Errored x)) ws) (ep, w) =
      (Ok tt, (ep, all_failed (Failure x) ws w)).
Proof.
  induction ws as [|k ws IH]; intros ep w; cbn [map run_all]; [reflexivity|].
  ep_unfold. unfold resume at 1, finish, raise. cbn [fst snd].
  rewrite IH. reflexivity.
Qed.

Lemma all_failed_keeps x ws : forall w,
  trace (all_failed x ws w) = trace w
  /\ heap (all_failed x ws w) = heap w
  /\ mgr_allocated (all_failed x ws w) = mgr_allocated w
  /\ next_protocol (all_failed x ws w) = next_protocol w.
Proof.
  induction ws as [|k ws IH]; intros w; cbn [all_failed fold_left]; [auto|].
  destruct (IH (set_outcome k.1 (Failed x) w)) as (H1 & H2 & H3 & H4).
  unfold all_failed in *. rewrite H1, H2, H3, H4. auto.
Qed.

(** X11.  When the readiness signal has failed, [connect] of the control
    and of the connector endpoint and [listen] of the listener endpoint
    return a Deferred failed with that failure and do nothing else: no
    manager call, no protocol built, no factory recorded.  When the signal
    fails while calls are suspended, the Deferred of each fails with that
    failure, and the trace, the objects and the counters are as
    before. *)
Theorem readiness_failure_is_propagated
    (cep : ControlEndpoint.t) (nep : SubchannelConnectorEndpoint.t)
    (lep : SubchannelListenerEndpoint.t)
    (cep' : ControlEndpoint.t) (nep' : SubchannelConnectorEndpoint.t)
    (lep' : SubchannelListenerEndpoint.t)
    (w : World) (f : factory) (x : nat) :
  (* the signal has failed before the call *)
  _called (ControlEndpoint._once cep) = false ->
  _result (ControlEndpoint._wait_for_main_channel cep) = Some (Errored x) ->
  _result (SubchannelConnectorEndpoint._wait_for_main_channel nep)
    = Some (Errored x) ->
  _called (SubchannelListenerEndpoint._once lep) = false ->
  _result (SubchannelListenerEndpoint._wait_for_main_channel lep)
    = Some (Errored x) ->
  (* the signal fails while calls are suspended *)
  _result (ControlEndpoint._wait_for_main_channel cep') = None ->
  _result (SubchannelConnectorEndpoint._wait_for_main_channel nep') = None ->
  _result (SubchannelListenerEndpoint._wait_for_main_channel lep') = None ->
  let failed := more_deferreds [Failed (Failure x)] w in
  ControlEndpoint.connect f (cep, w) =
    (Ok (length (deferreds w)),
     (ControlEndpoint.with_once
        (mkOnce (_errtype (ControlEndpoint._once cep)) true) cep, failed))
  /\ SubchannelConnectorEndpoint.connect f (nep, w) =
       (Ok (length (deferreds w)), (nep, failed))
  /\ SubchannelListenerEndpoint.listen f (lep, w) =
       (Ok (length (deferreds w)),
        (SubchannelListenerEndpoint.with_once
           (mkOnce (_errtype (SubchannelListenerEndpoint._once lep)) true)
           lep, failed))
  /\ ControlEndpoint._main_channel_failed x (cep', w) =
       (Ok tt,
        (ControlEndpoint.with_wait (mkObserver (Some (Errored x)) []) cep',
         all_failed (Failure x)
           (_observers (ControlEndpoint._wait_for_main_channel cep')) w))
  /\ SubchannelConnectorEndpoint._main_channel_failed x (nep', w) =
       (Ok tt,
        (SubchannelConnectorEndpoint.with_wait
           (mkObserver (Some (Errored x)) []) nep',
         all_failed (Failure x)
           (_observers
              (SubchannelConnectorEndpoint._wait_for_main_channel nep')) w))
  /\ SubchannelListenerEndpoint._main_channel_failed x (lep', w) =
       (Ok tt,
        (SubchannelListenerEndpoint.with_wait
           (mkObserver (Some (Errored x)) []) lep',
         all_failed (Failure x)
           (_observers
              (SubchannelListenerEndpoint._wait_for_main_channel lep')) w))
  /\ forall ws : list (nat * factory),
       trace (all_failed (Failure x) ws w) = trace w
       /\ heap (all_failed (Failure x) ws w) = heap w
       /\ mgr_allocated (all_failed (Failure x) ws w) = mgr_allocated w
       /\ next_protocol (all_failed (Failure x) ws w) = next_protocol w.
Proof.
  intros Hcc Hcr Hnr Hlc Hlr Hcr' Hnr' Hlr'. cbv zeta.
  assert (Hlast : forall e : exn,
            set_outcome (length (deferreds w)) (Failed e)
              (with_deferreds (deferreds w ++ [Waiting]) w)
            = more_deferreds [Failed e] w).
  { intros e. unfold set_outcome, more_deferreds.
    cbn [deferreds with_deferreds]. rewrite insert_last.
    destruct w; reflexivity. }
  repeat split; try apply all_failed_keeps.
  - unfold ControlEndpoint.connect, new_Deferred. ep_unfold.
    unfold Once_call. rewrite Hcc. ep_unfold. unfold when_fired.
    cbn [ControlEndpoint._wait_for_main_channel ControlEndpoint.with_once].
    rewrite Hcr. ep_unfold. unfold resume, finish, raise. cbn [fst snd].
    rewrite Hlast. destruct cep; reflexivity.
  - unfold SubchannelConnectorEndpoint.connect, new_Deferred. ep_unfold.
    unfold when_fired. rewrite Hnr. ep_unfold.
    unfold resume, finish, raise. cbn [fst snd].
    rewrite Hlast. destruct nep; reflexivity.
  - unfold SubchannelListenerEndpoint.listen, new_Deferred. ep_unfold.
    unfold Once_call. rewrite Hlc. ep_unfold. unfold when_fired.
    cbn [SubchannelListenerEndpoint._wait_for_main_channel
         SubchannelListenerEndpoint.with_once].
    rewrite Hlr. ep_unfold. unfold resume, finish, raise. cbn [fst snd].
    rewrite Hlast. destruct lep; reflexivity.
  - unfold ControlEndpoint._main_channel_failed,
      ControlEndpoint.main_channel_settled.
    ep_unfold. unfold settle. rewrite Hcr'. ep_unfold.
    apply resume_errored_all.
  - unfold SubchannelConnectorEndpoint._main_channel_failed,
      SubchannelConnectorEndpoint.main_channel_settled.
    ep_unfold. unfold settle. rewrite Hnr'. ep_unfold.
    apply resume_errored_all.
  - unfold SubchannelListenerEndpoint._main_channel_failed,
      SubchannelListenerEndpoint.main_channel_settled.
    ep_unfold. unfold settle. rewrite Hlr'. ep_unfold.
    apply resume_errored_all.
Qed.

(** X12.  When the first queued open of a listener is a subchannel that
    already has a protocol, [listen] builds a protocol for it, fails with
    the AssertionError of [_set_protocol] and stops: its Deferred has
    failed, the factory is recorded, the open is gone from the queue and
    the opens behind it stay queued. *)
Theorem listen_stops_at_a_bound_subchannel
    (ep : SubchannelListenerEndpoint.t) (w : World) (f : factory)
    (t0 : ref) (addr : _SubchannelAddress)
    (rest : list (ref * _SubchannelAddress)) (sc : SubChannel)
    (q : protocol) :
  _called (SubchannelListenerEndpoint._once ep) = false ->
  _result (SubchannelListenerEndpoint._wait_for_main_channel ep)
    = Some Ready ->
  SubchannelListenerEndpoint._pending_opens ep = (t0, addr) :: rest ->
  heap w !! t0 = Some sc -> _protocol sc = Some q ->
  SubchannelListenerEndpoint.listen f (ep, w) =
    (Ok (length (deferreds w)),
     (SubchannelListenerEndpoint.mk
        (SubchannelListenerEndpoint._host_addr ep)
        (mkOnce (_errtype (SubchannelListenerEndpoint._once ep)) true)
        (Some f) rest
        (SubchannelListenerEndpoint._wait_for_main_channel ep),
      mkWorld (heap w)
        (trace w ++ [F_buildProtocol f addr (next_protocol w)])
        (next_ref w) (S (next_protocol w)) (mgr_scids w) (mgr_allocated w)
        (deferreds w ++ [Failed AssertionError]))).
Proof.
  intros Hc Hr Hq Hsc Hp.
  unfold SubchannelListenerEndpoint.listen, new_Deferred. ep_unfold.
  unfold Once_call. rewrite Hc. ep_unfold. unfold when_fired.
  cbn [SubchannelListenerEndpoint._wait_for_main_channel
       SubchannelListenerEndpoint.with_once].
  rewrite Hr. ep_unfold. unfold resume, finish.
  unfold SubchannelListenerEndpoint.listen_resumed. ep_unfold.
  cbn [SubchannelListenerEndpoint._pending_opens
       SubchannelListenerEndpoint.with_wait
       SubchannelListenerEndpoint.with_factory
       SubchannelListenerEndpoint.with_once].
  rewrite Hq. cbn [length SubchannelListenerEndpoint.drain]. ep_unfold.
  cbn [SubchannelListenerEndpoint._pending_opens
       SubchannelListenerEndpoint.with_wait
       SubchannelListenerEndpoint.with_factory
       SubchannelListenerEndpoint.with_once].
  rewrite Hq. ep_unfold.
  unfold SubchannelListenerEndpoint._connect, buildProtocol. ep_unfold.
  cbn [SubchannelListenerEndpoint._factory
       SubchannelListenerEndpoint.with_pending_opens
       SubchannelListenerEndpoint.with_wait
       SubchannelListenerEndpoint.with_factory
       SubchannelListenerEndpoint.with_once].
  cbn [fst snd].
  erewrite _set_protocol_bound; [|solve_lookup|exact Hp].
  cbn [fst snd]. unfold set_outcome.
  cbn [deferreds with_deferreds with_trace with_next_protocol].
  rewrite insert_last. destruct ep, w. reflexivity.
Qed.

(** X13.  [connect] of a control endpoint whose subchannel zero already
    has a protocol builds a protocol, fails with the AssertionError of
    [_set_protocol] and never calls [makeConnection]: the Deferred has
    failed and the objects are as before. *)
Theorem control_connect_fails_on_bound_subchannel_zero
    (ep : ControlEndpoint.t) (w : World) (f : factory) (sc : SubChannel)
    (q : protocol) :
  _called (ControlEndpoint._once ep) = false ->
  _result (ControlEndpoint._wait_for_main_channel ep) = Some Ready ->
  heap w !! ControlEndpoint._subchannel_zero ep = Some sc ->
  _protocol sc = Some q ->
  ControlEndpoint.connect f (ep, w) =
    (Ok (length (deferreds w)),
     (ControlEndpoint.with_once
        (mkOnce (_errtype (ControlEndpoint._once ep)) true) ep,
      mkWorld (heap w)
        (trace w ++ [F_buildProtocol f (ControlEndpoint._peer_addr ep)
                       (next_protocol w)])
        (next_ref w) (S (next_protocol w)) (mgr_scids w) (mgr_allocated w)
        (deferreds w ++ [Failed AssertionError]))).
Proof.
  intros Hc Hr Hsc Hp.
  unfold ControlEndpoint.connect, new_Deferred. ep_unfold.
  unfold Once_call. rewrite Hc. ep_unfold. unfold when_fired.
  cbn [ControlEndpoint._wait_for_main_channel ControlEndpoint.with_once].
  rewrite Hr. ep_unfold. unfold resume, finish.
  unfold ControlEndpoint.connect_resumed, buildProtocol. ep_unfold.
  cbn [ControlEndpoint._subchannel_zero ControlEndpoint._peer_addr
       ControlEndpoint.with_wait ControlEndpoint.with_once].
  erewrite _set_protocol_bound; [|solve_lookup|exact Hp].
  cbn [fst snd]. unfold set_outcome.
  cbn [deferreds with_deferreds with_trace with_next_protocol].
  rewrite insert_last. destruct ep, w. reflexivity.
Qed.

Lemma step_keeps_identity self sc c :
  _scid (step self sc c).1.2 = _scid sc
  /\ _host_addr (step self sc c).1.2 = _host_addr sc
  /\ _peer_addr (step self sc c).1.2 = _peer_addr sc.
Proof.
  assert (Hin : forall i,
            _scid (step_input self sc i).1.2 = _scid sc
            /\ _host_addr (step_input self sc i).1.2 = _host_addr sc
            /\ _peer_addr (step_input self sc i).1.2 = _peer_addr sc).
  { intros i. destruct sc as [scid ha pa st pr pend cl].
    unfold step_input, deliver_data, deliver_close.
    cbn [_state _protocol with_state]. destruct st, i, pr; cbn; auto. }
  destruct c; cbn [step]; try apply Hin; auto.
  - destruct (_protocol sc); destruct sc; cbn; auto.
  - destruct data; auto.
    destruct (len data <=? MAX_FRAME_LENGTH); [apply Hin|auto].
  - destruct (bytes_join [] iovec) as [b|e]; [|auto].
    destruct (len b <=? MAX_FRAME_LENGTH); [apply Hin|auto].
Qed.

Lemma steps_keep_identity self cs : forall sc,
  _scid (steps self sc cs).1 = _scid sc
  /\ _host_addr (steps self sc cs).1 = _host_addr sc
  /\ _peer_addr (steps self sc cs).1 = _peer_addr sc.
Proof.
  induction cs as [|c cs IH]; intros sc; cbn [steps fst snd]; [auto|].
  destruct (step_keeps_identity self sc c) as (H1 & H2 & H3).
  destruct (IH (step self sc c).1.2) as (H1' & H2' & H3').
  repeat split; congruence.
Qed.

(** X14.  Whatever calls are made on a subchannel, [getHost] and
    [getPeer] answer the addresses it was constructed with, without
    changing anything, and its id stays the same. *)
Theorem addresses_never_change self sc w (cs : list call) :
  heap w !! self = Some sc ->
  let w' := invoke_all self cs w in
  getHost self w' = (Ok (_host_addr sc), w')
  /\ getPeer self w' = (Ok (_peer_addr sc), w')
  /\ _scid <$> heap w' !! self = Some (_scid sc).
Proof.
  intros Hsc. cbv zeta. rewrite (invoke_all_steps _ _ _ _ Hsc).
  destruct (steps_keep_identity self cs sc) as (H1 & H2 & H3).
  unfold getHost, getPeer. py_unfold.
  rewrite !(get_sc_ok _ _ _ (acted_lookup _ _ _ _)), acted_lookup.
  cbn [fmap option_fmap option_map]. rewrite H1, H2, H3. auto.
Qed.

(** X15.  The subchannel a connector endpoint opens has the id the
    manager allocated: its peer address is the SubchannelAddress of that
    id, the one the protocol was built for, and its host address is the
    one of the endpoint. *)
Theorem connector_subchannel_has_its_addresses
    (ep : SubchannelConnectorEndpoint.t) (w : World) (f : factory) :
  _result (SubchannelConnectorEndpoint._wait_for_main_channel ep)
    = Some Ready ->
  let w' := (SubchannelConnectorEndpoint.connect f (ep, w)).2.2 in
  let scid := mgr_scids w (mgr_allocated w) in
  getPeer (next_ref w) w' = (Ok (SubchannelAddress scid), w')
  /\ getHost (next_ref w) w'
     = (Ok (SubchannelConnectorEndpoint._host_addr ep), w')
  /\ buildProtocol_calls (trace w') =
       buildProtocol_calls (trace w)
       ++ [(f, SubchannelAddress scid, next_protocol w)]
  /\ _scid <$> heap w' !! next_ref w = Some scid.
Proof.
  intros Hr. cbv zeta.
  unfold SubchannelConnectorEndpoint.connect, new_Deferred. ep_unfold.
  unfold when_fired. rewrite Hr. ep_unfold.
  rewrite connector_resume_ready. cbn [fst snd].
  set (w' := opened _ _ _).
  assert (Hsc : heap w' !! next_ref w
                = Some (mkSubChannel (mgr_scids w (mgr_allocated w))
                          (SubchannelConnectorEndpoint._host_addr ep)
                          (SubchannelAddress (mgr_scids w (mgr_allocated w)))
                          open (Some (next_protocol w)) [] (false, None))).
  { subst w'. unfold opened. cbn [heap with_deferreds next_ref mgr_scids
      mgr_allocated next_protocol]. apply lookup_insert_eq. }
  unfold getPeer, getHost. py_unfold. rewrite !(get_sc_ok _ _ _ Hsc), Hsc.
  repeat split.
  subst w'. unfold opened, buildProtocol_calls.
  cbn [trace with_deferreds next_ref mgr_scids mgr_allocated next_protocol
       fst snd].
  rewrite omap_app. reflexivity.
Qed.

(** * The further properties at work *)

Lemma calls_on_the_second_of_three :
  let w := three_subchannels in
  let w' := invoke_all 1%nat
              [call_remote_data b_AB; call_loseConnection; call_remote_close]
              w in
  heap w !! 1%nat = Some (fresh_SubChannel 4)
  /\ (exists evs, trace w' = trace w ++ evs)
  /\ heap w' !! 0%nat = heap w !! 0%nat
  /\ heap w' !! 2%nat = heap w !! 2%nat
  /\ deferreds w' = deferreds w.
Proof.
  cbv zeta.
  destruct (calls_touch_only_their_subchannel 1%nat (fresh_SubChannel 4)
              three_subchannels
              [call_remote_data b_AB; call_loseConnection; call_remote_close]
              eq_refl) as (Ht & _ & Ho & _ & _ & _ & Hd).
  split; [reflexivity|]. split; [exact Ht|].
  split; [apply Ho; discriminate|]. split; [apply Ho; discriminate|exact Hd].
Defined.

Lemma closed_subchannel_refuses :
  let w := one_closed_subchannel in
  let sc := mkSubChannel 5 WormholeAddress (SubchannelAddress 5) closed None
              [] (true, Some ConnectionDone) in
  (heap w !! 0%nat = Some sc /\ _state sc = closed
   /\ len b_AB <= MAX_FRAME_LENGTH)
  /\ remote_data 0%nat b_CD w = (Raise NoTransition, w)
  /\ remote_close 0%nat w = (Raise NoTransition, w)
  /\ local_data 0%nat b_CD w = (Raise NoTransition, w)
  /\ local_close 0%nat w = (Raise NoTransition, w)
  /\ write 0%nat (PyBytes b_AB) w = (Raise NoTransition, w)
  /\ loseConnection 0%nat w = (Raise NoTransition, w).
Proof.
  cbv zeta.
  assert (Hle : len b_AB <= MAX_FRAME_LENGTH) by (intros H; discriminate H).
  split; [exact (conj eq_refl (conj eq_refl Hle))|].
  exact (closed_refuses_every_input 0%nat _ one_closed_subchannel b_CD b_AB
           eq_refl eq_refl Hle).
Defined.

Lemma graceful_close :
  let w := one_bound_subchannel in
  let sc := with_protocol (Some 7%nat) (fresh_SubChannel 5) in
  (heap w !! 0%nat = Some sc /\ _state sc = open
   /\ _protocol sc = Some 7%nat)
  /\ trace ((loseConnection 0%nat ;;
             run_all (map (remote_data 0%nat) [b_AB; b_CD]) ;;
             remote_close 0%nat) w).2 =
       [M_send_close 5; P_dataReceived 7%nat b_AB; P_dataReceived 7%nat b_CD;
        P_connectionLost 7%nat (Some ConnectionDone);
        M_subchannel_closed 5 0%nat].
Proof.
  cbv zeta.
  pose proof (local_close_then_remote_close 0%nat
                (with_protocol (Some 7%nat) (fresh_SubChannel 5))
                one_bound_subchannel 7%nat [b_AB; b_CD]
                eq_refl eq_refl eq_refl) as H.
  split; [repeat split|]. rewrite H. reflexivity.
Defined.

Lemma data_around_an_attach :
  let w := one_subchannel in
  let cs := [call_remote_data b_AB; call_write (PyStr "x");
             call__set_protocol 7%nat; call_remote_data b_CD;
             call_loseConnection; call_remote_data b_AB] in
  (heap w !! 0%nat = Some (fresh_SubChannel 5)
   /\ _state (fresh_SubChannel 5) <> closed
   /\ call_remote_close ∉ cs)
  /\ exists sc' evs,
       heap (invoke_all 0%nat cs w) !! 0%nat = Some sc'
       /\ trace (invoke_all 0%nat cs w) = trace w ++ evs
       /\ omap delivered evs ++ _pending_dataReceived sc'
          = [b_AB; b_CD; b_AB].
Proof.
  cbv zeta.
  assert (Hst : _state (fresh_SubChannel 5) <> closed) by discriminate.
  assert (Hcs : call_remote_close ∉
                [call_remote_data b_AB; call_write (PyStr "x");
                 call__set_protocol 7%nat; call_remote_data b_CD;
                 call_loseConnection; call_remote_data b_AB]).
  { rewrite !not_elem_of_cons. repeat split; try discriminate.
    apply not_elem_of_nil. }
  split; [exact (conj eq_refl (conj Hst Hcs))|].
  exact (remote_data_delivered_or_buffered_in_order 0%nat
           (fresh_SubChannel 5) one_subchannel _ eq_refl Hst
           (or_introl eq_refl) Hcs).
Defined.

Lemma calls_after_a_local_close :
  let w := one_closing_subchannel in
  let sc := with_state closing (fresh_SubChannel 5) in
  let cs := [call_write (PyBytes b_AB); call_remote_data b_CD;
             call_loseConnection; call_remote_close;
             call_write (PyBytes b_AB); call__set_protocol 7%nat] in
  (heap w !! 0%nat = Some sc /\ _state sc <> open)
  /\ exists sc' evs,
       heap (invoke_all 0%nat cs w) !! 0%nat = Some sc'
       /\ trace (invoke_all 0%nat cs w) = trace w ++ evs
       /\ _state sc' <> open
       /\ (_state sc = closed -> _state sc' = closed)
       /\ Forall (fun e => is_send e = false) evs.
Proof.
  cbv zeta.
  assert (Hst : _state (with_state closing (fresh_SubChannel 5)) <> open)
    by discriminate.
  split; [exact (conj eq_refl Hst)|].
  exact (nothing_sent_once_closing 0%nat _ one_closing_subchannel _
           eq_refl Hst).
Defined.

Lemma closes_of_a_busy_subchannel :
  let w := one_subchannel in
  let cs := [call_loseConnection; call_loseConnection; call_remote_close;
             call_remote_close; call__set_protocol 7%nat;
             call__set_protocol 8%nat] in
  (heap w !! 0%nat = Some (fresh_SubChannel 5)
   /\ _state (fresh_SubChannel 5) = open
   /\ (_pending_connectionLost (fresh_SubChannel 5)).1 = false)
  /\ exists sc' evs,
       heap (invoke_all 0%nat cs w) !! 0%nat = Some sc'
       /\ trace (invoke_all 0%nat cs w) = trace w ++ evs
       /\ count is_send_close evs
          = match _state sc' with open => 0 | _ => 1 end%nat
       /\ count is_subchannel_closed evs
          = match _state sc' with closed => 1 | _ => 0 end%nat
       /\ count is_connectionLost evs
          = match _state sc' with
            | closed => if truthy (_protocol sc') then 1 else 0
            | _ => 0
            end%nat.
Proof.
  cbv zeta. split; [repeat split|].
  exact (close_is_signalled_exactly_once 0%nat (fresh_SubChannel 5)
           one_subchannel _ eq_refl eq_refl eq_refl).
Defined.


Lemma control_connect_with_buffered_data :
  let sc := mkSubChannel 5 WormholeAddress (SubchannelAddress 5) closed None
              [b_AB] (true, Some ConnectionDone) in
  (_called (ControlEndpoint._once control_ready) = false
   /\ _result (ControlEndpoint._wait_for_main_channel control_ready)
      = Some Ready
   /\ heap one_buffered_subchannel !! 0%nat = Some sc
   /\ _protocol sc = None
   /\ ControlEndpoint._wait_for_main_channel control_suspended.1
      = mkObserver None [(0%nat, 8%nat)]
   /\ heap control_suspended.2 !! 0%nat = Some sc)
  /\ (let later := (ControlEndpoint.connect 9%nat
                      (control_ready, one_buffered_subchannel)).2.2 in
      observed_by 0%nat (trace later) =
        [P_dataReceived 0%nat b_AB;
         P_connectionLost 0%nat (Some ConnectionDone);
         P_makeConnection 0%nat 0%nat]
      /\ deferreds later = [Fired (V_protocol 0%nat)])
  /\ (let later := (ControlEndpoint._main_channel_ready
                      control_suspended).2.2 in
      observed_by 0%nat (trace later) =
        [P_dataReceived 0%nat b_AB;
         P_connectionLost 0%nat (Some ConnectionDone);
         P_makeConnection 0%nat 0%nat]
      /\ deferreds later = [Fired (V_protocol 0%nat)]).
Proof.
  cbv zeta.
  destruct (control_connect_binds_subchannel_zero
              control_ready control_suspended.1
              one_buffered_subchannel control_suspended.2
              9%nat 8%nat 0%nat
              (mkSubChannel 5 WormholeAddress (SubchannelAddress 5) closed
                 None [b_AB] (true, Some ConnectionDone))
              (mkSubChannel 5 WormholeAddress (SubchannelAddress 5) closed
                 None [b_AB] (true, Some ConnectionDone))
              eq_refl eq_refl eq_refl eq_refl eq_refl eq_refl eq_refl)
    as [H1 H2].
  rewrite <- surjective_pairing in H2.
  split; [repeat split|]. rewrite H1, H2. cbn [fst snd].
  vm_compute. repeat split.
Defined.

Lemma open_with_data_already_received :
  let ep := listener_listening.1 in
  let w := listener_with_data in
  let sc := with_pending_dataReceived [b_AB] (fresh_SubChannel 6) in
  (SubchannelListenerEndpoint._factory ep = Some 9%nat
   /\ heap w !! 2%nat = Some sc /\ _protocol sc = None)
  /\ exists evs,
       trace (SubchannelListenerEndpoint._got_open 2%nat (SubchannelAddress 6)
                (ep, w)).2.2 = trace w ++ evs
       /\ observed_by 2%nat evs =
            [P_dataReceived 2%nat b_AB; P_makeConnection 2%nat 2%nat].
Proof.
  cbv zeta.
  destruct (buffered_data_precedes_makeConnection
              listener_listening.1 listener_with_data 9%nat 2%nat
              (SubchannelAddress 6)
              (with_pending_dataReceived [b_AB] (fresh_SubChannel 6))
              eq_refl eq_refl eq_refl) as (evs & Ht & Ho & _).
  split; [repeat split|]. exists evs. split; [exact Ht|exact Ho].
Defined.

Lemma failed_main_channel :
  let cep := unused_ControlEndpoint (SubchannelAddress 0) 0%nat
               (Some (Errored 3%nat)) in
  let nep := SubchannelConnectorEndpoint.mk WormholeAddress
               (mkObserver (Some (Errored 3%nat)) []) in
  let lep := unused_ListenerEndpoint WormholeAddress []
               (Some (Errored 3%nat)) in
  let cep' := unused_ControlEndpoint (SubchannelAddress 0) 0%nat None in
  let nep' := connector_suspended.1 in
  let lep' := unused_ListenerEndpoint WormholeAddress [] None in
  let w := connector_suspended.2 in
  (_called (ControlEndpoint._once cep) = false
   /\ _result (ControlEndpoint._wait_for_main_channel cep)
      = Some (Errored 3%nat)
   /\ _result (SubchannelConnectorEndpoint._wait_for_main_channel nep)
      = Some (Errored 3%nat)
   /\ _called (SubchannelListenerEndpoint._once lep) = false
   /\ _result (SubchannelListenerEndpoint._wait_for_main_channel lep)
      = Some (Errored 3%nat)
   /\ _result (ControlEndpoint._wait_for_main_channel cep') = None
   /\ _result (SubchannelConnectorEndpoint._wait_for_main_channel nep') = None
   /\ _result (SubchannelListenerEndpoint._wait_for_main_channel lep') = None)
  /\ (SubchannelConnectorEndpoint.connect 9%nat (nep, w)).2.2
     = more_deferreds [Failed (Failure 3%nat)] w
  /\ deferreds
       (SubchannelConnectorEndpoint._main_channel_failed 3%nat (nep', w)).2.2
     = [Failed (Failure 3%nat); Failed (Failure 3%nat)]
  /\ trace
       (SubchannelConnectorEndpoint._main_channel_failed 3%nat (nep', w)).2.2
     = [].
Proof.
  cbv zeta.
  destruct (readiness_failure_is_propagated
              (unused_ControlEndpoint (SubchannelAddress 0) 0%nat
                 (Some (Errored 3%nat)))
              (SubchannelConnectorEndpoint.mk WormholeAddress
                 (mkObserver (Some (Errored 3%nat)) []))
              (unused_ListenerEndpoint WormholeAddress []
                 (Some (Errored 3%nat)))
              (unused_ControlEndpoint (SubchannelAddress 0) 0%nat None)
              connector_suspended.1
              (unused_ListenerEndpoint WormholeAddress [] None)
              connector_suspended.2 9%nat 3%nat
              eq_refl eq_refl eq_refl eq_refl eq_refl eq_refl eq_refl eq_refl)
    as (_ & H2 & _ & _ & H5 & _ & _).
  split; [repeat split|]. rewrite H2, H5. cbn [fst snd].
  split; [reflexivity|]. vm_compute. split; reflexivity.
Defined.

Lemma listen_with_a_bound_subchannel_queued :
  let ep := listener_bound_queue in
  let w := one_bound_subchannel in
  let sc := with_protocol (Some 7%nat) (fresh_SubChannel 5) in
  (_called (SubchannelListenerEndpoint._once ep) = false
   /\ _result (SubchannelListenerEndpoint._wait_for_main_channel ep)
      = Some Ready
   /\ SubchannelListenerEndpoint._pending_opens ep
      = [(0%nat, SubchannelAddress 5); (1%nat, SubchannelAddress 7)]
   /\ heap w !! 0%nat = Some sc /\ _protocol sc = Some 7%nat)
  /\ (let later := (SubchannelListenerEndpoint.listen 9%nat (ep, w)).2 in
      deferreds later.2 = [Failed AssertionError]
      /\ SubchannelListenerEndpoint._pending_opens later.1
         = [(1%nat, SubchannelAddress 7)]
      /\ SubchannelListenerEndpoint._factory later.1 = Some 9%nat
      /\ trace later.2 = [F_buildProtocol 9%nat (SubchannelAddress 5) 0%nat]).
Proof.
  cbv zeta.
  pose proof (listen_stops_at_a_bound_subchannel
                listener_bound_queue one_bound_subchannel 9%nat 0%nat
                (SubchannelAddress 5) [(1%nat, SubchannelAddress 7)]
                (with_protocol (Some 7%nat) (fresh_SubChannel 5)) 7%nat
                eq_refl eq_refl eq_refl eq_refl eq_refl) as H.
  split; [repeat split|]. rewrite H. cbn [fst snd]. repeat split.
Defined.

Lemma control_connect_on_a_bound_subchannel :
  let ep := control_ready in
  let w := one_bound_subchannel in
  let sc := with_protocol (Some 7%nat) (fresh_SubChannel 5) in
  (_called (ControlEndpoint._once ep) = false
   /\ _result (ControlEndpoint._wait_for_main_channel ep) = Some Ready
   /\ heap w !! 0%nat = Some sc /\ _protocol sc = Some 7%nat)
  /\ (let later := (ControlEndpoint.connect 9%nat (ep, w)).2.2 in
      deferreds later = [Failed AssertionError]
      /\ trace later = [F_buildProtocol 9%nat (SubchannelAddress 0) 0%nat]
      /\ heap later = heap w).
Proof.
  cbv zeta.
  pose proof (control_connect_fails_on_bound_subchannel_zero
                control_ready one_bound_subchannel 9%nat
                (with_protocol (Some 7%nat) (fresh_SubChannel 5)) 7%nat
                eq_refl eq_refl eq_refl eq_refl) as H.
  split; [repeat split|]. rewrite H. cbn [fst snd]. repeat split.
Defined.

Lemma addresses_after_calls :
  let w := three_subchannels in
  let w' := invoke_all 1%nat
              [call_remote_data b_AB; call__set_protocol 7%nat;
               call_loseConnection; call_remote_close] w in
  heap w !! 1%nat = Some (fresh_SubChannel 4)
  /\ getHost 1%nat w' = (Ok WormholeAddress, w')
  /\ getPeer 1%nat w' = (Ok (SubchannelAddress 4), w')
  /\ _scid <$> heap w' !! 1%nat = Some 4.
Proof.
  cbv zeta. split; [reflexivity|].
  exact (addresses_never_change 1%nat (fresh_SubChannel 4) three_subchannels
           _ eq_refl).
Defined.

Lemma addresses_of_a_connected_subchannel :
  let ep := connector_ready.1 in
  let w := connector_ready.2 in
  let w' := (SubchannelConnectorEndpoint.connect 9%nat (ep, w)).2.2 in
  _result (SubchannelConnectorEndpoint._wait_for_main_channel ep)
    = Some Ready
  /\ getPeer 0%nat w' = (Ok (SubchannelAddress 1), w')
  /\ getHost 0%nat w' = (Ok WormholeAddress, w')
  /\ buildProtocol_calls (trace w') = [(9%nat, SubchannelAddress 1, 0%nat)]
  /\ _scid <$> heap w' !! 0%nat = Some 1.
Proof.
  cbv zeta. split; [reflexivity|].
  exact (connector_subchannel_has_its_addresses connector_ready.1
           connector_ready.2 9%nat eq_refl).
Defined.
